(** * Hotel management system: the Hotel aggregate of
    [Hotel_Management_System.py], embedded and verified.

    Conventions of the embedding.
    - A Python [str] is a [string]; a Python [bool] is a [bool].
    - A [datetime.date] is its proleptic Gregorian ordinal
      ([date.toordinal()]), an integer: comparison of dates is comparison of
      ordinals and [(d2 - d1).days] is the difference of ordinals.
    - An amount of money (price, charge) is a Python [float], as the
      signatures of the source declare it ([price_per_night: float],
      [price: float]) and as [main] reads every price ([float(input(...))]):
      a binary64 floating-point number, whose [+] and [*] round to the
      nearest.  A number of days is a Python [int], converted to a [float]
      where it is multiplied with one.
    - A Python [dict] is an insertion-ordered association list with the
      operations the source uses ([in], [d[k]], [d[k] = v], [values()]).
    - Objects held in a registry of the hotel are referred to by their key:
      [Reservation.room] and [Reservation.guest] hold the key of the object in
      [Hotel.rooms] and [Hotel.guests], and a write through the reference
      ([reservation.room.is_occupied = True]) is an update of the registry at
      that key, so that every holder of the reference sees it.
    - A method of [Hotel] is a computation in a state-and-exception monad
      over the hotel: it returns the state it leaves behind also when it
      raises.
    - [save_to_file] and [load_from_file] are taken at the JSON value they
      hand to [json.dump] and get from [json.load]; the text of the file and
      the file system are outside the model. *)

From Stdlib Require Import Ascii Floats Uint63.
From stdpp Require Import base decidable option numbers strings pretty list.

Local Open Scope Z_scope.
Set Warnings "-inexact-float".

(** ** Insertion-ordered dictionaries *)

Module Dict.
Section dict.
Context {K V : Type} `{EqDecision K}.

Definition t := list (K * V).

Definition empty : t := [].

(** [d[k]], [None] where Python raises [KeyError]. *)
Fixpoint get (k : K) (d : t) : option V :=
  match d with
  | [] => None
  | (k', v) :: d' => if decide (k = k') then Some v else get k d'
  end.

(** [k in d] *)
Definition mem (k : K) (d : t) : bool :=
  match get k d with Some _ => true | None => false end.

(** [d[k] = v]: an existing key keeps its position, a new key goes last. *)
Fixpoint set (k : K) (v : V) (d : t) : t :=
  match d with
  | [] => [(k, v)]
  | (k', v') :: d' =>
      if decide (k = k') then (k, v) :: d' else (k', v') :: set k v d'
  end.

(** Mutation of the object stored at [k] (nothing to mutate when absent). *)
Fixpoint alter (f : V → V) (k : K) (d : t) : t :=
  match d with
  | [] => []
  | (k', v) :: d' =>
      if decide (k = k') then (k', f v) :: d' else (k', v) :: alter f k d'
  end.

Definition keys (d : t) : list K := d.*1.
Definition values (d : t) : list V := d.*2.
End dict.
Global Arguments t : clear implicits.
End Dict.

(** ** Dates *)

Definition date := Z.

(** The calendar of [datetime], after CPython's [Lib/_pydatetime.py]: the
    ordinal of a year, month and day ([_ymd2ord]), its inverse ([_ord2ymd]),
    and the text of a date. *)
Module Calendar.
Definition MINYEAR : Z := 1.
Definition MAXYEAR : Z := 9999.
(** [date.max.toordinal()] *)
Definition MAXORDINAL : Z := 3652059.

Definition is_leap (year : Z) : bool :=
  (year mod 4 =? 0) && (negb (year mod 100 =? 0) || (year mod 400 =? 0)).

Definition days_before_year (year : Z) : Z :=
  let y := year - 1 in
  y * 365 + y / 4 - y / 100 + y / 400.

(** The table [_DAYS_IN_MONTH] *)
Definition DAYS_IN_MONTH (month : Z) : Z :=
  match month with
  | 1 => 31 | 2 => 28 | 3 => 31 | 4 => 30 | 5 => 31 | 6 => 30
  | 7 => 31 | 8 => 31 | 9 => 30 | 10 => 31 | 11 => 30 | 12 => 31
  | _ => -1
  end.

(** The table [_DAYS_BEFORE_MONTH] *)
Definition DAYS_BEFORE_MONTH (month : Z) : Z :=
  match month with
  | 1 => 0 | 2 => 31 | 3 => 59 | 4 => 90 | 5 => 120 | 6 => 151
  | 7 => 181 | 8 => 212 | 9 => 243 | 10 => 273 | 11 => 304 | 12 => 334
  | _ => -1
  end.

Definition days_in_month (year month : Z) : Z :=
  if (month =? 2) && is_leap year then 29 else DAYS_IN_MONTH month.

Definition days_before_month (year month : Z) : Z :=
  DAYS_BEFORE_MONTH month + (if (2 <? month) && is_leap year then 1 else 0).

Definition ymd2ord (year month day : Z) : date :=
  days_before_year year + days_before_month year month + day.

Definition DI400Y : Z := 146097.
Definition DI100Y : Z := 36524.
Definition DI4Y : Z := 1461.

(** The last lines of [_ord2ymd]: the month and the day of the [n]-th day
    (from 0) of a year, from an estimate of the month that is exact or one
    too large. *)
Definition month_and_day (leapyear : bool) (n : Z) : Z * Z :=
  let month := Z.shiftr (n + 50) 5 in
  let preceding :=
    DAYS_BEFORE_MONTH month + (if (2 <? month) && leapyear then 1 else 0) in
  if n <? preceding then
    let month := month - 1 in
    let preceding :=
      preceding
      - (DAYS_IN_MONTH month + (if (month =? 2) && leapyear then 1 else 0)) in
    (month, n - preceding + 1)
  else (month, n - preceding + 1).

(** What [month_and_day] has to return for the [n]-th day of a year: a
    month, a day of this month, and [n] days before them. *)
Definition month_and_day_ok (leapyear : bool) (n : Z) : bool :=
  let '(month, day) := month_and_day leapyear n in
  bool_decide (1 ≤ month ≤ 12)
  && bool_decide (1 ≤ day ≤ DAYS_IN_MONTH month
                            + (if (month =? 2) && leapyear then 1 else 0))
  && bool_decide (DAYS_BEFORE_MONTH month
                  + (if (2 <? month) && leapyear then 1 else 0) + day = n + 1).

Definition ord2ymd (n : date) : Z * Z * Z :=
  let n := n - 1 in
  let n400 := n / DI400Y in
  let n := n mod DI400Y in
  let year := n400 * 400 + 1 in
  let n100 := n / DI100Y in
  let n := n mod DI100Y in
  let n4 := n / DI4Y in
  let n := n mod DI4Y in
  let n1 := n / 365 in
  let n := n mod 365 in
  let year := year + n100 * 100 + n4 * 4 + n1 in
  if (n1 =? 4) || (n100 =? 4) then (year - 1, 12, 31) else
  let leapyear := (n1 =? 3) && (negb (n4 =? 24) || (n100 =? 3)) in
  let '(month, day) := month_and_day leapyear n in
  (year, month, day).

(** A date object holds an ordinal between [date.min] and [date.max]. *)
Definition valid (d : date) : Prop := 1 ≤ d ≤ MAXORDINAL.

(** [chr(ord("0") + d)], the decimal digit [d]. *)
Definition digit_char (d : Z) : ascii := ascii_of_N (Z.to_N (48 + d)).

(** The value of a decimal digit, [None] for another character. *)
Definition digit_value (c : ascii) : option Z :=
  let n := Z.of_N (N_of_ascii c) in
  if bool_decide (48 ≤ n ≤ 57) then Some (n - 48) else None.

(** ["%04d-%02d-%02d" % (year, month, day)], for the years 1 to 9999 of a
    date. *)
Definition format_ymd (year month day : Z) : string :=
  String (digit_char (year / 1000 mod 10))
 (String (digit_char (year / 100 mod 10))
 (String (digit_char (year / 10 mod 10))
 (String (digit_char (year mod 10))
 (String "-"
 (String (digit_char (month / 10 mod 10))
 (String (digit_char (month mod 10))
 (String "-"
 (String (digit_char (day / 10 mod 10))
 (String (digit_char (day mod 10)) EmptyString))))))))).

(** [date.isoformat] *)
Definition isoformat (d : date) : string :=
  let '(year, month, day) := ord2ymd d in format_ymd year month day.

(** [int] of a string of decimal digits *)
Definition number (cs : list ascii) : option Z :=
  foldl (λ acc c, n ← acc; v ← digit_value c; Some (n * 10 + v)) (Some 0) cs.

(** [date.fromisoformat] on the format [YYYY-MM-DD], the one [isoformat]
    writes; [None] where Python raises [ValueError]. *)
Definition fromisoformat (s : string) : option date :=
  match s with
  | String y1 (String y2 (String y3 (String y4 (String "-"
    (String m1 (String m2 (String "-"
    (String d1 (String d2 EmptyString))))))))) =>
      year ← number [y1; y2; y3; y4];
      month ← number [m1; m2];
      day ← number [d1; d2];
      if bool_decide (MINYEAR ≤ year ≤ MAXYEAR)
         && bool_decide (1 ≤ month ≤ 12)
         && bool_decide (1 ≤ day ≤ days_in_month year month)
      then Some (ymd2ord year month day)
      else None
  | _ => None
  end.
End Calendar.

(** ** Amounts of money

    A Python [float] is a [float] of the kernel: the binary64 numbers of the
    machine, with [+] and [*] rounding to the nearest (ties to even).  A
    decimal literal such as [99.99] denotes the nearest binary64 number, as
    it does in Python. *)

(** The [float] a Python [int] becomes in [float * int]: the nearest binary64
    number, the int itself below 2^53.  The definition is for the ints below
    2^63 in size, which the number of days between two dates is. *)
Definition float_of_int (n : Z) : float :=
  if bool_decide (n < 0) then (- PrimFloat.of_uint63 (Uint63.of_Z (- n)))%float
  else PrimFloat.of_uint63 (Uint63.of_Z n).

(** [0 <= x] and [x <= 0] on floats: false of [nan], true of both zeros. *)
Definition not_negative (x : float) : Prop := (0 <=? x)%float = true.
Definition not_positive (x : float) : Prop := (x <=? 0)%float = true.

(** The binary64 numbers as [Prim2SF] shows them: those of sign [s], the
    zeros among them whatever their sign, and the finite ones. *)
Definition sf_signed (s : bool) (x : spec_float) : bool :=
  match x with
  | S754_zero _ => true
  | S754_finite s' _ _ | S754_infinity s' => bool_decide (s' = s)
  | S754_nan => false
  end.

Definition sf_finite (x : spec_float) : bool :=
  match x with
  | S754_zero _ | S754_finite _ _ _ => true
  | S754_infinity _ | S754_nan => false
  end.

(** The binary64 number of a whole number of up to 53 binary digits. *)
Definition canon (z : Z) : spec_float :=
  S754_finite false (Z.to_pos (z * 2 ^ (53 - Zdigits2 z))) (Zdigits2 z - 53).

(** The amount [x] is the whole number [z], which is not negative. *)
Definition whole (x : float) (z : Z) : Prop := 0 ≤ z ∧ x = float_of_int z.

(** ** The classes [Room], [Guest], [Reservation] *)

Record Room := mkRoom {
  room_number : string;
  room_type : string;
  price_per_night : float;
  is_occupied : bool
}.

Record Guest := mkGuest {
  guest_id : string;
  guest_name : string;
  email : string;
  phone : string
}.

Record Reservation := mkReservation {
  reservation_id : string;
  guest : string;               (* reference: key in [Hotel.guests] *)
  room : string;                (* reference: key in [Hotel.rooms] *)
  check_in_date : date;
  check_out_date : date;
  is_checked_in : bool;
  is_checked_out : bool;
  services_used : list (string * float);
  total_charges : float
}.

Definition set_is_occupied (b : bool) (r : Room) : Room :=
  mkRoom (room_number r) (room_type r) (price_per_night r) b.

Definition set_is_checked_in (b : bool) (r : Reservation) : Reservation :=
  mkReservation (reservation_id r) (guest r) (room r) (check_in_date r)
    (check_out_date r) b (is_checked_out r) (services_used r) (total_charges r).

Definition set_is_checked_out (b : bool) (r : Reservation) : Reservation :=
  mkReservation (reservation_id r) (guest r) (room r) (check_in_date r)
    (check_out_date r) (is_checked_in r) b (services_used r) (total_charges r).

Definition set_services_used (s : list (string * float)) (r : Reservation) : Reservation :=
  mkReservation (reservation_id r) (guest r) (room r) (check_in_date r)
    (check_out_date r) (is_checked_in r) (is_checked_out r) s (total_charges r).

Definition set_total_charges (c : float) (r : Reservation) : Reservation :=
  mkReservation (reservation_id r) (guest r) (room r) (check_in_date r)
    (check_out_date r) (is_checked_in r) (is_checked_out r) (services_used r) c.

(** [Reservation.__init__] *)
Definition Reservation_init (reservation_id : string) (guest_ : Guest) (room_ : Room)
    (check_in_date check_out_date : date) : Reservation :=
  mkReservation reservation_id (guest_id guest_) (room_number room_)
    check_in_date check_out_date false false []
    (price_per_night room_ * float_of_int (check_out_date - check_in_date))%float.

(** [Reservation.add_service] *)
Definition add_service (service_name : string) (price : float) (self : Reservation)
    : Reservation :=
  let self := set_services_used (services_used self ++ [(service_name, price)]) self in
  set_total_charges (total_charges self + price)%float self.

(** [sum(price for _, price in services)]: the prices added one after the
    other, from left to right, to the start value 0.  (CPython 3.12 and later
    carry a correction term through the float additions of [sum], which can
    change the last bits of a sum of three or more prices; this is the plain
    sum of the versions before.) *)
Definition service_charges (services : list (string * float)) : float :=
  foldl (λ acc s, acc + s.2)%float 0%float services.

(** [Reservation.calculate_total_charges]; [self_room] is the object
    [self.room] refers to. *)
Definition calculate_total_charges (self_room : Room) (self : Reservation) : float :=
  let nights := check_out_date self - check_in_date self in
  let room_charges := (price_per_night self_room * float_of_int nights)%float in
  (room_charges + service_charges (services_used self))%float.

(** ** The class [Hotel] *)

Record Hotel := mkHotel {
  name : string;
  rooms : Dict.t string Room;
  guests : Dict.t string Guest;
  reservations : Dict.t string Reservation;
  next_reservation_id : Z
}.

Definition set_rooms (f : Dict.t string Room → Dict.t string Room) (h : Hotel) : Hotel :=
  mkHotel (name h) (f (rooms h)) (guests h) (reservations h) (next_reservation_id h).

Definition set_guests (f : Dict.t string Guest → Dict.t string Guest) (h : Hotel) : Hotel :=
  mkHotel (name h) (rooms h) (f (guests h)) (reservations h) (next_reservation_id h).

Definition set_reservations
    (f : Dict.t string Reservation → Dict.t string Reservation) (h : Hotel) : Hotel :=
  mkHotel (name h) (rooms h) (guests h) (f (reservations h)) (next_reservation_id h).

Definition set_next_reservation_id (n : Z) (h : Hotel) : Hotel :=
  mkHotel (name h) (rooms h) (guests h) (reservations h) n.

(** [Hotel.__init__] *)
Definition Hotel_init (name : string) : Hotel :=
  mkHotel name Dict.empty Dict.empty Dict.empty 1.

(** ** Exceptions *)

(** One constructor per [raise] of the source; [KeyError] is what a failed
    [d[k]] raises in [load_from_file], [InvalidIsoFormat] the [ValueError] of
    [date.fromisoformat], [TypeError] the reading of a JSON value of an
    unexpected type.  [DanglingReference] stands for reading
    through a reference whose key is in no registry: a Python reference always
    denotes an object, and [wf_no_dangling] below shows that the hotel's
    methods never meet the case. *)
Inductive error :=
  | RoomExists (room_number : string)
  | GuestExists (guest_id : string)
  | GuestNotFound (guest_id : string)
  | RoomNotFound (room_number : string)
  | RoomOccupied (room_number : string)
  | RoomNotAvailable (room_number : string)
  | ReservationNotFound (reservation_id : string)
  | AlreadyCheckedIn (reservation_id : string)
  | NotCheckedIn (reservation_id : string)
  | AlreadyCheckedOut (reservation_id : string)
  | KeyError (key : string)
  | TypeError (key : string)
  | InvalidIsoFormat (s : string)
  | DanglingReference (key : string).

(** The text of the [ValueError] raised. *)
Definition message (e : error) : string :=
  match e with
  | RoomExists n => "Room " +:+ n +:+ " already exists"
  | GuestExists g => "Guest " +:+ g +:+ " already exists"
  | GuestNotFound g => "Guest " +:+ g +:+ " not found"
  | RoomNotFound n => "Room " +:+ n +:+ " not found"
  | RoomOccupied n => "Room " +:+ n +:+ " is already occupied"
  | RoomNotAvailable n => "Room " +:+ n +:+ " is not available for the selected dates"
  | ReservationNotFound r => "Reservation " +:+ r +:+ " not found"
  | AlreadyCheckedIn r => "Reservation " +:+ r +:+ " is already checked in"
  | NotCheckedIn r => "Reservation " +:+ r +:+ " is not checked in"
  | AlreadyCheckedOut r => "Reservation " +:+ r +:+ " is already checked out"
  | KeyError k => k
  | TypeError k => k
  | InvalidIsoFormat s => "Invalid isoformat string: " +:+ s
  | DanglingReference k => k
  end.

(** The error kinds of the specification. *)
Inductive error_kind := DuplicateKey | NotFound | Conflict | InvalidState.

Definition kind (e : error) : option error_kind :=
  match e with
  | RoomExists _ | GuestExists _ => Some DuplicateKey
  | GuestNotFound _ | RoomNotFound _ | ReservationNotFound _ | KeyError _ => Some NotFound
  | RoomOccupied _ | RoomNotAvailable _ => Some Conflict
  | AlreadyCheckedIn _ | NotCheckedIn _ | AlreadyCheckedOut _ => Some InvalidState
  | TypeError _ | InvalidIsoFormat _ | DanglingReference _ => None
  end.

(** ** The monad of methods: state and exceptions *)

Inductive result (A : Type) :=
  | Ok (a : A)
  | Raise (e : error).
Global Arguments Ok {A} a.
Global Arguments Raise {A} e.

Definition M (A : Type) : Type := Hotel → result A * Hotel.

Global Instance M_ret : MRet M := λ A a h, (Ok a, h).
Global Instance M_bind : MBind M := λ A B f m h,
  match m h with
  | (Ok a, h') => f a h'
  | (Raise e, h') => (Raise e, h')
  end.

Definition raise {A} (e : error) : M A := λ h, (Raise e, h).
Definition gets {A} (f : Hotel → A) : M A := λ h, (Ok (f h), h).
Definition modify (f : Hotel → Hotel) : M unit := λ h, (Ok (), f h).

(** [for x in l: body(x)] *)
Fixpoint for_each {A} (l : list A) (body : A → M unit) : M unit :=
  match l with
  | [] => mret ()
  | x :: l' => body x ;; for_each l' body
  end.

(** [if k not in d: raise e] followed by [d[k]].  [make_reservation] reads
    [self.guests[guest_id]] some lines after the test; nothing in between
    writes to [self.guests]. *)
Definition lookup_or_raise {V} (d : Hotel → Dict.t string V) (k : string)
    (e : error) : M V :=
  d ← gets d;
  match Dict.get k d with
  | Some v => mret v
  | None => raise e
  end.

(** ** Methods of [Hotel] *)

Definition add_room (room : Room) : M unit :=
  rs ← gets rooms;
  if Dict.mem (room_number room) rs then raise (RoomExists (room_number room))
  else modify (set_rooms (Dict.set (room_number room) room)).

Definition add_guest (guest : Guest) : M unit :=
  gs ← gets guests;
  if Dict.mem (guest_id guest) gs then raise (GuestExists (guest_id guest))
  else modify (set_guests (Dict.set (guest_id guest) guest)).

(** The date test of [make_reservation] and [get_available_rooms]. *)
Definition dates_overlap (check_in check_out : date) (reservation : Reservation) : bool :=
  bool_decide (check_in < check_out_date reservation)
  && bool_decide (check_out > check_in_date reservation).

(** [f"RES-{n}"] *)
Definition res_id (n : Z) : string := "RES-" +:+ pretty n.

Definition make_reservation (guest_id room_number : string)
    (check_in_date check_out_date : date) : M Reservation :=
  guest_ ← lookup_or_raise guests guest_id (GuestNotFound guest_id);
  room_ ← lookup_or_raise rooms room_number (RoomNotFound room_number);
  (if is_occupied room_ then raise (RoomOccupied room_number) else mret ());;
  rsv ← gets reservations;
  for_each (Dict.values rsv) (λ reservation,
    if bool_decide (room reservation = room_number) then
      if dates_overlap check_in_date check_out_date reservation
      then raise (RoomNotAvailable room_number)
      else mret ()
    else mret ());;
  n ← gets next_reservation_id;
  let reservation_id := res_id n in
  modify (set_next_reservation_id (n + 1));;
  let reservation :=
    Reservation_init reservation_id guest_ room_ check_in_date check_out_date in
  modify (set_reservations (Dict.set reservation_id reservation));;
  mret reservation.

Definition check_in (reservation_id : string) : M unit :=
  reservation ← lookup_or_raise reservations reservation_id
                  (ReservationNotFound reservation_id);
  if is_checked_in reservation then raise (AlreadyCheckedIn reservation_id) else
  modify (set_reservations (Dict.alter (set_is_checked_in true) reservation_id));;
  modify (set_rooms (Dict.alter (set_is_occupied true) (room reservation))).

Definition check_out (reservation_id : string) : M unit :=
  reservation ← lookup_or_raise reservations reservation_id
                  (ReservationNotFound reservation_id);
  if negb (is_checked_in reservation) then raise (NotCheckedIn reservation_id) else
  if is_checked_out reservation then raise (AlreadyCheckedOut reservation_id) else
  modify (set_reservations (Dict.alter (set_is_checked_out true) reservation_id));;
  modify (set_rooms (Dict.alter (set_is_occupied false) (room reservation)));;
  let self := set_is_checked_out true reservation in
  self_room ← lookup_or_raise rooms (room self) (DanglingReference (room self));
  modify (set_reservations
    (Dict.alter (set_total_charges (calculate_total_charges self_room self))
       reservation_id)).

(** Entry 8 of the menu of [main]: [hotel.reservations[reservation_id]
    .add_service(service_name, service_price)] when the id is known; where the
    menu reports "Reservation not found" the computation raises. *)
Definition add_service_to_reservation (reservation_id service_name : string)
    (service_price : float) : M unit :=
  _ ← lookup_or_raise reservations reservation_id (ReservationNotFound reservation_id);
  modify (set_reservations
    (Dict.alter (add_service service_name service_price) reservation_id)).

(** The inner loop of [get_available_rooms]: [false] as soon as a reservation
    of the room overlaps the dates ([break]), [true] when the loop runs out. *)
Fixpoint no_overlapping_reservation (room_number : string) (check_in check_out : date)
    (rsv : list Reservation) : bool :=
  match rsv with
  | [] => true
  | reservation :: rsv' =>
      if bool_decide (room reservation = room_number)
         && dates_overlap check_in check_out reservation
      then false
      else no_overlapping_reservation room_number check_in check_out rsv'
  end.

Definition get_available_rooms (check_in check_out : date) : M (list Room) :=
  rs ← gets rooms;
  rsv ← gets reservations;
  mret (foldl (λ available_rooms room_,
      let is_available :=
        if is_occupied room_ then false
        else no_overlapping_reservation (room_number room_) check_in check_out
               (Dict.values rsv) in
      if is_available then available_rooms ++ [room_] else available_rooms)
    [] (Dict.values rs)).

(** ** Operations and reachable states *)

Inductive op :=
  | AddRoom (room_ : Room)
  | AddGuest (guest_ : Guest)
  | MakeReservation (guest_id room_number : string) (check_in_date check_out_date : date)
  | CheckIn (reservation_id : string)
  | CheckOut (reservation_id : string)
  | AddService (reservation_id service_name : string) (price : float).

Definition run (o : op) : M unit :=
  match o with
  | AddRoom r => add_room r
  | AddGuest g => add_guest g
  | MakeReservation g n ci co => make_reservation g n ci co ;; mret ()
  | CheckIn i => check_in i
  | CheckOut i => check_out i
  | AddService i s p => add_service_to_reservation i s p
  end.

(** The states a hotel created by [Hotel(name)] is in after a sequence of
    successful operations. *)
Inductive reachable : Hotel → Prop :=
  | reachable_init name : reachable (Hotel_init name)
  | reachable_step h o h' :
      reachable h → run o h = (Ok (), h') → reachable h'.

(** The state after a sequence of operations, failed ones included. *)
Definition exec (os : list op) (h : Hotel) : Hotel :=
  foldl (λ h o, (run o h).2) h os.

(** ** States the methods leave behind *)

(** The reservation [make_reservation] creates in state [h]. *)
Definition new_reservation (h : Hotel) (guest_ : Guest) (room_ : Room)
    (ci co : date) : Reservation :=
  Reservation_init (res_id (next_reservation_id h)) guest_ room_ ci co.

Definition with_reservation (r : Reservation) (h : Hotel) : Hotel :=
  mkHotel (name h) (rooms h) (guests h)
    (Dict.set (reservation_id r) r (reservations h)) (next_reservation_id h + 1).

Definition checked_in (i : string) (r : Reservation) (h : Hotel) : Hotel :=
  mkHotel (name h) (Dict.alter (set_is_occupied true) (room r) (rooms h)) (guests h)
    (Dict.alter (set_is_checked_in true) i (reservations h)) (next_reservation_id h).

(** The state of [check_out] after its two flag assignments, and after the
    assignment of the recomputed charges. *)
Definition checked_out_flags (i : string) (r : Reservation) (h : Hotel) : Hotel :=
  mkHotel (name h) (Dict.alter (set_is_occupied false) (room r) (rooms h)) (guests h)
    (Dict.alter (set_is_checked_out true) i (reservations h)) (next_reservation_id h).

Definition checked_out (i : string) (r : Reservation) (room_ : Room) (h : Hotel) : Hotel :=
  set_reservations
    (Dict.alter (set_total_charges
       (calculate_total_charges room_ (set_is_checked_out true r))) i)
    (checked_out_flags i r h).

(** ** Invariants of the hotel *)

(** The registries are dictionaries (no key twice), every object is filed
    under its own id, and every reference of a reservation denotes an object
    of the registries. *)
Record wf (h : Hotel) : Prop := mk_wf {
  wf_rooms_nodup : NoDup (Dict.keys (rooms h));
  wf_guests_nodup : NoDup (Dict.keys (guests h));
  wf_reservations_nodup : NoDup (Dict.keys (reservations h));
  wf_rooms_key : ∀ k x, Dict.get k (rooms h) = Some x → room_number x = k;
  wf_guests_key : ∀ k x, Dict.get k (guests h) = Some x → guest_id x = k;
  wf_reservations_key :
    ∀ k x, Dict.get k (reservations h) = Some x → reservation_id x = k;
  wf_room_ref :
    ∀ k x, Dict.get k (reservations h) = Some x →
      is_Some (Dict.get (room x) (rooms h));
  wf_guest_ref :
    ∀ k x, Dict.get k (reservations h) = Some x →
      is_Some (Dict.get (guest x) (guests h))
}.

(** No two reservations of one room pass the date test of
    [make_reservation] against each other. *)
Definition no_double_booking (h : Hotel) : Prop :=
  ∀ i j r1 r2,
    i ≠ j →
    Dict.get i (reservations h) = Some r1 →
    Dict.get j (reservations h) = Some r2 →
    room r1 = room r2 →
    dates_overlap (check_in_date r1) (check_out_date r1) r2 = false.


(** [room.price_per_night * (check_out_date - check_in_date).days] *)
Definition room_charges (room_ : Room) (r : Reservation) : float :=
  (price_per_night room_ * float_of_int (check_out_date r - check_in_date r))%float.

(** What the [total_charges += price] of [add_service] make of the charges
    [total], one service after the other. *)
Definition charged (total : float) (services : list (string * float)) : float :=
  foldl (λ acc s, acc + s.2)%float total services.

(** The stored charges are the sum the methods have computed so far: the
    room charges of [Reservation.__init__] and the prices [add_service] has
    added to them, one by one; after [check_out], what it recomputed from the
    services of that moment ([before]) and the prices added since
    ([after]). *)
Definition charges_accumulated (h : Hotel) : Prop :=
  ∀ i r, Dict.get i (reservations h) = Some r →
    ∃ room_, Dict.get (room r) (rooms h) = Some room_
      ∧ if is_checked_out r then
          ∃ before after,
            services_used r = before ++ after
            ∧ total_charges r
              = charged (room_charges room_ r + service_charges before)%float after
        else total_charges r = charged (room_charges room_ r) (services_used r).

Definition lifecycle_ok (h : Hotel) : Prop :=
  ∀ i r, Dict.get i (reservations h) = Some r →
    is_checked_out r = true → is_checked_in r = true.

(** The reservation ids are RES-1, RES-2, ... in the order of creation, up
    to the counter. *)
Definition ids_ok (h : Hotel) : Prop :=
  1 ≤ next_reservation_id h
  ∧ Dict.keys (reservations h) = res_id <$> seqZ 1 (next_reservation_id h - 1).

(** The operations other than [make_reservation] leave the room and the
    dates of every reservation as they are. *)
Definition same_stay (r y : Reservation) : Prop :=
  room r = room y
  ∧ check_in_date r = check_in_date y
  ∧ check_out_date r = check_out_date y.


(** ** Persistence

    [save_to_file] builds a JSON value and hands it to [json.dump];
    [load_from_file] takes the value [json.load] returns.  The text of the
    file is not modelled: [json.load] returns the value [json.dump] was given,
    except that a Python tuple comes back as a list, which is why a service
    is the two-element sequence of a name and a price on both sides.  A JSON
    number is the [int] ([JNumber]) or the [float] ([JFloat]) Python has for
    it: the counter of the hotel is an [int], an amount a [float]. *)

#[warnings="-register-all"]
Inductive json :=
  | JNull
  | JBool (b : bool)
  | JNumber (n : Z)
  | JFloat (x : float)
  | JString (s : string)
  | JList (l : list json)
  | JDict (d : Dict.t string json).

(** The pair [(service_name, price)] as the sequence [json.dump] writes. *)
Definition service_to_json (service : string * float) : json :=
  JList [JString service.1; JFloat service.2].

Definition room_to_json (room_ : Room) : json :=
  JDict [("room_number", JString (room_number room_));
         ("room_type", JString (room_type room_));
         ("price_per_night", JFloat (price_per_night room_));
         ("is_occupied", JBool (is_occupied room_))].

Definition guest_to_json (guest_ : Guest) : json :=
  JDict [("guest_id", JString (guest_id guest_));
         ("name", JString (guest_name guest_));
         ("email", JString (email guest_));
         ("phone", JString (phone guest_))].

(** [res.guest.guest_id] and [res.room.room_number] are the keys the
    references hold. *)
Definition reservation_to_json (res : Reservation) : json :=
  JDict [("reservation_id", JString (reservation_id res));
         ("guest_id", JString (guest res));
         ("room_number", JString (room res));
         ("check_in_date", JString (Calendar.isoformat (check_in_date res)));
         ("check_out_date", JString (Calendar.isoformat (check_out_date res)));
         ("is_checked_in", JBool (is_checked_in res));
         ("is_checked_out", JBool (is_checked_out res));
         ("services_used", JList (service_to_json <$> services_used res));
         ("total_charges", JFloat (total_charges res))].

(** The value [save_to_file] writes. *)
Definition save_to_file (self : Hotel) : json :=
  JDict [("name", JString (name self));
         ("next_reservation_id", JNumber (next_reservation_id self));
         ("rooms", JList (room_to_json <$> Dict.values (rooms self)));
         ("guests", JList (guest_to_json <$> Dict.values (guests self)));
         ("reservations",
            JList (reservation_to_json <$> Dict.values (reservations self)))].

(** Exceptions without a state, for the reading of the JSON value. *)
Global Instance result_ret : MRet result := λ A a, Ok a.
Global Instance result_bind : MBind result := λ A B f m,
  match m with
  | Ok a => f a
  | Raise e => Raise e
  end.

Definition lift {A} (r : result A) : M A := λ h, (r, h).

(** [data[key]] *)
Definition item (key : string) (data : json) : result json :=
  match data with
  | JDict d =>
      match Dict.get key d with
      | Some v => Ok v
      | None => Raise (KeyError key)
      end
  | _ => Raise (TypeError key)
  end.

(** The fields of the model are typed: a value of another JSON type than
    the one [save_to_file] writes raises [TypeError], where Python would store
    it as it is. *)
Definition as_string (key : string) (v : json) : result string :=
  match v with JString s => Ok s | _ => Raise (TypeError key) end.
Definition as_number (key : string) (v : json) : result Z :=
  match v with JNumber n => Ok n | _ => Raise (TypeError key) end.
Definition as_float (key : string) (v : json) : result float :=
  match v with JFloat x => Ok x | _ => Raise (TypeError key) end.
Definition as_bool (key : string) (v : json) : result bool :=
  match v with JBool b => Ok b | _ => Raise (TypeError key) end.
Definition as_list (key : string) (v : json) : result (list json) :=
  match v with JList l => Ok l | _ => Raise (TypeError key) end.

Definition string_item (key : string) (data : json) : result string :=
  item key data ≫= as_string key.
Definition number_item (key : string) (data : json) : result Z :=
  item key data ≫= as_number key.
Definition float_item (key : string) (data : json) : result float :=
  item key data ≫= as_float key.
Definition bool_item (key : string) (data : json) : result bool :=
  item key data ≫= as_bool key.
Definition list_item (key : string) (data : json) : result (list json) :=
  item key data ≫= as_list key.

Definition service_of_json (v : json) : result (string * float) :=
  match v with
  | JList [JString s; JFloat p] => Ok (s, p)
  | _ => Raise (TypeError "services_used")
  end.

Fixpoint services_of_json (l : list json) : result (list (string * float)) :=
  match l with
  | [] => Ok []
  | v :: l' =>
      s ← service_of_json v;
      ss ← services_of_json l';
      Ok (s :: ss)
  end.

(** [datetime.date.fromisoformat(s)] *)
Definition date_of_json (s : string) : result date :=
  match Calendar.fromisoformat s with
  | Some d => Ok d
  | None => Raise (InvalidIsoFormat s)
  end.

(** The body of the loop "Load rooms". *)
Definition load_room (room_data : json) : M unit :=
  number ← lift (string_item "room_number" room_data);
  type ← lift (string_item "room_type" room_data);
  price ← lift (float_item "price_per_night" room_data);
  occupied ← lift (bool_item "is_occupied" room_data);
  let room_ := mkRoom number type price occupied in
  modify (set_rooms (Dict.set (room_number room_) room_)).

(** The body of the loop "Load guests". *)
Definition load_guest (guest_data : json) : M unit :=
  id ← lift (string_item "guest_id" guest_data);
  name ← lift (string_item "name" guest_data);
  email ← lift (string_item "email" guest_data);
  phone ← lift (string_item "phone" guest_data);
  let guest_ := mkGuest id name email phone in
  modify (set_guests (Dict.set (guest_id guest_) guest_)).

(** The body of the loop "Load reservations": the guest and the room are
    the objects of the registries just loaded. *)
Definition load_reservation (res_data : json) : M unit :=
  gid ← lift (string_item "guest_id" res_data);
  guest_ ← lookup_or_raise guests gid (KeyError gid);
  rn ← lift (string_item "room_number" res_data);
  room_ ← lookup_or_raise rooms rn (KeyError rn);
  id ← lift (string_item "reservation_id" res_data);
  check_in ← lift (string_item "check_in_date" res_data ≫= date_of_json);
  check_out ← lift (string_item "check_out_date" res_data ≫= date_of_json);
  let reservation := Reservation_init id guest_ room_ check_in check_out in
  checked_in ← lift (bool_item "is_checked_in" res_data);
  let reservation := set_is_checked_in checked_in reservation in
  checked_out ← lift (bool_item "is_checked_out" res_data);
  let reservation := set_is_checked_out checked_out reservation in
  services ← lift (list_item "services_used" res_data ≫= services_of_json);
  let reservation := set_services_used services reservation in
  charges ← lift (float_item "total_charges" res_data);
  let reservation := set_total_charges charges reservation in
  modify (set_reservations (Dict.set (reservation_id reservation) reservation)).

(** [load_from_file] after [hotel = cls(data["name"])]. *)
Definition load_into_hotel (data : json) : M unit :=
  n ← lift (number_item "next_reservation_id" data);
  modify (set_next_reservation_id n);;
  rs ← lift (list_item "rooms" data);
  for_each rs load_room;;
  gs ← lift (list_item "guests" data);
  for_each gs load_guest;;
  rsv ← lift (list_item "reservations" data);
  for_each rsv load_reservation.

(** [Hotel.load_from_file] on the value read from the file: the hotel it
    returns, or the exception. *)
Definition load_from_file (data : json) : result Hotel :=
  name ← string_item "name" data;
  match load_into_hotel data (Hotel_init name) with
  | (Ok _, hotel) => Ok hotel
  | (Raise e, _) => Raise e
  end.

(** ** Outcomes *)

Definition succeeds {A} (m : M A) (h : Hotel) : Prop :=
  ∃ a, (m h).1 = Ok a.

(** A day lies in the half-open interval of a reservation. *)
Definition stays_on (d : date) (r : Reservation) : Prop :=
  check_in_date r ≤ d < check_out_date r.

(** The availability rule of the specification: the room is not occupied and
    no reservation of the room overlaps the requested dates. *)
Definition available_spec (h : Hotel) (check_in check_out : date) (room_ : Room) : Prop :=
  is_occupied room_ = false
  ∧ Forall (λ r, ¬ (room r = room_number room_
                    ∧ check_in < check_out_date r
                    ∧ check_out > check_in_date r))
      (Dict.values (reservations h)).

Global Instance available_spec_dec h ci co room_ : Decision (available_spec h ci co room_).
Proof. unfold available_spec. apply _. Defined.

(** The reading of "a process-wide counter": two hotels of one process,
    told apart by their names, never give the same reservation id. *)
Definition ids_unique_in_process : Prop :=
  ∀ hA hB gA nA ciA coA gB nB ciB coB rA rB hA' hB',
    reachable hA → reachable hB → name hA ≠ name hB →
    make_reservation gA nA ciA coA hA = (Ok rA, hA') →
    make_reservation gB nB ciB coB hB = (Ok rB, hB') →
    reservation_id rA ≠ reservation_id rB.

(** The dates of the reservations are dates of [datetime]. *)
Definition dates_valid (h : Hotel) : Prop :=
  ∀ r, r ∈ Dict.values (reservations h) →
    Calendar.valid (check_in_date r) ∧ Calendar.valid (check_out_date r).

(** The reservation [load_from_file] builds from the saved form of [res],
    linked to the guest and the room found under its ids. *)
Definition relinked (res : Reservation) (guest_ : Guest) (room_ : Room) : Reservation :=
  mkReservation (reservation_id res) (guest_id guest_) (room_number room_)
    (check_in_date res) (check_out_date res) (is_checked_in res)
    (is_checked_out res) (services_used res) (total_charges res).

(** ** The scenarios of the specification *)

Module Scenario.
Definition jan (day : Z) : date := Calendar.ymd2ord 2024 1 day.

Definition room_101 : Room := mkRoom "101" "Single" 100 false.
Definition guest_1 : Guest := mkGuest "G001" "John Doe" "john@example.com" "555-0101".

(** A hotel with room 101 at 100 a night and one guest. *)
Definition hotel : Hotel :=
  exec [AddRoom room_101; AddGuest guest_1] (Hotel_init "Grand Hotel").

(** Two nights, a breakfast at 15, check-in and check-out. *)
Definition two_nights : Hotel :=
  exec [MakeReservation "G001" "101" (jan 1) (jan 3)] hotel.
Definition with_breakfast : Hotel :=
  exec [AddService "RES-1" "Breakfast" 15] two_nights.
Definition after_check_out : Hotel :=
  exec [CheckIn "RES-1"; CheckOut "RES-1"] with_breakfast.


(** A hotel as a file can hold it, with charges of 999 stored for the two
    nights and the breakfast. *)
Definition stale : Hotel :=
  mkHotel "Grand Hotel" [("101", set_is_occupied true room_101)] [("G001", guest_1)]
    [("RES-1", mkReservation "RES-1" "G001" "101" (jan 1) (jan 3) true false
                 [("Breakfast", 15%float)] 999)] 2.

(** Rooms at a negative and at an infinite price. *)
Definition room_13 : Room := mkRoom "13" "Single" (-100) false.
Definition room_8 : Room := mkRoom "8" "Suite" infinity false.
Definition odd_prices : Hotel := exec [AddRoom room_13; AddRoom room_8] hotel.

(** Reservation A of room 101 from 2024-01-01 to 2024-01-05. *)
Definition with_A : Hotel :=
  exec [MakeReservation "G001" "101" (jan 1) (jan 5)] hotel.

(** A and an adjacent reservation of the same room. *)
Definition with_A_B : Hotel :=
  exec [MakeReservation "G001" "101" (jan 5) (jan 6)] with_A.

(** A second hotel of the same process. *)
Definition other_hotel : Hotel :=
  exec [AddRoom (mkRoom "7" "Double" 150 false);
        AddGuest (mkGuest "G002" "Jane Smith" "jane@example.com" "555-0102")]
    (Hotel_init "Other Hotel").

(** The charges stored for reservation [i]. *)
Definition total_of (i : string) (h : Hotel) : option float :=
  total_charges <$> Dict.get i (reservations h).
End Scenario.

(** ** What the operations keep, and further scenarios *)

(** A room but for its [is_occupied]. *)
Definition same_room_data (x x' : Room) : Prop :=
  room_number x' = room_number x
  ∧ room_type x' = room_type x
  ∧ price_per_night x' = price_per_night x.

(** A reservation as it was made and as it is later: the same id, guest,
    room and dates; flags that were set are set; the services it had come
    first among those it has. *)
Definition same_booking (r r' : Reservation) : Prop :=
  reservation_id r' = reservation_id r
  ∧ guest r' = guest r
  ∧ room r' = room r
  ∧ check_in_date r' = check_in_date r
  ∧ check_out_date r' = check_out_date r
  ∧ (is_checked_in r = true → is_checked_in r' = true)
  ∧ (is_checked_out r = true → is_checked_out r' = true)
  ∧ services_used r `prefix_of` services_used r'.

(** [h'] has all that [h] has, in the same places. *)
Definition keeps (h h' : Hotel) : Prop :=
  name h' = name h
  ∧ next_reservation_id h ≤ next_reservation_id h'
  ∧ Dict.keys (rooms h) `prefix_of` Dict.keys (rooms h')
  ∧ Dict.keys (guests h) `prefix_of` Dict.keys (guests h')
  ∧ Dict.keys (reservations h) `prefix_of` Dict.keys (reservations h')
  ∧ (∀ k x, Dict.get k (rooms h) = Some x →
       ∃ x', Dict.get k (rooms h') = Some x' ∧ same_room_data x x')
  ∧ (∀ k g, Dict.get k (guests h) = Some g → Dict.get k (guests h') = Some g)
  ∧ (∀ k r, Dict.get k (reservations h) = Some r →
       ∃ r', Dict.get k (reservations h') = Some r' ∧ same_booking r r').

(** The operation is not a check-in or a check-out. *)
Definition leaves_rooms (o : op) : Prop :=
  match o with
  | CheckIn _ | CheckOut _ => False
  | _ => True
  end.

(** The rooms the operations add are not occupied, as [Room(number, type,
    price)] makes them. *)
Definition adds_vacant_rooms (os : list op) : Prop :=
  Forall (λ o, match o with
               | AddRoom room_ => is_occupied room_ = false
               | _ => True
               end) os.

(** A reservation of room [k] is checked in and not checked out. *)
Definition has_guest_in (h : Hotel) (k : string) : Prop :=
  ∃ i r, Dict.get i (reservations h) = Some r
    ∧ room r = k ∧ is_checked_in r = true ∧ is_checked_out r = false.

(** The value [save_to_file] writes, from the lists it goes through. *)
Definition hotel_data (name : string) (next : Z) (rs : list Room) (gs : list Guest)
    (rsv : list Reservation) : json :=
  JDict [("name", JString name);
         ("next_reservation_id", JNumber next);
         ("rooms", JList (room_to_json <$> rs));
         ("guests", JList (guest_to_json <$> gs));
         ("reservations", JList (reservation_to_json <$> rsv))].

(** The last object of a list filed under [k]. *)
Definition last_with {A} (key : A → string) (k : string) (l : list A) : option A :=
  last (filter (λ x, key x = k) l).

(** ** Facts about dictionaries *)

Module DictFacts.
Section facts.
Context {K V : Type} `{EqDecision K}.
Implicit Types (d : Dict.t K V) (k : K) (v : V).

Lemma mem_true k d : Dict.mem k d = true ↔ is_Some (Dict.get k d).
Proof.
  unfold Dict.mem. destruct (Dict.get k d); split; [by eauto|done|done|].
  by intros [? ?].
Qed.

Lemma mem_elem_of_keys k d : Dict.mem k d = true ↔ k ∈ Dict.keys d.
Proof.
  unfold Dict.mem, Dict.keys. induction d as [|[k' v'] d IH]; simpl.
  - split; [done | by intros ?%elem_of_nil].
  - rewrite elem_of_cons. case_decide; [by split; auto|].
    rewrite IH. split; [by auto | by intros [?|?]].
Qed.

Lemma get_None k d : Dict.get k d = None ↔ k ∉ Dict.keys d.
Proof.
  rewrite <-mem_elem_of_keys. unfold Dict.mem.
  destruct (Dict.get k d); naive_solver.
Qed.

Lemma get_set k k' v d :
  Dict.get k' (Dict.set k v d) = if decide (k' = k) then Some v else Dict.get k' d.
Proof.
  induction d as [|[k0 v0] d IH]; simpl.
  - by repeat case_decide.
  - repeat (case_decide || simpl || simplify_eq); try done.
Qed.

Lemma get_alter f k k' d :
  Dict.get k' (Dict.alter f k d)
  = if decide (k' = k) then f <$> Dict.get k' d else Dict.get k' d.
Proof.
  induction d as [|[k0 v0] d IH]; simpl.
  - by case_decide.
  - repeat (case_decide || simpl || simplify_eq); try done.
Qed.

Lemma keys_alter f k d : Dict.keys (Dict.alter f k d) = Dict.keys d.
Proof.
  unfold Dict.keys. induction d as [|[k0 v0] d IH]; simpl; [done|].
  case_decide; simpl; [done | f_equal; apply IH].
Qed.

Lemma keys_set_mem k v d :
  k ∈ Dict.keys d → Dict.keys (Dict.set k v d) = Dict.keys d.
Proof.
  unfold Dict.keys. induction d as [|[k0 v0] d IH]; simpl.
  - by intros ?%elem_of_nil.
  - intros [->|?]%elem_of_cons; case_decide; simplify_eq/=; f_equal; auto.
Qed.

Lemma set_fresh k v d : k ∉ Dict.keys d → Dict.set k v d = d ++ [(k, v)].
Proof.
  unfold Dict.keys. induction d as [|[k0 v0] d IH]; simpl; [done|].
  intros [? ?]%not_elem_of_cons. case_decide; [done|]. f_equal; auto.
Qed.

Lemma keys_set_fresh k v d :
  k ∉ Dict.keys d → Dict.keys (Dict.set k v d) = Dict.keys d ++ [k].
Proof. intros Hk. rewrite set_fresh by done. unfold Dict.keys. by rewrite fmap_app. Qed.

Lemma alter_absent f k d : k ∉ Dict.keys d → Dict.alter f k d = d.
Proof.
  unfold Dict.keys. induction d as [|[k0 v0] d IH]; simpl; [done|].
  intros [? ?]%not_elem_of_cons. case_decide; [done|]. f_equal; auto.
Qed.

(** Entries and lookups. *)
Lemma get_Some_elem_of k v d : Dict.get k d = Some v → (k, v) ∈ d.
Proof.
  induction d as [|[k0 v0] d IH]; simpl; [done|].
  case_decide; intros; simplify_eq; [left | right; auto].
Qed.

Lemma elem_of_get k v d : NoDup (Dict.keys d) → (k, v) ∈ d → Dict.get k d = Some v.
Proof.
  unfold Dict.keys. induction d as [|[k0 v0] d IH]; simpl.
  - by intros _ ?%elem_of_nil.
  - intros [Hk0 Hnd]%NoDup_cons [?|Hin]%elem_of_cons; simplify_eq.
    + by rewrite decide_True.
    + case_decide; [|auto]. subst. destruct Hk0.
      apply list_elem_of_fmap. by exists (k0, v).
Qed.

Lemma elem_of_values v d : v ∈ Dict.values d ↔ ∃ k, (k, v) ∈ d.
Proof.
  unfold Dict.values. rewrite list_elem_of_fmap. split.
  - intros [[k v'] [-> ?]]. by exists k.
  - intros [k ?]. by exists (k, v).
Qed.

Lemma NoDup_keys_set k v d : NoDup (Dict.keys d) → NoDup (Dict.keys (Dict.set k v d)).
Proof.
  intros Hnd. destruct (decide (k ∈ Dict.keys d)).
  - by rewrite keys_set_mem.
  - rewrite keys_set_fresh by done. apply NoDup_app. split_and!; [done| |apply NoDup_singleton].
    intros x ? ->%list_elem_of_singleton. done.
Qed.

(** Filing the values of a dictionary again, each under its key, gives the
    dictionary back. *)
Lemma foldl_set_rebuild (key : V → K) (acc l : Dict.t K V) :
  NoDup (Dict.keys (acc ++ l)) →
  (∀ k v, (k, v) ∈ l → key v = k) →
  foldl (λ d v, Dict.set (key v) v d) acc (Dict.values l) = acc ++ l.
Proof.
  revert acc. induction l as [|[k v] l IH]; intros acc Hnd Hkey; simpl.
  - by rewrite app_nil_r.
  - rewrite (Hkey k v) by left.
    rewrite set_fresh.
    + rewrite IH, <-app_assoc; [done| |].
      * by rewrite <-app_assoc.
      * intros k' v' ?. apply Hkey. by right.
    + unfold Dict.keys in *. rewrite fmap_app in Hnd.
      apply NoDup_app in Hnd as (_ & Hdisj & _).
      intros Hin. apply (Hdisj k Hin). left.
Qed.

Lemma elem_of_keys_foldl_set (key : V → K) (acc : Dict.t K V) (l : list V) k :
  k ∈ Dict.keys (foldl (λ d v, Dict.set (key v) v d) acc l)
  ↔ k ∈ Dict.keys acc ∨ k ∈ key <$> l.
Proof.
  revert acc. induction l as [|v l IH]; intros acc; simpl.
  - rewrite elem_of_nil. tauto.
  - rewrite IH, elem_of_cons, <-!mem_elem_of_keys. unfold Dict.mem.
    rewrite get_set. case_decide as Hk; [subst|].
    + split; [by auto|]. by intros _; left.
    + split; [by intros [?|?]; auto|]. intros [?|[?|?]]; [by auto | done | by auto].
Qed.
End facts.
End DictFacts.

(** ** Equations of the methods

    Each method is rewritten as one case analysis on the state it starts
    from; the proofs below use these equations instead of the monadic code. *)

Ltac unfold_M :=
  unfold lookup_or_raise, mbind, M_bind, mret, M_ret, raise, gets, modify in *;
  simpl in *.

Lemma add_room_eq room_ h :
  add_room room_ h =
    if Dict.mem (room_number room_) (rooms h)
    then (Raise (RoomExists (room_number room_)), h)
    else (Ok (), set_rooms (Dict.set (room_number room_) room_) h).
Proof. unfold add_room. unfold_M. by destruct (Dict.mem _ _). Qed.

Lemma add_guest_eq guest_ h :
  add_guest guest_ h =
    if Dict.mem (guest_id guest_) (guests h)
    then (Raise (GuestExists (guest_id guest_)), h)
    else (Ok (), set_guests (Dict.set (guest_id guest_) guest_) h).
Proof. unfold add_guest. unfold_M. by destruct (Dict.mem _ _). Qed.

(** The loop of [make_reservation] raises exactly when the loop of
    [get_available_rooms] breaks. *)
Lemma for_each_dates_eq n ci co l h :
  for_each l (λ reservation,
    if bool_decide (room reservation = n) then
      if dates_overlap ci co reservation then raise (RoomNotAvailable n) else mret ()
    else mret ()) h
  = if no_overlapping_reservation n ci co l then (Ok (), h)
    else (Raise (RoomNotAvailable n), h).
Proof.
  induction l as [|r l IH]; simpl; [done|]. unfold_M.
  destruct (bool_decide (room r = n)); simpl; [|exact IH].
  destruct (dates_overlap ci co r); simpl; [done | exact IH].
Qed.

Lemma make_reservation_eq g n ci co h :
  make_reservation g n ci co h =
    match Dict.get g (guests h) with
    | None => (Raise (GuestNotFound g), h)
    | Some guest_ =>
        match Dict.get n (rooms h) with
        | None => (Raise (RoomNotFound n), h)
        | Some room_ =>
            if is_occupied room_ then (Raise (RoomOccupied n), h)
            else if no_overlapping_reservation n ci co (Dict.values (reservations h))
            then let r := new_reservation h guest_ room_ ci co in
                 (Ok r, with_reservation r h)
            else (Raise (RoomNotAvailable n), h)
        end
    end.
Proof.
  unfold make_reservation. unfold_M.
  destruct (Dict.get g (guests h)) as [guest_|]; [|done].
  destruct (Dict.get n (rooms h)) as [room_|]; [|done].
  destruct (is_occupied room_); [done|].
  rewrite for_each_dates_eq.
  by destruct (no_overlapping_reservation _ _ _ _).
Qed.

Lemma check_in_eq i h :
  check_in i h =
    match Dict.get i (reservations h) with
    | None => (Raise (ReservationNotFound i), h)
    | Some r =>
        if is_checked_in r then (Raise (AlreadyCheckedIn i), h)
        else (Ok (), checked_in i r h)
    end.
Proof.
  unfold check_in. unfold_M.
  destruct (Dict.get i (reservations h)) as [r|]; [|done].
  by destruct (is_checked_in r).
Qed.

Lemma check_out_eq i h :
  check_out i h =
    match Dict.get i (reservations h) with
    | None => (Raise (ReservationNotFound i), h)
    | Some r =>
        if negb (is_checked_in r) then (Raise (NotCheckedIn i), h)
        else if is_checked_out r then (Raise (AlreadyCheckedOut i), h)
        else match Dict.get (room r) (Dict.alter (set_is_occupied false) (room r) (rooms h)) with
             | None => (Raise (DanglingReference (room r)), checked_out_flags i r h)
             | Some room_ => (Ok (), checked_out i r room_ h)
             end
    end.
Proof.
  unfold check_out. unfold_M.
  destruct (Dict.get i (reservations h)) as [r|]; [|done].
  destruct (is_checked_in r); [|done]. simpl.
  destruct (is_checked_out r); [done|].
  by destruct (Dict.get _ _).
Qed.

Lemma add_service_to_reservation_eq i s p h :
  add_service_to_reservation i s p h =
    match Dict.get i (reservations h) with
    | None => (Raise (ReservationNotFound i), h)
    | Some _ => (Ok (), set_reservations (Dict.alter (add_service s p) i) h)
    end.
Proof.
  unfold add_service_to_reservation. unfold_M.
  by destruct (Dict.get i (reservations h)).
Qed.

Lemma get_available_rooms_eq ci co h :
  get_available_rooms ci co h =
    (Ok (filter (λ room_, is_occupied room_ = false
                   ∧ no_overlapping_reservation (room_number room_) ci co
                       (Dict.values (reservations h)) = true)
           (Dict.values (rooms h))), h).
Proof.
  unfold get_available_rooms. unfold_M. do 2 f_equal.
  generalize (Dict.values (rooms h)). intros l.
  set (P := λ room_ : Room, is_occupied room_ = false
       ∧ no_overlapping_reservation (room_number room_) ci co
           (Dict.values (reservations h)) = true).
  set (f := λ (available_rooms : list Room) (room_ : Room), _).
  enough (Hacc : ∀ acc, foldl f acc l = acc ++ filter P l) by apply (Hacc []).
  induction l as [|x l IH]; intros acc; simpl; [by rewrite app_nil_r|].
  rewrite IH, filter_cons. subst f P. simpl.
  destruct (is_occupied x); simpl; [done|].
  destruct (no_overlapping_reservation _ _ _ _); simpl; [|done].
  by rewrite <-app_assoc.
Qed.

(** What a successful operation found and what it left behind. *)
Lemma run_ok_inv o h h' :
  run o h = (Ok (), h') →
  match o with
  | AddRoom room_ =>
      Dict.mem (room_number room_) (rooms h) = false
      ∧ h' = set_rooms (Dict.set (room_number room_) room_) h
  | AddGuest guest_ =>
      Dict.mem (guest_id guest_) (guests h) = false
      ∧ h' = set_guests (Dict.set (guest_id guest_) guest_) h
  | MakeReservation g n ci co =>
      ∃ guest_ room_,
        Dict.get g (guests h) = Some guest_
        ∧ Dict.get n (rooms h) = Some room_
        ∧ is_occupied room_ = false
        ∧ no_overlapping_reservation n ci co (Dict.values (reservations h)) = true
        ∧ h' = with_reservation (new_reservation h guest_ room_ ci co) h
  | CheckIn i =>
      ∃ r, Dict.get i (reservations h) = Some r
        ∧ is_checked_in r = false
        ∧ h' = checked_in i r h
  | CheckOut i =>
      ∃ r room_,
        Dict.get i (reservations h) = Some r
        ∧ is_checked_in r = true
        ∧ is_checked_out r = false
        ∧ Dict.get (room r) (rooms h) = Some room_
        ∧ h' = checked_out i r (set_is_occupied false room_) h
  | AddService i s p =>
      is_Some (Dict.get i (reservations h))
      ∧ h' = set_reservations (Dict.alter (add_service s p) i) h
  end.
Proof.
  destruct o as [room_|guest_|g n ci co|i|i|i s p]; simpl.
  - rewrite add_room_eq. destruct (Dict.mem _ _); naive_solver.
  - rewrite add_guest_eq. destruct (Dict.mem _ _); naive_solver.
  - unfold mbind, M_bind. rewrite make_reservation_eq.
    destruct (Dict.get g (guests h)) as [guest_|]; [|done].
    destruct (Dict.get n (rooms h)) as [room_|]; [|done].
    destruct (is_occupied room_) eqn:?; [done|].
    destruct (no_overlapping_reservation _ _ _ _) eqn:?; [|done].
    simpl. unfold mret, M_ret. intros [= <-]. by exists guest_, room_.
  - rewrite check_in_eq.
    destruct (Dict.get i (reservations h)) as [r|]; [|done].
    destruct (is_checked_in r) eqn:?; [done|]. intros [= <-]. by exists r.
  - rewrite check_out_eq.
    destruct (Dict.get i (reservations h)) as [r|]; [|done].
    destruct (is_checked_in r) eqn:?; [|done]. simpl.
    destruct (is_checked_out r) eqn:?; [done|].
    rewrite DictFacts.get_alter, decide_True by done.
    destruct (Dict.get (room r) (rooms h)) as [room_|] eqn:Hroom; [|done]. simpl.
    intros [= <-]. by exists r, room_.
  - rewrite add_service_to_reservation_eq.
    destruct (Dict.get i (reservations h)) as [r|]; [|done].
    intros [= <-]. eauto.
Qed.

Lemma option_fmap_Some_inv {A B} (f : A → B) (o : option A) (y : B) :
  f <$> o = Some y → ∃ x, o = Some x ∧ y = f x.
Proof. destruct o; intros; simplify_eq/=; eauto. Qed.

Lemma wf_init name : wf (Hotel_init name).
Proof. split; simpl; try apply NoDup_nil_2; done. Qed.

Lemma wf_step o h h' : wf h → run o h = (Ok (), h') → wf h'.
Proof.
  intros [Hr Hg Hv Hrk Hgk Hvk Hrr Hgr] Hrun. apply run_ok_inv in Hrun.
  destruct o as [room_|guest_|g n ci co|i|i|i s p].
  - destruct Hrun as [Hmem ->]. split; simpl; try done.
    + by apply DictFacts.NoDup_keys_set.
    + intros k x. rewrite DictFacts.get_set. case_decide; naive_solver.
    + intros k x Hk. rewrite DictFacts.get_set. case_decide; eauto.
  - destruct Hrun as [Hmem ->]. split; simpl; try done.
    + by apply DictFacts.NoDup_keys_set.
    + intros k x. rewrite DictFacts.get_set. case_decide; naive_solver.
    + intros k x Hk. rewrite DictFacts.get_set. case_decide; eauto.
  - destruct Hrun as (guest_ & room_ & Hgs & Hrs & _ & _ & ->).
    split; simpl; try done.
    + by apply DictFacts.NoDup_keys_set.
    + intros k x. rewrite DictFacts.get_set. case_decide; [|by eauto].
      by intros [= <-].
    + intros k x. rewrite DictFacts.get_set. case_decide; [|by eauto].
      intros [= <-]. simpl. rewrite (Hrk _ _ Hrs). eauto.
    + intros k x. rewrite DictFacts.get_set. case_decide; [|by eauto].
      intros [= <-]. simpl. rewrite (Hgk _ _ Hgs). eauto.
  - destruct Hrun as (r & Hi & _ & ->). split; simpl;
      rewrite ?DictFacts.keys_alter; try done.
    + intros k x. rewrite DictFacts.get_alter. case_decide; [|by eauto].
      intros (y & ? & ->)%option_fmap_Some_inv. simpl; eauto.
    + intros k x. rewrite DictFacts.get_alter. case_decide; [|by eauto].
      intros (y & ? & ->)%option_fmap_Some_inv. simpl; eauto.
    + intros k x Hk.
      assert (∃ y, Dict.get k (reservations h) = Some y ∧ room x = room y) as (y & Hy & ->).
      { revert Hk. rewrite DictFacts.get_alter. case_decide; [|by eauto].
        intros (y & ? & ->)%option_fmap_Some_inv. eauto. }
      rewrite DictFacts.get_alter. destruct (Hrr _ _ Hy) as [z Hz].
      case_decide; rewrite Hz; eauto.
    + intros k x. rewrite DictFacts.get_alter. case_decide; [|by eauto].
      intros (y & ? & ->)%option_fmap_Some_inv. simpl; eauto.
  - destruct Hrun as (r & room_ & Hi & _ & _ & Hroom & ->). split; simpl;
      rewrite ?DictFacts.keys_alter; try done.
    + intros k x. rewrite DictFacts.get_alter. case_decide; [|by eauto].
      intros (y & ? & ->)%option_fmap_Some_inv. simpl; eauto.
    + intros k x. rewrite !DictFacts.get_alter. case_decide; [|by eauto].
      intros (y & (z & ? & ->)%option_fmap_Some_inv & ->)%option_fmap_Some_inv.
      simpl; eauto.
    + intros k x Hk.
      assert (∃ y, Dict.get k (reservations h) = Some y ∧ room x = room y) as (y & Hy & ->).
      { revert Hk. rewrite !DictFacts.get_alter. case_decide; [|by eauto].
        intros (y & (z & ? & ->)%option_fmap_Some_inv & ->)%option_fmap_Some_inv.
        eauto. }
      rewrite DictFacts.get_alter. destruct (Hrr _ _ Hy) as [z Hz].
      case_decide; rewrite Hz; eauto.
    + intros k x. rewrite !DictFacts.get_alter. case_decide; [|by eauto].
      intros (y & (z & ? & ->)%option_fmap_Some_inv & ->)%option_fmap_Some_inv.
      simpl; eauto.
  - destruct Hrun as [_ ->]. split; simpl; rewrite ?DictFacts.keys_alter; try done.
    + intros k x. rewrite DictFacts.get_alter. case_decide; [|by eauto].
      intros (y & ? & ->)%option_fmap_Some_inv. simpl; eauto.
    + intros k x. rewrite DictFacts.get_alter. case_decide; [|by eauto].
      intros (y & ? & ->)%option_fmap_Some_inv. simpl; eauto.
    + intros k x. rewrite DictFacts.get_alter. case_decide; [|by eauto].
      intros (y & ? & ->)%option_fmap_Some_inv. simpl; eauto.
Qed.

Lemma reachable_wf h : reachable h → wf h.
Proof. induction 1; eauto using wf_init, wf_step. Qed.

(** *** No double booking *)

Lemma dates_overlap_sym r1 r2 :
  dates_overlap (check_in_date r1) (check_out_date r1) r2
  = dates_overlap (check_in_date r2) (check_out_date r2) r1.
Proof.
  unfold dates_overlap.
  destruct (bool_decide_reflect (check_in_date r1 < check_out_date r2)),
    (bool_decide_reflect (check_out_date r1 > check_in_date r2)),
    (bool_decide_reflect (check_in_date r2 < check_out_date r1)),
    (bool_decide_reflect (check_out_date r2 > check_in_date r1)); simpl; done || lia.
Qed.

Lemma no_overlapping_reservation_true n ci co l :
  no_overlapping_reservation n ci co l = true
  ↔ ∀ r, r ∈ l → room r = n → dates_overlap ci co r = false.
Proof.
  induction l as [|x l IH]; simpl.
  - split; [by intros _ r ?%elem_of_nil | done].
  - destruct (bool_decide_reflect (room x = n)) as [Hx|Hx]; simpl.
    + destruct (dates_overlap ci co x) eqn:Hd.
      * split; [done|]. intros Hall. rewrite <-Hd. symmetry. apply Hall; [left | done].
      * rewrite IH. split.
        -- intros Hall r [->|?]%elem_of_cons; auto.
        -- intros Hall r ?. apply Hall. by right.
    + rewrite IH. split.
      * intros Hall r [->|?]%elem_of_cons; [done | auto].
      * intros Hall r ?. apply Hall. by right.
Qed.

Lemma dates_overlap_true ci co r :
  dates_overlap ci co r = true ↔ ci < check_out_date r ∧ co > check_in_date r.
Proof.
  unfold dates_overlap.
  rewrite andb_true_iff, !bool_decide_eq_true. done.
Qed.

Lemma no_overlapping_reservation_false n ci co l :
  no_overlapping_reservation n ci co l = false
  ↔ ∃ r, r ∈ l ∧ room r = n ∧ ci < check_out_date r ∧ co > check_in_date r.
Proof.
  induction l as [|x l IH]; simpl.
  - split; [done | by intros (r & ?%elem_of_nil & _)].
  - destruct (bool_decide_reflect (room x = n)) as [Hx|Hx]; simpl.
    + destruct (dates_overlap ci co x) eqn:Hd.
      * split; [|done]. intros _. exists x. apply dates_overlap_true in Hd.
        split; [by left | done].
      * rewrite IH. split.
        -- intros (r & ? & ?). exists r. split; [by right | done].
        -- intros (r & [->|?]%elem_of_cons & Hn & Hlt & Hgt); [|by eauto].
           assert (dates_overlap ci co x = true) by by apply dates_overlap_true.
           congruence.
    + rewrite IH. split.
      * intros (r & ? & ?). exists r. split; [by right | done].
      * intros (r & [->|?]%elem_of_cons & Hn & ?); [done | by eauto].
Qed.

Lemma get_elem_of_values {V} (k : string) (v : V) (d : Dict.t string V) :
  Dict.get k d = Some v → v ∈ Dict.values d.
Proof. intros ?%DictFacts.get_Some_elem_of. apply DictFacts.elem_of_values; eauto. Qed.

Lemma same_stay_refl r : same_stay r r.
Proof. done. Qed.

Lemma get_alter_same_stay f (k i : string) (d : Dict.t string Reservation) r :
  (∀ y, same_stay (f y) y) →
  Dict.get i (Dict.alter f k d) = Some r →
  ∃ y, Dict.get i d = Some y ∧ same_stay r y.
Proof.
  intros Hf. rewrite DictFacts.get_alter. case_decide.
  - intros (y & ? & ->)%option_fmap_Some_inv. eauto.
  - intros ?. eauto using same_stay_refl.
Qed.

Lemma no_double_booking_same_stays h h' :
  (∀ i r, Dict.get i (reservations h') = Some r →
     ∃ y, Dict.get i (reservations h) = Some y ∧ same_stay r y) →
  no_double_booking h → no_double_booking h'.
Proof.
  intros Hsame Hinv i j r1 r2 Hij H1 H2 Hroom.
  apply Hsame in H1 as (y1 & Hy1 & Hr1 & Hci1 & Hco1).
  apply Hsame in H2 as (y2 & Hy2 & Hr2 & Hci2 & Hco2).
  unfold dates_overlap. rewrite Hci1, Hco1, Hci2, Hco2.
  apply (Hinv i j y1 y2 Hij Hy1 Hy2). congruence.
Qed.

Lemma no_double_booking_step o h h' :
  wf h → no_double_booking h → run o h = (Ok (), h') → no_double_booking h'.
Proof.
  intros Hwf Hinv Hrun. apply run_ok_inv in Hrun.
  destruct o as [room_|guest_|g n ci co|k|k|k s p].
  - destruct Hrun as [_ ->]. exact Hinv.
  - destruct Hrun as [_ ->]. exact Hinv.
  - destruct Hrun as (guest_ & room_ & _ & Hroom & _ & Hfree & ->).
    apply (wf_rooms_key _ Hwf) in Hroom.
    rewrite no_overlapping_reservation_true in Hfree.
    intros i j r1 r2 Hij. simpl. rewrite !DictFacts.get_set.
    repeat case_decide; simplify_eq; intros H1 H2 Hsame; simplify_eq/=.
    + apply Hfree; [by eapply get_elem_of_values | done].
    + pose proof (Hfree r1 (get_elem_of_values _ _ _ H1) Hsame) as Hd.
      by rewrite dates_overlap_sym.
    + exact (Hinv _ _ _ _ Hij H1 H2 Hsame).
  - destruct Hrun as (r & _ & _ & ->).
    eapply no_double_booking_same_stays; [|exact Hinv]. simpl.
    intros i x. by apply get_alter_same_stay.
  - destruct Hrun as (r & room_ & _ & _ & _ & _ & ->).
    eapply no_double_booking_same_stays; [|exact Hinv]. simpl.
    intros i x (y & (z & ? & (? & ? & ?))%get_alter_same_stay & (? & ? & ?))
      %get_alter_same_stay; [|done..].
    exists z. split; [done|]. split_and!; congruence.
  - destruct Hrun as (_ & ->).
    eapply no_double_booking_same_stays; [|exact Hinv]. simpl.
    intros i x. by apply get_alter_same_stay.
Qed.

Lemma reachable_no_double_booking h : reachable h → no_double_booking h.
Proof.
  induction 1 as [name|h o h' Hreach IH Hrun].
  - by intros i j r1 r2 _ ?.
  - eauto using no_double_booking_step, reachable_wf.
Qed.

(** *** Charges *)

Lemma service_charges_snoc services s p :
  service_charges (services ++ [(s, p)]) = (service_charges services + p)%float.
Proof. unfold service_charges. by rewrite foldl_snoc. Qed.

Lemma charged_snoc total services s p :
  charged total (services ++ [(s, p)]) = (charged total services + p)%float.
Proof. unfold charged. by rewrite foldl_snoc. Qed.

Lemma charges_accumulated_step o h h' :
  wf h → charges_accumulated h → run o h = (Ok (), h') → charges_accumulated h'.
Proof.
  intros Hwf Hinv Hrun. apply run_ok_inv in Hrun.
  destruct o as [room_|guest_|g n ci co|k|k|k s p].
  - destruct Hrun as [Hmem ->]. intros i r Hi. simpl in *.
    destruct (Hinv i r Hi) as (x & Hx & Hc). exists x. split; [|done].
    rewrite DictFacts.get_set. case_decide as Hk; [|done].
    unfold Dict.mem in Hmem. by rewrite <-Hk, Hx in Hmem.
  - destruct Hrun as [_ ->]. exact Hinv.
  - destruct Hrun as (guest_ & room_ & _ & Hroom & _ & _ & ->).
    intros i r. simpl. rewrite DictFacts.get_set. case_decide; [|by apply Hinv].
    intros [= <-]. exists room_. simpl.
    rewrite (wf_rooms_key _ Hwf _ _ Hroom). done.
  - destruct Hrun as (r0 & _ & _ & ->). intros i r. simpl.
    rewrite DictFacts.get_alter. intros Hi.
    assert (∃ y, Dict.get i (reservations h) = Some y ∧ room r = room y
      ∧ total_charges r = total_charges y
      ∧ services_used r = services_used y
      ∧ is_checked_out r = is_checked_out y
      ∧ ∀ x, room_charges x r = room_charges x y)
      as (y & Hy & Hroom & Ht & Hs & Hout & Hrc).
    { case_decide; [|by eauto 10].
      apply option_fmap_Some_inv in Hi as (y & ? & ->). by exists y. }
    destruct (Hinv i y Hy) as (x & Hx & Hc). clear Hi.
    rewrite Hroom, Ht, Hs, Hout, DictFacts.get_alter, Hx.
    case_decide; simpl; eexists; (split; [done|]); by rewrite Hrc.
  - destruct Hrun as (r0 & room_ & Hk & _ & _ & Hroom & ->). intros i r. simpl.
    rewrite !DictFacts.get_alter. case_decide as Hik.
    + subst i. rewrite Hk. simpl. intros [= <-]. simpl.
      rewrite decide_True, Hroom by done. simpl.
      eexists. split; [done|]. exists (services_used r0), [].
      by rewrite app_nil_r.
    + intros Hi. destruct (Hinv i r Hi) as (x & Hx & Hc).
      rewrite Hx.
      case_decide; simpl; eexists; (split; [done|]); done.
  - destruct Hrun as (_ & ->). intros i r. simpl.
    rewrite DictFacts.get_alter. case_decide; [|by apply Hinv].
    intros (y & Hy & ->)%option_fmap_Some_inv.
    destruct (Hinv i y Hy) as (x & Hx & Hc). exists x. split; [done|].
    simpl. change (room_charges x (add_service s p y)) with (room_charges x y).
    destruct (is_checked_out y).
    + destruct Hc as (before & after & Hs & Ht).
      exists before, (after ++ [(s, p)]).
      by rewrite Hs, app_assoc, charged_snoc, Ht.
    + by rewrite charged_snoc, Hc.
Qed.

Lemma reachable_charges_accumulated h : reachable h → charges_accumulated h.
Proof.
  induction 1 as [name|h o h' Hreach IH Hrun].
  - by intros i r ?.
  - eauto using charges_accumulated_step, reachable_wf.
Qed.

(** *** Life cycle *)

Lemma lifecycle_ok_step o h h' :
  lifecycle_ok h → run o h = (Ok (), h') → lifecycle_ok h'.
Proof.
  intros Hinv Hrun. apply run_ok_inv in Hrun.
  destruct o as [room_|guest_|g n ci co|k|k|k s p].
  - destruct Hrun as [_ ->]. exact Hinv.
  - destruct Hrun as [_ ->]. exact Hinv.
  - destruct Hrun as (guest_ & room_ & _ & _ & _ & _ & ->).
    intros i r. simpl. rewrite DictFacts.get_set. case_decide; [|by apply Hinv].
    by intros [= <-].
  - destruct Hrun as (r0 & _ & _ & ->). intros i r. simpl.
    rewrite DictFacts.get_alter. case_decide; [|by apply Hinv].
    by intros (y & Hy & ->)%option_fmap_Some_inv.
  - destruct Hrun as (r0 & room_ & Hk & Hin & _ & _ & ->). intros i r. simpl.
    rewrite !DictFacts.get_alter. case_decide; [|by apply Hinv].
    subst i. rewrite Hk. simpl. by intros [= <-].
  - destruct Hrun as (_ & ->). intros i r. simpl.
    rewrite DictFacts.get_alter. case_decide; [|by apply Hinv].
    intros (y & Hy & ->)%option_fmap_Some_inv. simpl. by apply (Hinv i).
Qed.

Lemma reachable_lifecycle_ok h : reachable h → lifecycle_ok h.
Proof.
  induction 1 as [name|h o h' Hreach IH Hrun].
  - by intros i r ?.
  - eauto using lifecycle_ok_step.
Qed.

(** *** Reservation ids *)

Global Instance res_id_inj : Inj (=) (=) res_id.
Proof.
  intros n m Heq. unfold res_id in Heq.
  apply (inj pretty). by simplify_eq/=.
Qed.

Lemma ids_ok_step o h h' :
  ids_ok h → run o h = (Ok (), h') → ids_ok h'.
Proof.
  intros [Hpos Hkeys] Hrun. apply run_ok_inv in Hrun.
  destruct o as [room_|guest_|g n ci co|k|k|k s p].
  - destruct Hrun as [_ ->]. by split.
  - destruct Hrun as [_ ->]. by split.
  - destruct Hrun as (guest_ & room_ & _ & _ & _ & _ & ->).
    split; simpl; [lia|]. fold (res_id (next_reservation_id h)).
    rewrite DictFacts.keys_set_fresh.
    + rewrite Hkeys.
      replace (next_reservation_id h + 1 - 1)
        with ((next_reservation_id h - 1) + 1) by lia.
      rewrite seqZ_app, fmap_app by lia.
      rewrite (seqZ_cons _ 1) by lia. rewrite (seqZ_nil _ (Z.pred 1)) by done.
      simpl. do 3 f_equal. lia.
    + rewrite Hkeys.
      intros Hin%(list_elem_of_fmap_inj_2 res_id)%elem_of_seqZ. lia.
  - destruct Hrun as (r0 & _ & _ & ->). split; simpl; [done|].
    by rewrite DictFacts.keys_alter.
  - destruct Hrun as (r0 & room_ & _ & _ & _ & _ & ->). split; simpl; [done|].
    by rewrite !DictFacts.keys_alter.
  - destruct Hrun as (_ & ->). split; simpl; [done|].
    by rewrite DictFacts.keys_alter.
Qed.

Lemma reachable_ids_ok h : reachable h → ids_ok h.
Proof.
  induction 1 as [name|h o h' Hreach IH Hrun].
  - by split.
  - eauto using ids_ok_step.
Qed.


(** ** Failed operations *)

(** In a well-formed state the reference [reservation.room] read by
    [check_out] denotes a room. *)
Lemma wf_no_dangling h i e h' :
  wf h → check_out i h = (Raise e, h') → ∀ k, e ≠ DanglingReference k.
Proof.
  intros Hwf. rewrite check_out_eq.
  destruct (Dict.get i (reservations h)) as [r|] eqn:Hi; [|by intros [= <- <-]].
  destruct (is_checked_in r); simpl; [|by intros [= <- <-]].
  destruct (is_checked_out r); [by intros [= <- <-]|].
  rewrite DictFacts.get_alter, decide_True by done.
  destruct (wf_room_ref _ Hwf _ _ Hi) as [x ->]. done.
Qed.

Lemma check_out_raise_unchanged h i e h' :
  wf h → check_out i h = (Raise e, h') → h' = h.
Proof.
  intros Hwf. rewrite check_out_eq.
  destruct (Dict.get i (reservations h)) as [r|] eqn:Hi; [|by intros [= <- <-]].
  destruct (is_checked_in r); simpl; [|by intros [= <- <-]].
  destruct (is_checked_out r); [by intros [= <- <-]|].
  rewrite DictFacts.get_alter, decide_True by done.
  destruct (wf_room_ref _ Hwf _ _ Hi) as [x ->]. done.
Qed.

Lemma make_reservation_raise_unchanged h g n ci co e h' :
  make_reservation g n ci co h = (Raise e, h') → h' = h.
Proof.
  rewrite make_reservation_eq.
  repeat (case_match; try done); by intros [= <- <-].
Qed.

Lemma run_raise_unchanged o h e h' :
  wf h → run o h = (Raise e, h') → h' = h.
Proof.
  intros Hwf. destruct o as [room_|guest_|g n ci co|i|i|i s p]; simpl.
  - rewrite add_room_eq. case_match; [by intros [= <- <-] | done].
  - rewrite add_guest_eq. case_match; [by intros [= <- <-] | done].
  - unfold mbind, M_bind.
    destruct (make_reservation g n ci co h) as [[r|e'] h''] eqn:Hm; [done|].
    intros [= <- <-]. by eapply make_reservation_raise_unchanged.
  - rewrite check_in_eq. repeat (case_match; try done); by intros [= <- <-].
  - by apply check_out_raise_unchanged.
  - rewrite add_service_to_reservation_eq. case_match; [done | by intros [= <- <-]].
Qed.

Lemma run_reachable o h : reachable h → reachable (run o h).2.
Proof.
  intros Hreach. destruct (run o h) as [[[]|e] h'] eqn:Hrun; simpl.
  - by eapply reachable_step.
  - by rewrite (run_raise_unchanged _ _ _ _ (reachable_wf _ Hreach) Hrun).
Qed.

Lemma exec_reachable os h : reachable h → reachable (exec os h).
Proof.
  revert h. induction os as [|o os IH]; intros h Hreach; simpl; [done|].
  apply IH. by apply run_reachable.
Qed.

(** ** Effects of [check_in], [check_out] and [add_service] *)

Lemma check_in_ok h i r :
  Dict.get i (reservations h) = Some r → is_checked_in r = false →
  check_in i h = (Ok (), checked_in i r h).
Proof. intros Hi Hin. by rewrite check_in_eq, Hi, Hin. Qed.

Lemma checked_in_reservation h i r :
  Dict.get i (reservations h) = Some r →
  Dict.get i (reservations (checked_in i r h)) = Some (set_is_checked_in true r).
Proof. intros Hi. simpl. by rewrite DictFacts.get_alter, decide_True, Hi. Qed.

Lemma checked_in_other h i j r :
  j ≠ i →
  Dict.get j (reservations (checked_in i r h)) = Dict.get j (reservations h).
Proof. intros Hj. simpl. by rewrite DictFacts.get_alter, decide_False. Qed.

Lemma checked_in_room h i r x :
  Dict.get (room r) (rooms h) = Some x →
  Dict.get (room r) (rooms (checked_in i r h)) = Some (set_is_occupied true x).
Proof. intros Hx. simpl. by rewrite DictFacts.get_alter, decide_True, Hx. Qed.

Lemma check_out_ok h i r x :
  Dict.get i (reservations h) = Some r →
  is_checked_in r = true → is_checked_out r = false →
  Dict.get (room r) (rooms h) = Some x →
  check_out i h = (Ok (), checked_out i r (set_is_occupied false x) h).
Proof.
  intros Hi Hin Hout Hx. rewrite check_out_eq, Hi, Hin, Hout. simpl.
  by rewrite DictFacts.get_alter, decide_True, Hx.
Qed.

Lemma checked_out_reservation h i r x :
  Dict.get i (reservations h) = Some r →
  Dict.get i (reservations (checked_out i r x h))
  = Some (set_total_charges (calculate_total_charges x (set_is_checked_out true r))
            (set_is_checked_out true r)).
Proof. intros Hi. simpl. by rewrite !DictFacts.get_alter, !decide_True, Hi. Qed.

Lemma checked_out_other h i j r x :
  j ≠ i →
  Dict.get j (reservations (checked_out i r x h)) = Dict.get j (reservations h).
Proof. intros Hj. simpl. by rewrite !DictFacts.get_alter, !decide_False. Qed.

Lemma checked_out_room h i r x y :
  Dict.get (room r) (rooms h) = Some y →
  Dict.get (room r) (rooms (checked_out i r x h)) = Some (set_is_occupied false y).
Proof. intros Hy. simpl. by rewrite DictFacts.get_alter, decide_True, Hy. Qed.

(** ** Binary64 arithmetic

    Signs and finiteness of the sums and products of the charges, and the
    sums and products that are computed without rounding, from the
    specification of the float operations ([FloatAxioms]). *)

Module FloatFacts.

Lemma digits2_pos_size p : digits2_pos p = Pos.size p.
Proof. induction p; simpl; congruence. Qed.

Lemma Zdigits2_log2 m : 0 < m → Zdigits2 m = Z.log2 m + 1.
Proof.
  destruct m as [|p|p]; [lia| |lia]. intros _. simpl.
  rewrite digits2_pos_size. destruct p; simpl; lia.
Qed.

Lemma Zdigits2_le m k : 0 ≤ m → 0 ≤ k → m < 2 ^ k → Zdigits2 m ≤ k.
Proof.
  intros Hm Hk Hlt. destruct (decide (m = 0)) as [->|]; [done|].
  rewrite Zdigits2_log2 by lia. apply Z.log2_lt_pow2 in Hlt; lia.
Qed.

Lemma Zdigits2_lt_pow m : 0 ≤ m → 0 ≤ Zdigits2 m ∧ m < 2 ^ Zdigits2 m.
Proof.
  intros Hm. destruct (decide (m = 0)) as [->|]; [done|].
  rewrite Zdigits2_log2 by lia.
  pose proof (Z.log2_spec m) as Hs. pose proof (Z.log2_nonneg m).
  replace (Z.succ (Z.log2 m)) with (Z.log2 m + 1) in Hs by lia. lia.
Qed.

Lemma Zdigits2_succ_le m m' : 0 ≤ m → m ≤ m' ≤ m + 1 → Zdigits2 m' ≤ Zdigits2 m + 1.
Proof.
  intros Hm Hm'. destruct (Zdigits2_lt_pow m Hm) as [Hd Hlt].
  apply Zdigits2_le; [lia..|].
  rewrite Z.pow_add_r by lia. lia.
Qed.

Lemma shr_m_shr_record_of_loc m l : shr_m (shr_record_of_loc m l) = m.
Proof. by destruct l as [|[]]. Qed.

Lemma shr_m_shr_1 mrs : 0 ≤ shr_m mrs → shr_m (shr_1 mrs) = shr_m mrs / 2.
Proof.
  destruct mrs as [m r s]. simpl. intros Hm. rewrite <-Z.div2_div.
  destruct m as [|[p|p|]|]; try done.
Qed.

Lemma shr_m_iter_pos p mrs :
  0 ≤ shr_m mrs → shr_m (SpecFloat.iter_pos shr_1 p mrs) = shr_m mrs / 2 ^ Z.pos p.
Proof.
  revert mrs. induction p as [p IH|p IH|]; intros mrs Hm; simpl SpecFloat.iter_pos.
  - assert (0 ≤ shr_m (shr_1 mrs)) as H1.
    { rewrite shr_m_shr_1 by done. by apply Z.div_pos. }
    assert (0 ≤ shr_m (SpecFloat.iter_pos shr_1 p (shr_1 mrs))) as H2.
    { rewrite IH by done. apply Z.div_pos; lia. }
    rewrite IH, IH, shr_m_shr_1 by done.
    rewrite !Z.div_div by lia. f_equal.
    replace (Z.pos p~1) with (1 + Z.pos p + Z.pos p) by lia.
    rewrite !Z.pow_add_r by lia. lia.
  - assert (0 ≤ shr_m (SpecFloat.iter_pos shr_1 p mrs)) as H2.
    { rewrite IH by done. apply Z.div_pos; lia. }
    rewrite IH, IH by done.
    rewrite !Z.div_div by lia. f_equal.
    replace (Z.pos p~0) with (Z.pos p + Z.pos p) by lia.
    by rewrite Z.pow_add_r by lia.
  - rewrite shr_m_shr_1 by done. by rewrite Z.pow_1_r.
Qed.

Lemma shr_fexp_bounds m e l mrs' e' :
  0 ≤ m →
  shr_fexp prec emax m e l = (mrs', e') →
  0 ≤ shr_m mrs'
  ∧ e' ≤ Z.max e (fexp prec emax (Zdigits2 m + e))
  ∧ Zdigits2 (shr_m mrs') + e' ≤ Z.max e' (Zdigits2 m + e).
Proof.
  intros Hm. unfold shr_fexp, shr.
  destruct (Zdigits2_lt_pow m Hm) as [Hd Hlt].
  destruct (fexp prec emax (Zdigits2 m + e) - e) as [|p|p] eqn:Hn;
    intros [= <- <-]; rewrite ?shr_m_shr_record_of_loc; [lia| |lia].
  rewrite shr_m_iter_pos by by rewrite shr_m_shr_record_of_loc.
  rewrite shr_m_shr_record_of_loc.
  split; [apply Z.div_pos; lia|]. split; [lia|].
  destruct (decide (Z.pos p ≤ Zdigits2 m)) as [Hp|Hp].
  - assert (Zdigits2 (m / 2 ^ Z.pos p) ≤ Zdigits2 m - Z.pos p); [|lia].
    apply Zdigits2_le; [apply Z.div_pos; lia|lia|].
    apply Z.div_lt_upper_bound; [lia|].
    rewrite <-Z.pow_add_r by lia.
    by replace (Z.pos p + (Zdigits2 m - Z.pos p)) with (Zdigits2 m) by lia.
  - rewrite Z.div_small; [simpl; lia|]. split; [done|].
    eapply Z.lt_le_trans; [exact Hlt|]. apply Z.pow_le_mono_r; lia.
Qed.

Lemma round_nearest_even_bounds m l : m ≤ round_nearest_even m l ≤ m + 1.
Proof. destruct l as [|[]]; simpl; try destruct (Z.even m); lia. Qed.

(** The sign of a rounded number is the sign asked for, and there is no
    overflow while the number is below 2^900. *)
Lemma binary_round_aux_spec s m e l :
  0 ≤ m →
  sf_signed s (binary_round_aux prec emax s m e l) = true
  ∧ (e ≤ 900 → Zdigits2 m + e ≤ 900 →
     sf_finite (binary_round_aux prec emax s m e l) = true).
Proof.
  intros Hm. unfold binary_round_aux.
  destruct (shr_fexp prec emax m e l) as [mrs' e'] eqn:H1.
  apply shr_fexp_bounds in H1 as (Hm' & He' & Hd'); [|done].
  pose proof (round_nearest_even_bounds (shr_m mrs') (loc_of_shr_record mrs')) as Hr.
  set (m1 := round_nearest_even _ _) in *.
  pose proof (Zdigits2_succ_le (shr_m mrs') m1 Hm' Hr) as Hd1.
  destruct (shr_fexp prec emax m1 e' loc_Exact) as [mrs'' e''] eqn:H2.
  apply shr_fexp_bounds in H2 as (Hm'' & He'' & _); [|lia].
  destruct (shr_m mrs'') as [|q|q]; [done| |lia].
  destruct (Z.leb_spec e'' (emax - prec)) as [Hle|Hgt]; simpl.
  - by rewrite bool_decide_eq_true_2.
  - split; [by rewrite bool_decide_eq_true_2|]. intros He Hd.
    unfold fexp, SpecFloat.emin, prec, emax in *. lia.
Qed.

Lemma digits2_pos_iter_xO m d :
  Z.pos (digits2_pos (Pos.iter xO m d)) = Z.pos (digits2_pos m) + Z.pos d.
Proof.
  induction d as [|d IH] using Pos.peano_ind; [simpl; lia|].
  rewrite Pos.iter_succ. simpl. lia.
Qed.

Lemma binary_round_spec s m e :
  sf_signed s (binary_round prec emax s m e) = true
  ∧ (e ≤ 900 → Z.pos (digits2_pos m) + e ≤ 900 →
     sf_finite (binary_round prec emax s m e) = true).
Proof.
  unfold binary_round, shl_align.
  destruct (fexp prec emax (Z.pos (digits2_pos m) + e) - e) as [|d|d] eqn:Hd.
  - by apply binary_round_aux_spec.
  - by apply binary_round_aux_spec.
  - destruct (binary_round_aux_spec s (Z.pos (Pos.iter xO m d))
      (fexp prec emax (Z.pos (digits2_pos m) + e)) loc_Exact) as [Hs Hf]; [done|].
    split; [done|]. intros He Hm. apply Hf; [lia|].
    simpl. rewrite digits2_pos_iter_xO. lia.
Qed.

Lemma sf_signed_opp s x : sf_signed s x = true → sf_signed (negb s) (SFopp x) = true.
Proof.
  destruct x as [| | |s' ? ?]; simpl; try done;
    intros ->%bool_decide_eq_true; by rewrite bool_decide_eq_true_2.
Qed.

Lemma sf_finite_opp x : sf_finite (SFopp x) = sf_finite x.
Proof. by destruct x. Qed.

Lemma Prim2SF_of_uint63 k :
  0 ≤ k < 2 ^ 63 →
  Prim2SF (of_uint63 (Uint63.of_Z k)) = binary_normalize prec emax k 0 false.
Proof.
  intros Hk. rewrite FloatAxioms.of_uint63_spec. f_equal.
  change (Uint63Axioms.to_Z (of_Z k)) with (Uint63.to_Z (of_Z k)).
  rewrite of_Z_spec. apply Z.mod_small. exact Hk.
Qed.

Lemma binary_normalize_not_negative k :
  0 ≤ k < 2 ^ 63 →
  sf_signed false (binary_normalize prec emax k 0 false) = true
  ∧ sf_finite (binary_normalize prec emax k 0 false) = true
  ∧ (k = 0 → binary_normalize prec emax k 0 false = S754_zero false).
Proof.
  intros Hk. destruct k as [|q|q]; [done| |lia]. simpl.
  destruct (binary_round_spec false q 0) as [Hs Hf].
  split; [done|]. split; [|done]. apply Hf; [lia|].
  assert (Zdigits2 (Z.pos q) ≤ 63); [|simpl in *; lia].
  apply Zdigits2_le; lia.
Qed.

(** The float of a day count: finite, of the sign of the count. *)
Lemma float_of_int_spec n :
  - 2 ^ 63 < n < 2 ^ 63 →
  sf_finite (Prim2SF (float_of_int n)) = true
  ∧ (0 ≤ n → sf_signed false (Prim2SF (float_of_int n)) = true)
  ∧ (n ≤ 0 → sf_signed true (Prim2SF (float_of_int n)) = true).
Proof.
  intros Hn. unfold float_of_int. case_bool_decide as Hneg.
  - rewrite FloatAxioms.opp_spec, Prim2SF_of_uint63 by lia.
    destruct (binary_normalize_not_negative (- n)) as (Hs & Hf & _); [lia|].
    rewrite sf_finite_opp. split; [done|]. split; [lia|]. intros _.
    by apply (sf_signed_opp false).
  - rewrite Prim2SF_of_uint63 by lia.
    destruct (binary_normalize_not_negative n) as (Hs & Hf & H0); [lia|].
    split; [done|]. split; [done|]. intros Hle.
    by rewrite H0 by lia.
Qed.

Lemma SFmul_signed sx sy x y :
  sf_signed sx x = true → sf_signed sy y = true →
  sf_finite x = true → sf_finite y = true →
  sf_signed (xorb sx sy) (SF64mul x y) = true.
Proof.
  destruct x as [?| | |s1 m1 e1], y as [?| | |s2 m2 e2]; simpl; try done.
  intros ->%bool_decide_eq_true ->%bool_decide_eq_true _ _.
  by apply binary_round_aux_spec.
Qed.

Lemma SFadd_not_negative x y :
  sf_signed false x = true → sf_signed false y = true →
  sf_signed false (SF64add x y) = true.
Proof.
  destruct x as [s1|s1| |s1 m1 e1], y as [s2|s2| |s2 m2 e2]; simpl; try done.
  - by destruct s1, s2.
  - by intros ->%bool_decide_eq_true ->%bool_decide_eq_true.
  - intros ->%bool_decide_eq_true ->%bool_decide_eq_true. simpl.
    apply binary_round_spec.
Qed.

Lemma not_negative_spec x : not_negative x ↔ sf_signed false (Prim2SF x) = true.
Proof.
  unfold not_negative. rewrite FloatAxioms.leb_spec.
  change (Prim2SF 0) with (S754_zero false).
  by destruct (Prim2SF x) as [?|[]| |[] ? ?].
Qed.

Lemma not_positive_spec x : not_positive x ↔ sf_signed true (Prim2SF x) = true.
Proof.
  unfold not_positive. rewrite FloatAxioms.leb_spec.
  change (Prim2SF 0) with (S754_zero false).
  by destruct (Prim2SF x) as [?|[]| |[] ? ?].
Qed.

Lemma is_finite_spec x : is_finite x = true → sf_finite (Prim2SF x) = true.
Proof.
  unfold is_finite, is_nan, is_infinity.
  rewrite !FloatAxioms.eqb_spec, FloatAxioms.abs_spec.
  change (Prim2SF infinity) with (S754_infinity false).
  by destruct (Prim2SF x) as [?|[]| |[] ? ?].
Qed.


(** *** Whole numbers below 2^53: sums and products without rounding *)

Lemma Zdigits2_mul_pow2 z k : 0 < z → 0 ≤ k → Zdigits2 (z * 2 ^ k) = Zdigits2 z + k.
Proof.
  intros Hz Hk. assert (0 < 2 ^ k) by by apply Z.pow_pos_nonneg.
  rewrite !Zdigits2_log2 by lia. rewrite Z.log2_mul_pow2 by lia. lia.
Qed.

Lemma Zdigits2_whole z : 0 < z < 2 ^ 53 → 1 ≤ Zdigits2 z ≤ 53.
Proof.
  intros Hz. split.
  - rewrite Zdigits2_log2 by lia. pose proof (Z.log2_nonneg z). lia.
  - apply Zdigits2_le; lia.
Qed.

Lemma shr_1_double k :
  0 ≤ k →
  shr_1 {| shr_m := 2 * k; shr_r := false; shr_s := false |}
  = {| shr_m := k; shr_r := false; shr_s := false |}.
Proof. by destruct k. Qed.

Lemma iter_pos_shr_1_exact n k :
  0 ≤ k →
  SpecFloat.iter_pos shr_1 n {| shr_m := k * 2 ^ Z.pos n; shr_r := false; shr_s := false |}
  = {| shr_m := k; shr_r := false; shr_s := false |}.
Proof.
  revert k. induction n as [n IH|n IH|]; intros k Hk; cbn [SpecFloat.iter_pos].
  - assert (0 < 2 ^ Z.pos n) by by apply Z.pow_pos_nonneg.
    replace (k * 2 ^ Z.pos n~1) with (2 * (k * 2 ^ Z.pos n * 2 ^ Z.pos n)).
    + rewrite shr_1_double, IH, IH by nia. done.
    + replace (Z.pos n~1) with (1 + Z.pos n + Z.pos n) by lia.
      rewrite !Z.pow_add_r by lia. lia.
  - assert (0 < 2 ^ Z.pos n) by by apply Z.pow_pos_nonneg.
    replace (k * 2 ^ Z.pos n~0) with (k * 2 ^ Z.pos n * 2 ^ Z.pos n).
    + rewrite IH, IH by nia. done.
    + replace (Z.pos n~0) with (Z.pos n + Z.pos n) by lia.
      rewrite !Z.pow_add_r by lia. lia.
  - replace (k * 2 ^ 1) with (2 * k) by lia. by apply shr_1_double.
Qed.

Lemma shr_fexp_exact c n e :
  0 < c → Zdigits2 c = 53 → 0 ≤ n → -1074 ≤ e + n →
  shr_fexp prec emax (c * 2 ^ n) e loc_Exact
  = ({| shr_m := c; shr_r := false; shr_s := false |}, e + n).
Proof.
  intros Hc Hd Hn He. unfold shr_fexp.
  rewrite Zdigits2_mul_pow2, Hd by done.
  replace (fexp prec emax (53 + n + e) - e) with n
    by (unfold fexp, SpecFloat.emin, prec, emax; lia).
  unfold shr. simpl shr_record_of_loc. destruct n as [|p|p]; [|by rewrite iter_pos_shr_1_exact by lia|lia].
  by rewrite Z.pow_0_r, Z.mul_1_r, Z.add_0_r.
Qed.

(** A mantissa of 53 digits with [n] zeros behind it is rounded to itself. *)
Lemma binary_round_aux_exact s c n e :
  0 < c → Zdigits2 c = 53 → 0 ≤ n → -1074 ≤ e + n ≤ 971 →
  binary_round_aux prec emax s (c * 2 ^ n) e loc_Exact
  = S754_finite s (Z.to_pos c) (e + n).
Proof.
  intros Hc Hd Hn He. unfold binary_round_aux.
  rewrite shr_fexp_exact by (done || lia). simpl.
  pose proof (shr_fexp_exact c 0 (e + n) Hc Hd) as H0.
  rewrite Z.pow_0_r, Z.mul_1_r, Z.add_0_r in H0. rewrite H0 by lia. simpl.
  destruct c as [|q|q]; [lia| |lia].
  destruct (Z.leb_spec (e + n) (emax - prec)) as [_|Hgt]; [done|].
  unfold emax, prec in Hgt. lia.
Qed.

Lemma Z_pos_iter_xO m k : Z.pos (Pos.iter xO m k) = Z.pos m * 2 ^ Z.pos k.
Proof.
  induction k as [|k IH] using Pos.peano_ind; [simpl; lia|].
  rewrite Pos.iter_succ, Pos2Z.inj_xO, IH, Pos2Z.inj_succ, Z.pow_succ_r by lia. lia.
Qed.

Lemma shl_align_fst m e e' :
  e' ≤ e → Z.pos (shl_align m e e').1 = Z.pos m * 2 ^ (e - e').
Proof.
  intros He. unfold shl_align. destruct (e' - e) as [|k|k] eqn:Hk; [|lia|].
  - replace (e - e') with 0 by lia. simpl. lia.
  - simpl. rewrite Z_pos_iter_xO. f_equal. f_equal. lia.
Qed.

Lemma binary_normalize_whole m e z :
  0 < z < 2 ^ 53 → -1000 ≤ e ≤ 0 → m = z * 2 ^ (- e) →
  binary_normalize prec emax m e false = canon z.
Proof.
  intros Hz He ->. pose proof (Zdigits2_whole z Hz) as Hd.
  assert (0 < 2 ^ (- e)) by (apply Z.pow_pos_nonneg; lia).
  assert (0 < 2 ^ (53 - Zdigits2 z)) by (apply Z.pow_pos_nonneg; lia).
  assert (Zdigits2 (z * 2 ^ (53 - Zdigits2 z)) = 53) as Hc
    by (rewrite Zdigits2_mul_pow2 by lia; lia).
  destruct (z * 2 ^ (- e)) as [|q|q] eqn:Hq; [nia| |nia]. simpl.
  unfold binary_round.
  assert (Z.pos (digits2_pos q) = Zdigits2 z - e) as ->.
  { change (Z.pos (digits2_pos q)) with (Zdigits2 (Z.pos q)).
    rewrite <-Hq, Zdigits2_mul_pow2 by lia. lia. }
  replace (fexp prec emax (Zdigits2 z - e + e)) with (Zdigits2 z - 53)
    by (unfold fexp, SpecFloat.emin, prec, emax; lia).
  unfold shl_align. destruct (Zdigits2 z - 53 - e) as [|k|k] eqn:Hk.
  - rewrite <-Hq.
    replace (z * 2 ^ (- e)) with (z * 2 ^ (53 - Zdigits2 z) * 2 ^ 0)
      by (rewrite Z.pow_0_r, Z.mul_1_r; do 2 f_equal; lia).
    rewrite binary_round_aux_exact by (nia || lia). unfold canon. f_equal. lia.
  - rewrite <-Hq.
    replace (z * 2 ^ (- e)) with (z * 2 ^ (53 - Zdigits2 z) * 2 ^ Z.pos k).
    + rewrite binary_round_aux_exact by (nia || lia). unfold canon. f_equal. lia.
    + rewrite <-Z.mul_assoc, <-Z.pow_add_r by lia. do 2 f_equal. lia.
  - rewrite Z_pos_iter_xO, <-Hq.
    replace (z * 2 ^ (- e) * 2 ^ Z.pos k) with (z * 2 ^ (53 - Zdigits2 z) * 2 ^ 0).
    + rewrite binary_round_aux_exact by (nia || lia). unfold canon. f_equal. lia.
    + rewrite Z.pow_0_r, Z.mul_1_r, <-Z.mul_assoc, <-Z.pow_add_r by lia.
      do 2 f_equal. lia.
Qed.

Lemma canon_mantissa z :
  0 < z < 2 ^ 53 →
  Z.pos (Z.to_pos (z * 2 ^ (53 - Zdigits2 z))) = z * 2 ^ (53 - Zdigits2 z).
Proof.
  intros Hz. pose proof (Zdigits2_whole z Hz).
  assert (0 < 2 ^ (53 - Zdigits2 z)) by (apply Z.pow_pos_nonneg; lia).
  apply Z2Pos.id. nia.
Qed.

Lemma SFadd_canon a b :
  0 < a → 0 < b → a + b < 2 ^ 53 →
  SF64add (canon a) (canon b) = canon (a + b).
Proof.
  intros Ha Hb Hab.
  pose proof (Zdigits2_whole a) as Hda. pose proof (Zdigits2_whole b) as Hdb.
  unfold canon at 1 2. unfold SF64add, SFadd.
  rewrite !shl_align_fst by lia. rewrite !canon_mantissa by lia. simpl cond_Zopp.
  apply binary_normalize_whole; [lia..|].
  set (ez := (Zdigits2 a - 53) `min` (Zdigits2 b - 53)).
  rewrite Z.mul_add_distr_r, <-!Z.mul_assoc, <-!Z.pow_add_r by lia.
  do 2 f_equal; f_equal; lia.
Qed.

Lemma SFmul_canon a b :
  0 < a → 0 < b → a * b < 2 ^ 53 →
  SF64mul (canon a) (canon b) = canon (a * b).
Proof.
  intros Ha Hb Hab.
  assert (0 < a * b) by nia. assert (a < 2 ^ 53) by nia. assert (b < 2 ^ 53) by nia.
  pose proof (Zdigits2_whole a) as Hda. pose proof (Zdigits2_whole b) as Hdb.
  pose proof (Zdigits2_whole (a * b)) as Hdab.
  assert (Zdigits2 a + Zdigits2 b - 1 ≤ Zdigits2 (a * b)) as Hd.
  { rewrite !Zdigits2_log2 by lia. pose proof (Z.log2_mul_below a b). lia. }
  assert (0 < 2 ^ (53 - Zdigits2 (a * b))) by (apply Z.pow_pos_nonneg; lia).
  unfold canon at 1 2. unfold SF64mul, SFmul. simpl xorb.
  rewrite Pos2Z.inj_mul, !canon_mantissa by lia.
  replace (a * 2 ^ (53 - Zdigits2 a) * (b * 2 ^ (53 - Zdigits2 b)))
    with (a * b * 2 ^ (53 - Zdigits2 (a * b))
          * 2 ^ (Zdigits2 (a * b) + 53 - Zdigits2 a - Zdigits2 b)).
  - rewrite binary_round_aux_exact; [unfold canon; f_equal; lia|nia| |lia|lia].
    rewrite Zdigits2_mul_pow2 by lia. lia.
  - rewrite <-!Z.mul_assoc. f_equal.
    rewrite (Z.mul_comm (2 ^ (53 - Zdigits2 a))), <-!Z.mul_assoc. f_equal.
    rewrite <-!Z.pow_add_r by lia. f_equal. lia.
Qed.

Lemma Prim2SF_float_of_int_whole z :
  0 < z < 2 ^ 53 → Prim2SF (float_of_int z) = canon z.
Proof.
  intros Hz. unfold float_of_int. rewrite bool_decide_eq_false_2 by lia.
  rewrite Prim2SF_of_uint63 by lia.
  apply binary_normalize_whole; [done|lia|]. simpl. lia.
Qed.

(** Whole numbers that are not negative are added and multiplied without
    rounding while the result is below 2^53. *)
Lemma float_of_int_add a b :
  0 ≤ a → 0 ≤ b → a + b < 2 ^ 53 →
  (float_of_int a + float_of_int b)%float = float_of_int (a + b).
Proof.
  intros Ha Hb Hab. apply Prim2SF_inj. rewrite FloatAxioms.add_spec.
  destruct (decide (a = 0)) as [->|]; [|destruct (decide (b = 0)) as [->|]].
  - rewrite Z.add_0_l. destruct (decide (b = 0)) as [->|]; [done|].
    change (Prim2SF (float_of_int 0)) with (S754_zero false).
    by rewrite !Prim2SF_float_of_int_whole by lia.
  - rewrite Z.add_0_r. change (Prim2SF (float_of_int 0)) with (S754_zero false).
    by rewrite !Prim2SF_float_of_int_whole by lia.
  - rewrite !Prim2SF_float_of_int_whole by lia. apply SFadd_canon; lia.
Qed.

Lemma float_of_int_mul a b :
  0 ≤ a < 2 ^ 53 → 0 ≤ b < 2 ^ 53 → a * b < 2 ^ 53 →
  (float_of_int a * float_of_int b)%float = float_of_int (a * b).
Proof.
  intros Ha Hb Hab. apply Prim2SF_inj. rewrite FloatAxioms.mul_spec.
  destruct (decide (a = 0)) as [->|]; [|destruct (decide (b = 0)) as [->|]].
  - rewrite Z.mul_0_l. destruct (decide (b = 0)) as [->|]; [done|].
    change (Prim2SF (float_of_int 0)) with (S754_zero false).
    by rewrite !Prim2SF_float_of_int_whole by lia.
  - rewrite Z.mul_0_r. change (Prim2SF (float_of_int 0)) with (S754_zero false).
    by rewrite !Prim2SF_float_of_int_whole by lia.
  - rewrite !Prim2SF_float_of_int_whole by nia. apply SFmul_canon; lia.
Qed.

(** A finite price that is not negative, times a day count. *)
Lemma mul_not_positive p n :
  not_negative p → is_finite p = true → - 2 ^ 63 < n ≤ 0 →
  not_positive (p * float_of_int n).
Proof.
  intros Hp%not_negative_spec Hf%is_finite_spec Hn.
  apply not_positive_spec. rewrite FloatAxioms.mul_spec.
  destruct (float_of_int_spec n) as (Hnf & _ & Hns); [lia|].
  apply (SFmul_signed false true); [done| |done..]. apply Hns. lia.
Qed.

Lemma mul_not_negative p n :
  not_negative p → is_finite p = true → 0 ≤ n < 2 ^ 63 →
  not_negative (p * float_of_int n).
Proof.
  intros Hp%not_negative_spec Hf%is_finite_spec Hn.
  apply not_negative_spec. rewrite FloatAxioms.mul_spec.
  destruct (float_of_int_spec n) as (Hnf & Hns & _); [lia|].
  apply (SFmul_signed false false); [done| |done..]. apply Hns. lia.
Qed.

Lemma add_not_negative a b :
  not_negative a → not_negative b → not_negative (a + b).
Proof.
  intros Ha%not_negative_spec Hb%not_negative_spec.
  apply not_negative_spec. rewrite FloatAxioms.add_spec.
  by apply SFadd_not_negative.
Qed.

Lemma charged_not_negative total services :
  not_negative total →
  Forall (λ s, not_negative s.2) services →
  not_negative (charged total services).
Proof.
  intros Ht Hs. revert total Ht. unfold charged.
  induction Hs as [|s l Hs _ IH]; intros total Ht; simpl; [done|].
  apply IH. by apply add_not_negative.
Qed.

Lemma sum_not_negative (zs : list Z) : Forall (λ z, 0 ≤ z) zs → 0 ≤ foldr Z.add 0 zs.
Proof. induction 1; simpl; lia. Qed.

Lemma charged_whole T services zs :
  0 ≤ T →
  Forall2 (λ s z, whole s.2 z) services zs →
  T + foldr Z.add 0 zs < 2 ^ 53 →
  charged (float_of_int T) services = float_of_int (T + foldr Z.add 0 zs).
Proof.
  intros HT Hs. revert T HT. unfold charged.
  induction Hs as [|s z l zs' [Hz Hs] Hl IH]; intros T HT Hlt; simpl in *.
  - by rewrite Z.add_0_r.
  - assert (0 ≤ foldr Z.add 0 zs').
    { apply sum_not_negative. eapply Forall2_Forall_r; [exact Hl|].
      apply Forall_forall. by intros ? ? ? [? _]. }
    rewrite Hs, float_of_int_add, IH by lia. f_equal. lia.
Qed.

End FloatFacts.

(** With whole numbers for the price of the room and of the services, none
    negative, and charges below 2^53, the stored charges of a reachable state
    are the whole number price × nights + sum of the services, and so is what
    [calculate_total_charges] computes. *)
Lemma whole_charges h i r x P zs :
  reachable h →
  Dict.get i (reservations h) = Some r →
  Dict.get (room r) (rooms h) = Some x →
  0 ≤ check_out_date r - check_in_date r < 2 ^ 53 →
  whole (price_per_night x) P → P < 2 ^ 53 →
  Forall2 (λ s z, whole s.2 z) (services_used r) zs →
  P * (check_out_date r - check_in_date r) + foldr Z.add 0 zs < 2 ^ 53 →
  total_charges r
  = float_of_int (P * (check_out_date r - check_in_date r) + foldr Z.add 0 zs)
  ∧ calculate_total_charges x r
    = float_of_int (P * (check_out_date r - check_in_date r) + foldr Z.add 0 zs).
Proof.
  intros Hreach Hi Hx Hn [HP Hprice] HP' Hs Hlt.
  assert (0 ≤ foldr Z.add 0 zs) as Hsum.
  { apply FloatFacts.sum_not_negative. eapply Forall2_Forall_r; [exact Hs|].
    apply Forall_forall. by intros ? ? ? [? _]. }
  assert (room_charges x r = float_of_int (P * (check_out_date r - check_in_date r)))
    as Hroom.
  { unfold room_charges. rewrite Hprice. apply FloatFacts.float_of_int_mul; nia. }
  assert (calculate_total_charges x r
          = float_of_int (P * (check_out_date r - check_in_date r) + foldr Z.add 0 zs))
    as Hcalc.
  { unfold calculate_total_charges. simpl.
    change (price_per_night x * float_of_int (check_out_date r - check_in_date r))%float
      with (room_charges x r).
    change (service_charges (services_used r))
      with (charged (float_of_int 0) (services_used r)).
    rewrite Hroom, (FloatFacts.charged_whole 0 _ zs), FloatFacts.float_of_int_add
      by (done || lia || nia). done. }
  split; [|done].
  destruct (reachable_charges_accumulated h Hreach i r Hi) as (x' & Hx' & Hc).
  simplify_eq. destruct (is_checked_out r).
  - destruct Hc as (before & after & Hsplit & ->). rewrite Hsplit in Hs.
    apply Forall2_app_inv_l in Hs as (zb & za & Hb & Ha & ->).
    rewrite foldr_app in Hlt, Hsum |- *.
    assert (0 ≤ foldr Z.add 0 za).
    { apply FloatFacts.sum_not_negative. eapply Forall2_Forall_r; [exact Ha|].
      apply Forall_forall. by intros ? ? ? [? _]. }
    assert (0 ≤ foldr Z.add 0 zb).
    { apply FloatFacts.sum_not_negative. eapply Forall2_Forall_r; [exact Hb|].
      apply Forall_forall. by intros ? ? ? [? _]. }
    assert (foldr Z.add (foldr Z.add 0 za) zb = foldr Z.add 0 zb + foldr Z.add 0 za)
      as Happ.
    { clear. induction zb as [|z zb IH]; simpl; lia. }
    rewrite Happ in *.
    change (service_charges before) with (charged (float_of_int 0) before).
    rewrite Hroom, (FloatFacts.charged_whole 0 _ zb), FloatFacts.float_of_int_add,
      (FloatFacts.charged_whole _ _ za) by (done || lia || nia).
    f_equal. lia.
  - rewrite Hc, Hroom, (FloatFacts.charged_whole _ _ zs) by (done || lia || nia).
    done.
Qed.

(** ** The calendar: [fromisoformat] reads what [isoformat] writes *)

Module CalendarFacts.
Import Calendar.

(** Every day of a year, leap or not, by evaluation. *)
Lemma month_and_day_all leapyear :
  forallb (month_and_day_ok leapyear) (seqZ 0 365) = true.
Proof. destruct leapyear; vm_compute; reflexivity. Qed.

Lemma month_and_day_spec leapyear n month day :
  0 ≤ n < 365 →
  month_and_day leapyear n = (month, day) →
  1 ≤ month ≤ 12
  ∧ 1 ≤ day ≤ DAYS_IN_MONTH month + (if (month =? 2) && leapyear then 1 else 0)
  ∧ DAYS_BEFORE_MONTH month + (if (2 <? month) && leapyear then 1 else 0) + day
    = n + 1.
Proof.
  intros Hn Hmd. pose proof (month_and_day_all leapyear) as Hall.
  rewrite forallb_forall in Hall.
  specialize (Hall n). unfold month_and_day_ok in Hall. rewrite Hmd in Hall.
  rewrite !andb_true_iff, !bool_decide_eq_true in Hall.
  apply and_assoc, Hall, list_elem_of_In, elem_of_seqZ. lia.
Qed.

(** A year is 1 more than 400 a + 100 b + 4 c + e years of full cycles. *)
Lemma days_before_year_cycles a b c e :
  0 ≤ b ≤ 3 → 0 ≤ c ≤ 24 → 0 ≤ e ≤ 3 →
  days_before_year (400 * a + 100 * b + 4 * c + e + 1)
  = DI400Y * a + DI100Y * b + DI4Y * c + 365 * e.
Proof.
  intros Hb Hc He. unfold days_before_year, DI400Y, DI100Y, DI4Y.
  Z.div_mod_to_equations. lia.
Qed.

Lemma is_leap_cycles a b c e :
  0 ≤ b ≤ 3 → 0 ≤ c ≤ 24 → 0 ≤ e ≤ 3 →
  is_leap (400 * a + 100 * b + 4 * c + e + 1)
  = (e =? 3) && (negb (c =? 24) || (b =? 3)).
Proof.
  intros Hb Hc He. unfold is_leap.
  repeat match goal with
         | |- context [?x =? ?y] => destruct (Z.eqb_spec x y)
         end; simpl; try reflexivity; exfalso;
    Z.div_mod_to_equations; lia.
Qed.

Lemma days_in_month_leap year month :
  days_in_month year month
  = DAYS_IN_MONTH month + (if (month =? 2) && is_leap year then 1 else 0).
Proof.
  unfold days_in_month. destruct (Z.eqb_spec month 2) as [->|]; simpl; [|lia].
  destruct (is_leap year); simpl; lia.
Qed.

Lemma ord2ymd_spec n :
  valid n →
  ∃ year month day,
    ord2ymd n = (year, month, day)
    ∧ MINYEAR ≤ year ≤ MAXYEAR
    ∧ 1 ≤ month ≤ 12
    ∧ 1 ≤ day ≤ days_in_month year month
    ∧ ymd2ord year month day = n.
Proof.
  unfold valid, MAXORDINAL, MINYEAR, MAXYEAR. intros Hn. unfold ord2ymd.
  pose proof (Z.div_mod (n - 1) DI400Y) as E400.
  pose proof (Z.mod_pos_bound (n - 1) DI400Y) as B400.
  set (a := (n - 1) / DI400Y) in *. set (r400 := (n - 1) mod DI400Y) in *.
  pose proof (Z.div_mod r400 DI100Y) as E100.
  pose proof (Z.mod_pos_bound r400 DI100Y) as B100.
  set (b := r400 / DI100Y) in *. set (r100 := r400 mod DI100Y) in *.
  pose proof (Z.div_mod r100 DI4Y) as E4.
  pose proof (Z.mod_pos_bound r100 DI4Y) as B4.
  set (c := r100 / DI4Y) in *. set (r4 := r100 mod DI4Y) in *.
  pose proof (Z.div_mod r4 365) as E1.
  pose proof (Z.mod_pos_bound r4 365) as B1.
  set (e := r4 / 365) in *. set (r := r4 mod 365) in *.
  unfold DI400Y, DI100Y, DI4Y in E400, B400, E100, B100, E4, B4.
  assert (0 ≤ a ≤ 24 ∧ 0 ≤ b ≤ 4 ∧ 0 ≤ c ≤ 24 ∧ 0 ≤ e ≤ 4) as (Ha & Hb & Hc & He)
    by lia.
  destruct (Z.eqb_spec e 4) as [He4|He4]; simpl.
  { (* the last day of a leap year closing a cycle of four years *)
    exists (400 * a + 100 * b + 4 * c + 3 + 1), 12, 31.
    assert (0 ≤ b ≤ 3 ∧ 0 ≤ c ≤ 23) as [Hb3 Hc23] by lia.
    split; [f_equal; f_equal; lia|].
    unfold ymd2ord, days_before_month.
    rewrite days_in_month_leap, is_leap_cycles, days_before_year_cycles by lia.
    unfold DI400Y, DI100Y, DI4Y.
    destruct (Z.eqb_spec c 24); [lia|]. simpl. lia. }
  destruct (Z.eqb_spec b 4) as [Hb4|Hb4]; simpl.
  { (* the last day of a cycle of 400 years *)
    exists (400 * a + 100 * 3 + 4 * 24 + 3 + 1), 12, 31.
    split; [f_equal; f_equal; lia|].
    unfold ymd2ord, days_before_month.
    rewrite days_in_month_leap, is_leap_cycles, days_before_year_cycles by lia.
    unfold DI400Y, DI100Y, DI4Y. simpl. lia. }
  destruct (month_and_day _ r) as [month day] eqn:Hmd.
  apply month_and_day_spec in Hmd as (Hmonth & Hday & Hsum); [|lia].
  exists (400 * a + 100 * b + 4 * c + e + 1), month, day.
  split; [f_equal; f_equal; lia|].
  unfold ymd2ord, days_before_month.
  rewrite days_in_month_leap, is_leap_cycles, days_before_year_cycles by lia.
  unfold DI400Y, DI100Y, DI4Y. split_and!; try lia.
Qed.

Lemma digit_value_char k : 0 ≤ k ≤ 9 → digit_value (digit_char k) = Some k.
Proof.
  intros Hk.
  assert (k = 0 ∨ k = 1 ∨ k = 2 ∨ k = 3 ∨ k = 4
          ∨ k = 5 ∨ k = 6 ∨ k = 7 ∨ k = 8 ∨ k = 9) as Hcases by lia.
  destruct Hcases as [->|[->|[->|[->|[->|[->|[->|[->|[->| ->]]]]]]]]]; reflexivity.
Qed.

Lemma number_2 k : 0 ≤ k ≤ 99 →
  number [digit_char (k / 10 mod 10); digit_char (k mod 10)] = Some k.
Proof.
  intros Hk. unfold number. simpl.
  rewrite !digit_value_char by (Z.div_mod_to_equations; lia). simpl.
  f_equal. Z.div_mod_to_equations. lia.
Qed.

Lemma number_4 k : 0 ≤ k ≤ 9999 →
  number [digit_char (k / 1000 mod 10); digit_char (k / 100 mod 10);
          digit_char (k / 10 mod 10); digit_char (k mod 10)] = Some k.
Proof.
  intros Hk. unfold number. simpl.
  rewrite !digit_value_char by (Z.div_mod_to_equations; lia). simpl.
  f_equal. Z.div_mod_to_equations. lia.
Qed.

Lemma fromisoformat_format_ymd year month day :
  MINYEAR ≤ year ≤ MAXYEAR → 1 ≤ month ≤ 12 → 1 ≤ day ≤ days_in_month year month →
  fromisoformat (format_ymd year month day) = Some (ymd2ord year month day).
Proof.
  unfold MINYEAR, MAXYEAR. intros Hy Hm Hd.
  assert (day ≤ 31).
  { rewrite days_in_month_leap in Hd.
    assert (DAYS_IN_MONTH month ≤ 30 ∨ month ≠ 2) as [?|?].
    { destruct (decide (month = 2)) as [->|]; [left; simpl; lia | by right]. }
    - destruct ((month =? 2) && is_leap year); lia.
    - destruct (Z.eqb_spec month 2); [done|]. simpl in Hd.
      assert (DAYS_IN_MONTH month ≤ 31); [|lia].
      assert (month = 1 ∨ month = 3 ∨ month = 4 ∨ month = 5 ∨ month = 6
              ∨ month = 7 ∨ month = 8 ∨ month = 9 ∨ month = 10 ∨ month = 11
              ∨ month = 12) as Hcases by lia.
      destruct Hcases as [->|[->|[->|[->|[->|[->|[->|[->|[->|[->| ->]]]]]]]]]];
        simpl; lia. }
  unfold fromisoformat, format_ymd. cbv iota beta.
  rewrite number_4, number_2, number_2 by lia. simpl.
  unfold MINYEAR, MAXYEAR.
  by rewrite !bool_decide_true by lia.
Qed.

(** A date read back from its ISO text is the date. *)
Lemma fromisoformat_isoformat d :
  valid d → fromisoformat (isoformat d) = Some d.
Proof.
  intros (year & month & day & Heq & Hy & Hm & Hd & <-)%ord2ymd_spec.
  unfold isoformat. rewrite Heq. by apply fromisoformat_format_ymd.
Qed.
End CalendarFacts.

(** ** Loading what was saved *)

Lemma services_of_json_to_json services :
  services_of_json (service_to_json <$> services) = Ok services.
Proof.
  induction services as [|[s p] l IH]; simpl; [done|].
  change (list_fmap _ _ service_to_json l) with (service_to_json <$> l).
  by rewrite IH.
Qed.

Lemma load_room_to_json room_ h :
  load_room (room_to_json room_) h
  = (Ok (), set_rooms (Dict.set (room_number room_) room_) h).
Proof. by destruct room_. Qed.

Lemma load_guest_to_json guest_ h :
  load_guest (guest_to_json guest_) h
  = (Ok (), set_guests (Dict.set (guest_id guest_) guest_) h).
Proof. by destruct guest_. Qed.

Lemma load_reservation_to_json res h :
  Calendar.valid (check_in_date res) → Calendar.valid (check_out_date res) →
  load_reservation (reservation_to_json res) h
  = match Dict.get (guest res) (guests h) with
    | None => (Raise (KeyError (guest res)), h)
    | Some guest_ =>
        match Dict.get (room res) (rooms h) with
        | None => (Raise (KeyError (room res)), h)
        | Some room_ =>
            (Ok (), set_reservations
                      (Dict.set (reservation_id res) (relinked res guest_ room_)) h)
        end
    end.
Proof.
  intros Hci Hco.
  unfold load_reservation, reservation_to_json, string_item, bool_item,
    number_item, list_item, lift, date_of_json.
  unfold_M. unfold result_bind. simpl.
  destruct (Dict.get (guest res) (guests h)) as [guest_|]; [|done].
  destruct (Dict.get (room res) (rooms h)) as [room_|]; [|done]. simpl.
  rewrite !CalendarFacts.fromisoformat_isoformat by done. simpl.
  change (list_fmap _ _ service_to_json (services_used res))
    with (service_to_json <$> services_used res).
  by rewrite services_of_json_to_json.
Qed.

Lemma for_each_load_room l h :
  for_each (room_to_json <$> l) load_room h
  = (Ok (), set_rooms (λ d, foldl (λ d r, Dict.set (room_number r) r d) d l) h).
Proof.
  revert h. induction l as [|x l IH]; intros h; [by destruct h|].
  change (room_to_json <$> x :: l) with (room_to_json x :: (room_to_json <$> l)).
  simpl. unfold mbind, M_bind. by rewrite load_room_to_json, IH.
Qed.

Lemma for_each_load_guest l h :
  for_each (guest_to_json <$> l) load_guest h
  = (Ok (), set_guests (λ d, foldl (λ d g, Dict.set (guest_id g) g d) d l) h).
Proof.
  revert h. induction l as [|x l IH]; intros h; [by destruct h|].
  change (guest_to_json <$> x :: l) with (guest_to_json x :: (guest_to_json <$> l)).
  simpl. unfold mbind, M_bind. by rewrite load_guest_to_json, IH.
Qed.

(** The loop over the reservations when every reference is met in the
    registries under the id of the object it denotes. *)
Lemma for_each_load_reservation_ok l h :
  (∀ res, res ∈ l →
     Calendar.valid (check_in_date res) ∧ Calendar.valid (check_out_date res)
     ∧ (∃ guest_, Dict.get (guest res) (guests h) = Some guest_
                  ∧ guest_id guest_ = guest res)
     ∧ (∃ room_, Dict.get (room res) (rooms h) = Some room_
                 ∧ room_number room_ = room res)) →
  for_each (reservation_to_json <$> l) load_reservation h
  = (Ok (), set_reservations
              (λ d, foldl (λ d r, Dict.set (reservation_id r) r d) d l) h).
Proof.
  revert h. induction l as [|x l IH]; intros h Hall; [by destruct h|].
  change (reservation_to_json <$> x :: l)
    with (reservation_to_json x :: (reservation_to_json <$> l)).
  simpl. unfold mbind, M_bind.
  destruct (Hall x) as (Hci & Hco & (guest_ & Hg & Hgid) & (room_ & Hr & Hrn));
    [by left|].
  rewrite load_reservation_to_json, Hg, Hr by done.
  replace (relinked x guest_ room_) with x
    by (unfold relinked; rewrite Hgid, Hrn; by destruct x).
  rewrite IH; [done|]. intros res Hres. apply Hall. by right.
Qed.

(** The loop over the reservations when one of them refers to an id that
    is in no registry. *)
Lemma for_each_load_reservation_unknown l h res :
  (∀ r, r ∈ l →
     Calendar.valid (check_in_date r) ∧ Calendar.valid (check_out_date r)) →
  res ∈ l →
  Dict.get (guest res) (guests h) = None ∨ Dict.get (room res) (rooms h) = None →
  ∃ k h', for_each (reservation_to_json <$> l) load_reservation h
          = (Raise (KeyError k), h').
Proof.
  revert h. induction l as [|x l IH]; intros h Hvalid Hin Hunknown.
  { by apply elem_of_nil in Hin. }
  change (reservation_to_json <$> x :: l)
    with (reservation_to_json x :: (reservation_to_json <$> l)).
  simpl. unfold mbind, M_bind.
  destruct (Hvalid x) as [Hci Hco]; [by left|].
  rewrite load_reservation_to_json by done.
  destruct (Dict.get (guest x) (guests h)) as [guest_|] eqn:Hg; [|by eauto].
  destruct (Dict.get (room x) (rooms h)) as [room_|] eqn:Hr; [|by eauto].
  apply elem_of_cons in Hin as [->|Hin].
  - destruct Hunknown; congruence.
  - apply IH; [|done|done]. intros r ?. apply Hvalid. by right.
Qed.

Lemma load_into_hotel_save h :
  wf h → dates_valid h →
  load_into_hotel (save_to_file h) (Hotel_init (name h)) = (Ok (), h).
Proof.
  intros Hwf Hdates.
  unfold load_into_hotel, save_to_file, number_item, list_item, lift.
  unfold_M. unfold result_bind. simpl.
  rewrite for_each_load_room, for_each_load_guest.
  set (h2 := set_guests _ _).
  assert (rooms h2 = rooms h) as Hrooms.
  { simpl. apply (DictFacts.foldl_set_rebuild room_number [] (rooms h)).
    - apply (wf_rooms_nodup h Hwf).
    - intros k v Hin. apply (wf_rooms_key h Hwf).
      apply DictFacts.elem_of_get; [apply (wf_rooms_nodup h Hwf) | done]. }
  assert (guests h2 = guests h) as Hguests.
  { simpl. apply (DictFacts.foldl_set_rebuild guest_id [] (guests h)).
    - apply (wf_guests_nodup h Hwf).
    - intros k v Hin. apply (wf_guests_key h Hwf).
      apply DictFacts.elem_of_get; [apply (wf_guests_nodup h Hwf) | done]. }
  rewrite for_each_load_reservation_ok.
  - f_equal. destruct h as [nm rs gs rsv n]. unfold set_reservations.
    simpl in Hrooms, Hguests |- *. rewrite Hrooms, Hguests. f_equal.
    apply (DictFacts.foldl_set_rebuild reservation_id [] rsv).
    + apply (wf_reservations_nodup _ Hwf).
    + intros k v Hin. apply (wf_reservations_key _ Hwf).
      apply DictFacts.elem_of_get; [apply (wf_reservations_nodup _ Hwf) | done].
  - intros res Hres. destruct (Hdates res Hres) as [Hci Hco].
    apply DictFacts.elem_of_values in Hres as [k Hk].
    apply DictFacts.elem_of_get in Hk; [|apply (wf_reservations_nodup h Hwf)].
    destruct (wf_guest_ref h Hwf k res Hk) as [g Hg].
    destruct (wf_room_ref h Hwf k res Hk) as [x Hx].
    rewrite Hrooms, Hguests. split_and!; [done | done | |].
    + exists g. split; [done|]. by apply (wf_guests_key h Hwf).
    + exists x. split; [done|]. by apply (wf_rooms_key h Hwf).
Qed.

Lemma load_from_file_save h :
  wf h → dates_valid h → load_from_file (save_to_file h) = Ok h.
Proof.
  intros Hwf Hdates. unfold load_from_file.
  change (string_item "name" (save_to_file h)) with (Ok (name h)).
  unfold mbind, result_bind. by rewrite load_into_hotel_save.
Qed.

Lemma load_from_file_unknown h res :
  dates_valid h →
  res ∈ Dict.values (reservations h) →
  guest res ∉ guest_id <$> Dict.values (guests h)
  ∨ room res ∉ room_number <$> Dict.values (rooms h) →
  ∃ k, load_from_file (save_to_file h) = Raise (KeyError k).
Proof.
  intros Hdates Hres Hunknown. unfold load_from_file.
  change (string_item "name" (save_to_file h)) with (Ok (name h)).
  unfold mbind at 1, result_bind.
  unfold load_into_hotel, save_to_file, number_item, list_item, lift.
  unfold_M. unfold result_bind. simpl.
  rewrite for_each_load_room, for_each_load_guest. simpl.
  edestruct (for_each_load_reservation_unknown (Dict.values (reservations h)))
    as (k & h' & ->); [exact Hdates | exact Hres | | by exists k].
  simpl. rewrite !DictFacts.get_None, !DictFacts.elem_of_keys_foldl_set.
  destruct Hunknown as [Hg|Hr]; [left | right];
    (intros [Hnil|?]; [by apply elem_of_nil in Hnil | done]).
Qed.

(** *** Every loaded hotel is well formed *)

Lemma for_each_invariant {A} (P : Hotel → Prop) (body : A → M unit) l h r h' :
  (∀ x h r h', P h → body x h = (r, h') → P h') →
  P h → for_each l body h = (r, h') → P h'.
Proof.
  intros Hbody. revert h. induction l as [|x l IH]; intros h HP; simpl.
  - by intros [= <- <-].
  - unfold mbind, M_bind. destruct (body x h) as [[[]|e] h1] eqn:Hx.
    + apply IH. by eapply Hbody.
    + intros [= <- <-]. by eapply Hbody.
Qed.

Lemma lift_bind_inv {A B} (m : result A) (f : A → M B) h r h' :
  (lift m ≫= f) h = (r, h') →
  (∃ a, m = Ok a ∧ f a h = (r, h')) ∨ (∃ e, m = Raise e ∧ r = Raise e ∧ h' = h).
Proof.
  unfold mbind, M_bind, lift. destruct m as [a|e]; [by eauto|].
  intros [= <- <-]. by eauto.
Qed.

Lemma wf_set_room h room_ :
  wf h → wf (set_rooms (Dict.set (room_number room_) room_) h).
Proof.
  intros [Hr Hg Hv Hrk Hgk Hvk Hrr Hgr]. split; simpl; try done.
  - by apply DictFacts.NoDup_keys_set.
  - intros k x. rewrite DictFacts.get_set. case_decide; [|by auto].
    by intros [= <-].
  - intros k x Hk. rewrite DictFacts.get_set. case_decide; eauto.
Qed.

Lemma wf_set_guest h guest_ :
  wf h → wf (set_guests (Dict.set (guest_id guest_) guest_) h).
Proof.
  intros [Hr Hg Hv Hrk Hgk Hvk Hrr Hgr]. split; simpl; try done.
  - by apply DictFacts.NoDup_keys_set.
  - intros k x. rewrite DictFacts.get_set. case_decide; [|by auto].
    by intros [= <-].
  - intros k x Hk. rewrite DictFacts.get_set. case_decide; eauto.
Qed.

Lemma wf_set_reservation h res :
  wf h →
  is_Some (Dict.get (room res) (rooms h)) →
  is_Some (Dict.get (guest res) (guests h)) →
  wf (set_reservations (Dict.set (reservation_id res) res) h).
Proof.
  intros [Hr Hg Hv Hrk Hgk Hvk Hrr Hgr] Hroom Hguest. split; simpl; try done.
  - by apply DictFacts.NoDup_keys_set.
  - intros k x. rewrite DictFacts.get_set. case_decide; [|by auto].
    by intros [= <-].
  - intros k x. rewrite DictFacts.get_set. case_decide; [|by eauto].
    by intros [= <-].
  - intros k x. rewrite DictFacts.get_set. case_decide; [|by eauto].
    by intros [= <-].
Qed.

Ltac lift_inv H :=
  apply lift_bind_inv in H as [(? & _ & H)|(? & _ & ? & ->)]; [|done].

Lemma load_room_wf room_data h r h' :
  wf h → load_room room_data h = (r, h') → wf h'.
Proof.
  intros Hwf Hload. unfold load_room in Hload.
  do 4 lift_inv Hload.
  injection Hload as <- <-. by apply (wf_set_room _ (mkRoom _ _ _ _)).
Qed.

Lemma load_guest_wf guest_data h r h' :
  wf h → load_guest guest_data h = (r, h') → wf h'.
Proof.
  intros Hwf Hload. unfold load_guest in Hload.
  do 4 lift_inv Hload.
  injection Hload as <- <-. by apply (wf_set_guest _ (mkGuest _ _ _ _)).
Qed.

Lemma lookup_or_raise_bind_inv {V B} (d : Hotel → Dict.t string V) k e
    (f : V → M B) h r h' :
  (lookup_or_raise d k e ≫= f) h = (r, h') →
  (∃ v, Dict.get k (d h) = Some v ∧ f v h = (r, h')) ∨ h' = h.
Proof.
  unfold_M. destruct (Dict.get k (d h)) as [v|]; [by eauto|].
  intros [= <- <-]. by right.
Qed.

Lemma load_reservation_wf res_data h r h' :
  wf h → load_reservation res_data h = (r, h') → wf h'.
Proof.
  intros Hwf Hload. unfold load_reservation in Hload.
  lift_inv Hload.
  apply lookup_or_raise_bind_inv in Hload as [(guest_ & Hg & Hload)| ->]; [|done].
  lift_inv Hload.
  apply lookup_or_raise_bind_inv in Hload as [(room_ & Hr & Hload)| ->]; [|done].
  do 7 lift_inv Hload.
  injection Hload as <- <-.
  match goal with
  | |- wf (set_reservations (Dict.set _ ?res) _) =>
      apply (wf_set_reservation _ res); [done| |]; simpl
  end.
  - rewrite (wf_rooms_key h Hwf _ _ Hr). by eauto.
  - rewrite (wf_guests_key h Hwf _ _ Hg). by eauto.
Qed.

Lemma load_from_file_wf data h : load_from_file data = Ok h → wf h.
Proof.
  unfold load_from_file. unfold mbind at 1, result_bind.
  destruct (string_item "name" data) as [nm|]; [|done].
  destruct (load_into_hotel data (Hotel_init nm)) as [[[]|e] h'] eqn:Hload; [|done].
  intros [= <-]. unfold load_into_hotel in Hload.
  pose proof (wf_init nm) as Hwf0.
  lift_inv Hload. revert Hload.
  unfold mbind at 1, M_bind at 1. unfold modify at 1.
  set (h1 := set_next_reservation_id _ _).
  assert (wf h1) as Hwf1 by (split; simpl; try apply NoDup_nil_2; done).
  clearbody h1. intros Hload.
  apply lift_bind_inv in Hload as [(rs & _ & Hload)|(? & _ & ? & ->)]; [|done].
  revert Hload. unfold mbind at 1, M_bind at 1.
  destruct (for_each rs load_room h1) as [[[]|e] h2] eqn:Hrooms; [|done].
  apply (for_each_invariant wf) in Hrooms; [|by eauto using load_room_wf|done].
  intros Hload.
  apply lift_bind_inv in Hload as [(gs & _ & Hload)|(? & _ & ? & ->)]; [|done].
  revert Hload. unfold mbind at 1, M_bind at 1.
  destruct (for_each gs load_guest h2) as [[[]|e] h3] eqn:Hguests; [|done].
  apply (for_each_invariant wf) in Hguests; [|by eauto using load_guest_wf|done].
  intros Hload.
  apply lift_bind_inv in Hload as [(rsv & _ & Hload)|(? & _ & ? & ->)]; [|done].
  apply (for_each_invariant wf) in Hload; [done|by eauto using load_reservation_wf|done].
Qed.

(** *** The counter of a loaded hotel is the saved counter *)

Lemma load_room_counter room_data h r h' :
  load_room room_data h = (r, h') → next_reservation_id h' = next_reservation_id h.
Proof.
  intros Hload. unfold load_room in Hload.
  do 4 lift_inv Hload. by injection Hload as <- <-.
Qed.

Lemma load_guest_counter guest_data h r h' :
  load_guest guest_data h = (r, h') → next_reservation_id h' = next_reservation_id h.
Proof.
  intros Hload. unfold load_guest in Hload.
  do 4 lift_inv Hload. by injection Hload as <- <-.
Qed.

Lemma load_reservation_counter res_data h r h' :
  load_reservation res_data h = (r, h') →
  next_reservation_id h' = next_reservation_id h.
Proof.
  intros Hload. unfold load_reservation in Hload.
  lift_inv Hload.
  apply lookup_or_raise_bind_inv in Hload as [(guest_ & Hg & Hload)| ->]; [|done].
  lift_inv Hload.
  apply lookup_or_raise_bind_inv in Hload as [(room_ & Hr & Hload)| ->]; [|done].
  do 7 lift_inv Hload. by injection Hload as <- <-.
Qed.

Lemma load_from_file_counter data h :
  load_from_file data = Ok h →
  number_item "next_reservation_id" data = Ok (next_reservation_id h).
Proof.
  unfold load_from_file. unfold mbind at 1, result_bind.
  destruct (string_item "name" data) as [nm|]; [|done].
  destruct (load_into_hotel data (Hotel_init nm)) as [[[]|e] h'] eqn:Hload; [|done].
  intros [= <-]. unfold load_into_hotel in Hload.
  apply lift_bind_inv in Hload as [(n & -> & Hload)|(? & _ & ? & _)]; [|done].
  f_equal. revert Hload.
  unfold mbind at 1, M_bind at 1. unfold modify at 1.
  set (h1 := set_next_reservation_id _ _).
  assert (next_reservation_id h1 = n) as Hn by done.
  clearbody h1. intros Hload.
  apply lift_bind_inv in Hload as [(rs & _ & Hload)|(? & _ & ? & ->)]; [|done].
  revert Hload. unfold mbind at 1, M_bind at 1.
  destruct (for_each rs load_room h1) as [[[]|e] h2] eqn:Hrooms; [|done].
  apply (for_each_invariant (λ h, next_reservation_id h = n)) in Hrooms;
    [|intros ???? <-; by apply load_room_counter|done].
  intros Hload.
  apply lift_bind_inv in Hload as [(gs & _ & Hload)|(? & _ & ? & ->)]; [|done].
  revert Hload. unfold mbind at 1, M_bind at 1.
  destruct (for_each gs load_guest h2) as [[[]|e] h3] eqn:Hguests; [|done].
  apply (for_each_invariant (λ h, next_reservation_id h = n)) in Hguests;
    [|intros ???? <-; by apply load_guest_counter|done].
  intros Hload.
  apply lift_bind_inv in Hload as [(rsv & _ & Hload)|(? & _ & ? & ->)]; [|done].
  apply (for_each_invariant (λ h, next_reservation_id h = n)) in Hload;
    [done|intros ???? <-; by apply load_reservation_counter|done].
Qed.

(** * The claims of the specification *)

(** A hotel built by [exec] from [Hotel_init] is reachable. *)
Ltac scenario_reachable :=
  repeat lazymatch goal with
         | |- reachable (Hotel_init _) => apply reachable_init
         | |- reachable (exec _ _) => apply exec_reachable
         | |- reachable ?h => let h' := eval red in h in change (reachable h')
         end.

(** The scenarios, evaluated. *)
Example jan_1_2024 : Scenario.jan 1 = 738886.
Proof. reflexivity. Qed.

Example isoformat_jan_1_2024 : Calendar.isoformat (Scenario.jan 1) = "2024-01-01".
Proof. reflexivity. Qed.

Example first_reservation :
  Dict.get "RES-1" (reservations Scenario.with_A)
  = Some (mkReservation "RES-1" "G001" "101" (Scenario.jan 1) (Scenario.jan 5)
            false false [] 400).
Proof. reflexivity. Qed.

Example room_101_free_from_jan_5 :
  (get_available_rooms (Scenario.jan 5) (Scenario.jan 6) Scenario.with_A).1
  = Ok [Scenario.room_101].
Proof. reflexivity. Qed.

Example room_101_taken_on_jan_4 :
  (get_available_rooms (Scenario.jan 4) (Scenario.jan 6) Scenario.with_A).1 = Ok [].
Proof. reflexivity. Qed.

Example duplicate_room_refused :
  (add_room Scenario.room_101 Scenario.hotel).1 = Raise (RoomExists "101").
Proof. reflexivity. Qed.

Lemma dates_overlap_false_disjoint r1 r2 :
  dates_overlap (check_in_date r1) (check_out_date r1) r2 = false →
  ∀ d, ¬ (stays_on d r1 ∧ stays_on d r2).
Proof.
  intros Hd d [H1 H2]. unfold stays_on in *.
  assert (dates_overlap (check_in_date r1) (check_out_date r1) r2 = true) as Ht.
  { apply dates_overlap_true. lia. }
  congruence.
Qed.

(** C1. In every state reachable by successful operations, two distinct
    reservations of the same room do not overlap: the date test of
    [make_reservation] is false on them, and no day lies in both half-open
    intervals [check_in_date, check_out_date). *)
Theorem C1_no_overlap_on_same_room h i j r1 r2 :
  reachable h →
  i ≠ j →
  Dict.get i (reservations h) = Some r1 →
  Dict.get j (reservations h) = Some r2 →
  room r1 = room r2 →
  dates_overlap (check_in_date r1) (check_out_date r1) r2 = false
  ∧ ∀ d, ¬ (stays_on d r1 ∧ stays_on d r2).
Proof.
  intros Hreach Hij H1 H2 Hroom.
  pose proof (reachable_no_double_booking h Hreach i j r1 r2 Hij H1 H2 Hroom) as Hd.
  split; [done|]. by apply dates_overlap_false_disjoint.
Qed.

Lemma C1_no_overlap_on_same_room_witness :
  dates_overlap (Scenario.jan 1) (Scenario.jan 5)
    (Reservation_init "RES-2" Scenario.guest_1 Scenario.room_101
       (Scenario.jan 5) (Scenario.jan 6)) = false.
Proof.
  refine (proj1 (C1_no_overlap_on_same_room Scenario.with_A_B "RES-1" "RES-2"
    (Reservation_init "RES-1" Scenario.guest_1 Scenario.room_101
       (Scenario.jan 1) (Scenario.jan 5))
    (Reservation_init "RES-2" Scenario.guest_1 Scenario.room_101
       (Scenario.jan 5) (Scenario.jan 6)) _ _ _ _ _)).
  - scenario_reachable.
  - discriminate.
  - reflexivity.
  - reflexivity.
  - reflexivity.
Defined.

(** C2. [make_reservation] fails exactly when the guest or the room is
    unknown (NotFound), the room is occupied (Conflict, whatever the dates),
    or the dates overlap a reservation of the room under the test
    checkIn < existing.checkOut and checkOut > existing.checkIn (Conflict).
    With A on room 101 from 2024-01-01 to 2024-01-05, the request
    2024-01-04 to 2024-01-06 fails with Conflict and the adjacent request
    2024-01-05 to 2024-01-06 succeeds. *)
Theorem C2_make_reservation_failures :
  (∀ h g n ci co,
     let m := make_reservation g n ci co in
     (* the four causes, in the order they are tested *)
     (Dict.get g (guests h) = None → (m h).1 = Raise (GuestNotFound g))
     ∧ (is_Some (Dict.get g (guests h)) → Dict.get n (rooms h) = None →
          (m h).1 = Raise (RoomNotFound n))
     ∧ (∀ room_, is_Some (Dict.get g (guests h)) →
          Dict.get n (rooms h) = Some room_ → is_occupied room_ = true →
          (m h).1 = Raise (RoomOccupied n))
     ∧ (∀ room_ r, is_Some (Dict.get g (guests h)) →
          Dict.get n (rooms h) = Some room_ → is_occupied room_ = false →
          r ∈ Dict.values (reservations h) → room r = n →
          ci < check_out_date r → co > check_in_date r →
          (m h).1 = Raise (RoomNotAvailable n))
     (* it fails in these cases only *)
     ∧ ((∃ e, (m h).1 = Raise e) ↔
          Dict.get g (guests h) = None
          ∨ Dict.get n (rooms h) = None
          ∨ (∃ room_, Dict.get n (rooms h) = Some room_ ∧ is_occupied room_ = true)
          ∨ (∃ r, r ∈ Dict.values (reservations h) ∧ room r = n
               ∧ ci < check_out_date r ∧ co > check_in_date r))
     (* the kinds of the four errors *)
     ∧ kind (GuestNotFound g) = Some NotFound
     ∧ kind (RoomNotFound n) = Some NotFound
     ∧ kind (RoomOccupied n) = Some Conflict
     ∧ kind (RoomNotAvailable n) = Some Conflict)
  ∧ (make_reservation "G001" "101" (Scenario.jan 4) (Scenario.jan 6) Scenario.with_A).1
    = Raise (RoomNotAvailable "101")
  ∧ succeeds (make_reservation "G001" "101" (Scenario.jan 5) (Scenario.jan 6))
      Scenario.with_A.
Proof.
  split; [|split_and!; try done; by eexists].
  intros h g n ci co m. subst m. rewrite make_reservation_eq.
  pose proof (no_overlapping_reservation_false n ci co
    (Dict.values (reservations h))) as Hloop.
  split_and!; [| | | | |done..].
  - by intros ->.
  - by intros [x ->] ->.
  - by intros room_ [x ->] -> ->.
  - intros room_ r [x ->] -> -> Hr Hn Hlt Hgt.
    destruct (no_overlapping_reservation _ _ _ _); [|done].
    assert (true = false) by (apply Hloop; by exists r). done.
  - destruct (Dict.get g (guests h)) as [guest_|];
      [|split; [by left | by eexists]].
    destruct (Dict.get n (rooms h)) as [room_|];
      [|split; [by right; left | by eexists]].
    destruct (is_occupied room_) eqn:Hocc;
      [split; [intros _; right; right; left; by exists room_ | by eexists]|].
    destruct (no_overlapping_reservation _ _ _ _); simpl.
    + split; [by intros [e ?]|]. intros [?|[?|[(x & ? & ?)|Hex]]]; try done.
      * simplify_eq. congruence.
      * apply Hloop in Hex. done.
    + split; [|by eauto]. intros _. do 3 right. by apply Hloop.
Qed.

Lemma C2_make_reservation_failures_witness :
  (make_reservation "G001" "101" (Scenario.jan 4) (Scenario.jan 6) Scenario.with_A).1
  = Raise (RoomNotAvailable "101").
Proof.
  refine (proj1 (proj2 (proj2 (proj2 (proj1 C2_make_reservation_failures
    Scenario.with_A "G001" "101" (Scenario.jan 4) (Scenario.jan 6)))))
    Scenario.room_101
    (Reservation_init "RES-1" Scenario.guest_1 Scenario.room_101
       (Scenario.jan 1) (Scenario.jan 5)) _ _ _ _ _ _ _).
  - by eexists.
  - reflexivity.
  - reflexivity.
  - apply list_elem_of_singleton. reflexivity.
  - reflexivity.
  - reflexivity.
  - reflexivity.
Defined.




Example stale_charges_recomputed :
  Scenario.total_of "RES-1" Scenario.stale = Some 999%float
  ∧ Scenario.total_of "RES-1" (exec [CheckOut "RES-1"] Scenario.stale)
    = Some 215%float.
Proof. split; reflexivity. Qed.

(** C4. A reservation goes from created to checked in to checked out.
    [check_in] fails with NotFound on an unknown id and with InvalidState on a
    reservation already checked in, and otherwise sets [is_checked_in] and the
    room's [is_occupied]; [check_out] fails with NotFound on an unknown id,
    with InvalidState on a reservation not checked in or already checked out,
    and otherwise sets [is_checked_out] and clears the room's [is_occupied].
    On a fresh reservation [check_in] then [check_out] succeed once each and
    every further call of either fails with InvalidState; a checked-out
    reservation is checked in. *)
Theorem C4_check_in_check_out h i :
  reachable h →
  (Dict.get i (reservations h) = None →
     check_in i h = (Raise (ReservationNotFound i), h)
     ∧ check_out i h = (Raise (ReservationNotFound i), h))
  ∧ (∀ r, Dict.get i (reservations h) = Some r →
       (is_checked_out r = true → is_checked_in r = true)
       ∧ (is_checked_in r = true → (check_in i h).1 = Raise (AlreadyCheckedIn i))
       ∧ (is_checked_in r = false → (check_out i h).1 = Raise (NotCheckedIn i))
       ∧ (is_checked_in r = true → is_checked_out r = true →
            (check_out i h).1 = Raise (AlreadyCheckedOut i))
       ∧ (is_checked_in r = true → is_checked_out r = false →
            ∃ h' r' room_,
              check_out i h = (Ok (), h')
              ∧ Dict.get i (reservations h') = Some r'
              ∧ is_checked_in r' = true ∧ is_checked_out r' = true
              ∧ Dict.get (room r) (rooms h') = Some room_
              ∧ is_occupied room_ = false)
       ∧ (is_checked_in r = false →
            ∃ h1 r1 room1,
              check_in i h = (Ok (), h1)
              ∧ Dict.get i (reservations h1) = Some r1
              ∧ is_checked_in r1 = true ∧ is_checked_out r1 = false
              ∧ Dict.get (room r) (rooms h1) = Some room1
              ∧ is_occupied room1 = true
              ∧ (check_in i h1).1 = Raise (AlreadyCheckedIn i)
              ∧ ∃ h2 r2 room2,
                  check_out i h1 = (Ok (), h2)
                  ∧ Dict.get i (reservations h2) = Some r2
                  ∧ is_checked_in r2 = true ∧ is_checked_out r2 = true
                  ∧ Dict.get (room r) (rooms h2) = Some room2
                  ∧ is_occupied room2 = false
                  ∧ (check_in i h2).1 = Raise (AlreadyCheckedIn i)
                  ∧ (check_out i h2).1 = Raise (AlreadyCheckedOut i)))
  ∧ kind (ReservationNotFound i) = Some NotFound
  ∧ kind (AlreadyCheckedIn i) = Some InvalidState
  ∧ kind (NotCheckedIn i) = Some InvalidState
  ∧ kind (AlreadyCheckedOut i) = Some InvalidState.
Proof.
  intros Hreach. pose proof (reachable_wf h Hreach) as Hwf.
  split_and!; try done.
  - intros Hi. by rewrite check_in_eq, check_out_eq, Hi.
  - intros r Hi.
    pose proof (reachable_lifecycle_ok h Hreach i r Hi) as Hlife.
    destruct (wf_room_ref h Hwf i r Hi) as [x Hx].
    split_and!; try done.
    + intros Hin. by rewrite check_in_eq, Hi, Hin.
    + intros Hin. by rewrite check_out_eq, Hi, Hin.
    + intros Hin Hout. by rewrite check_out_eq, Hi, Hin, Hout.
    + intros Hin Hout. eexists _, _, _.
      split; [by apply (check_out_ok h i r x)|].
      split; [by apply checked_out_reservation|].
      split_and!; [done | done | by apply checked_out_room | done].
    + intros Hin.
      assert (is_checked_out r = false) as Hout.
      { destruct (is_checked_out r); [|done]. by rewrite Hlife in Hin. }
      pose proof (checked_in_reservation h i r Hi) as Hi1.
      pose proof (checked_in_room h i r x Hx) as Hx1.
      exists (checked_in i r h), (set_is_checked_in true r), (set_is_occupied true x).
      split; [by apply check_in_ok|]. split; [done|].
      split_and!; [done | done | done | done | by rewrite check_in_eq, Hi1 |].
      pose proof (checked_out_reservation _ i _
        (set_is_occupied false (set_is_occupied true x)) Hi1) as Hi2.
      eexists _, _, _.
      split; [by apply (check_out_ok _ i _ (set_is_occupied true x) Hi1)|].
      split; [exact Hi2|].
      split_and!;
        [done | done
        | by apply (checked_out_room _ i (set_is_checked_in true r))
        | done
        | by rewrite check_in_eq, Hi2
        | by rewrite check_out_eq, Hi2].
Qed.

Lemma C4_check_in_check_out_witness :
  ∃ h1 r1 room1,
    check_in "RES-1" Scenario.with_A = (Ok (), h1)
    ∧ Dict.get "RES-1" (reservations h1) = Some r1
    ∧ is_checked_in r1 = true ∧ is_checked_out r1 = false
    ∧ Dict.get "101" (rooms h1) = Some room1
    ∧ is_occupied room1 = true
    ∧ (check_in "RES-1" h1).1 = Raise (AlreadyCheckedIn "RES-1")
    ∧ ∃ h2 r2 room2,
        check_out "RES-1" h1 = (Ok (), h2)
        ∧ Dict.get "RES-1" (reservations h2) = Some r2
        ∧ is_checked_in r2 = true ∧ is_checked_out r2 = true
        ∧ Dict.get "101" (rooms h2) = Some room2
        ∧ is_occupied room2 = false
        ∧ (check_in "RES-1" h2).1 = Raise (AlreadyCheckedIn "RES-1")
        ∧ (check_out "RES-1" h2).1 = Raise (AlreadyCheckedOut "RES-1").
Proof.
  refine (proj2 (proj2 (proj2 (proj2 (proj2
    (proj1 (proj2 (C4_check_in_check_out Scenario.with_A "RES-1" _))
       (Reservation_init "RES-1" Scenario.guest_1 Scenario.room_101
          (Scenario.jan 1) (Scenario.jan 5)) _))))) _).
  - scenario_reachable.
  - reflexivity.
  - reflexivity.
Defined.

(** C5. An operation that fails leaves the whole hotel as it was: rooms,
    guests, reservations and the counter of reservation ids; a failed
    [make_reservation] consumes no id. *)
Theorem C5_failed_operations_change_nothing h e h' :
  wf h →
  (∀ room_, add_room room_ h = (Raise e, h') → h' = h)
  ∧ (∀ guest_, add_guest guest_ h = (Raise e, h') → h' = h)
  ∧ (∀ g n ci co, make_reservation g n ci co h = (Raise e, h') →
       h' = h ∧ next_reservation_id h' = next_reservation_id h)
  ∧ (∀ i, check_in i h = (Raise e, h') → h' = h)
  ∧ (∀ i, check_out i h = (Raise e, h') → h' = h).
Proof.
  intros Hwf. split_and!.
  - intros room_. by apply (run_raise_unchanged (AddRoom room_)).
  - intros guest_. by apply (run_raise_unchanged (AddGuest guest_)).
  - intros g n ci co Hm. apply make_reservation_raise_unchanged in Hm. by subst.
  - intros i. by apply (run_raise_unchanged (CheckIn i)).
  - intros i. by apply (run_raise_unchanged (CheckOut i)).
Qed.

Lemma C5_failed_operations_change_nothing_witness :
  (make_reservation "G001" "101" (Scenario.jan 4) (Scenario.jan 6) Scenario.with_A).2
  = Scenario.with_A
  ∧ next_reservation_id
      (make_reservation "G001" "101" (Scenario.jan 4) (Scenario.jan 6) Scenario.with_A).2
    = 2.
Proof.
  refine (proj1 (proj2 (proj2 (C5_failed_operations_change_nothing Scenario.with_A
    (RoomNotAvailable "101")
    (make_reservation "G001" "101" (Scenario.jan 4) (Scenario.jan 6) Scenario.with_A).2
    _))) "G001" "101" (Scenario.jan 4) (Scenario.jan 6) _).
  - apply reachable_wf. scenario_reachable.
  - reflexivity.
Defined.

(** C6. [get_available_rooms] returns, in the order of the room registry,
    exactly the rooms that are not occupied and have no reservation
    overlapping the requested dates under the test
    checkIn < check_out_date and checkOut > check_in_date; it leaves the
    state as it was. *)
Theorem C6_get_available_rooms h ci co :
  get_available_rooms ci co h
  = (Ok (filter (available_spec h ci co) (Dict.values (rooms h))), h).
Proof.
  rewrite get_available_rooms_eq. do 2 f_equal.
  apply list_filter_iff. intros room_. unfold available_spec.
  rewrite no_overlapping_reservation_true, Forall_forall.
  split; intros [Hocc Hall]; (split; [done|]).
  - intros r Hr (Hn & Hlt & Hgt).
    specialize (Hall r Hr Hn). apply not_true_iff_false in Hall.
    apply Hall, dates_overlap_true. done.
  - intros r Hr Hn. apply not_true_iff_false. rewrite dates_overlap_true.
    intros [Hlt Hgt]. by apply (Hall r Hr).
Qed.

(** C7. Loading what was saved gives the hotel back: for every hotel whose
    registries file each object under its id and whose reservations refer to
    guests and rooms of the registries, [load_from_file] of the value written
    by [save_to_file] is the same hotel, name, counter, rooms, guests and
    reservations field for field.  In every hotel that [load_from_file]
    returns the references of a reservation denote the guest and the room
    filed under these ids in the loaded registries, and [load_from_file]
    fails with NotFound (a [KeyError]) when a saved reservation refers to a
    guest id or a room number that is not among the saved guests or rooms. *)
Theorem C7_load_save_round_trip :
  (∀ h, wf h → dates_valid h → load_from_file (save_to_file h) = Ok h)
  ∧ (∀ data h, load_from_file data = Ok h →
       ∀ k r, Dict.get k (reservations h) = Some r →
         (∃ guest_, Dict.get (guest r) (guests h) = Some guest_
                    ∧ guest_id guest_ = guest r)
         ∧ (∃ room_, Dict.get (room r) (rooms h) = Some room_
                     ∧ room_number room_ = room r))
  ∧ (∀ h res,
       dates_valid h →
       res ∈ Dict.values (reservations h) →
       guest res ∉ guest_id <$> Dict.values (guests h)
       ∨ room res ∉ room_number <$> Dict.values (rooms h) →
       ∃ k, load_from_file (save_to_file h) = Raise (KeyError k)
            ∧ kind (KeyError k) = Some NotFound).
Proof.
  split_and!.
  - apply load_from_file_save.
  - intros data h Hwf%load_from_file_wf k r Hk.
    destruct (wf_guest_ref h Hwf k r Hk) as [g Hg].
    destruct (wf_room_ref h Hwf k r Hk) as [x Hx]. split.
    + exists g. split; [done|]. by apply (wf_guests_key h Hwf).
    + exists x. split; [done|]. by apply (wf_rooms_key h Hwf).
  - intros h res Hdates Hres Hunknown.
    destruct (load_from_file_unknown h res Hdates Hres Hunknown) as [k Hk].
    by exists k.
Qed.

Lemma C7_load_save_round_trip_witness :
  load_from_file (save_to_file Scenario.after_check_out) = Ok Scenario.after_check_out.
Proof.
  refine (proj1 C7_load_save_round_trip Scenario.after_check_out _ _).
  - apply reachable_wf. scenario_reachable.
  - intros r Hr. vm_compute in Hr.
    apply list_elem_of_singleton in Hr as ->. vm_compute.
    repeat split; discriminate.
Defined.

(** C8, as stated, fails: the counter is not one of the process.  Two
    hotels of one process each have their own and both give RES-1 to their
    first reservation. *)
Lemma C8_ids_not_unique_in_process : ¬ ids_unique_in_process.
Proof.
  intros Hunique.
  apply (Hunique Scenario.hotel Scenario.other_hotel
    "G001" "101" (Scenario.jan 1) (Scenario.jan 5)
    "G002" "7" (Scenario.jan 1) (Scenario.jan 5)
    (Reservation_init "RES-1" Scenario.guest_1 Scenario.room_101
       (Scenario.jan 1) (Scenario.jan 5))
    (Reservation_init "RES-1"
       (mkGuest "G002" "Jane Smith" "jane@example.com" "555-0102")
       (mkRoom "7" "Double" 150 false) (Scenario.jan 1) (Scenario.jan 5))
    (make_reservation "G001" "101" (Scenario.jan 1) (Scenario.jan 5) Scenario.hotel).2
    (make_reservation "G002" "7" (Scenario.jan 1) (Scenario.jan 5)
       Scenario.other_hotel).2).
  - scenario_reachable.
  - scenario_reachable.
  - discriminate.
  - reflexivity.
  - reflexivity.
  - reflexivity.
Qed.

(** C8, amended. A successful [make_reservation] gives the reservation the id
    RES-n, n being the counter of the hotel, its field [next_reservation_id],
    which is 1 in a new hotel and is saved and loaded with the hotel, and adds
    one to this counter; so the ids of the reservations of a hotel created by
    [Hotel(name)] are RES-1, RES-2, ... in the order of creation, all
    different. *)
Theorem C8_reservation_ids :
  (∀ name, next_reservation_id (Hotel_init name) = 1)
  ∧ res_id 1 = "RES-1"
  ∧ (∀ n m, res_id n = res_id m → n = m)
  ∧ (∀ h g n ci co r h', make_reservation g n ci co h = (Ok r, h') →
       reservation_id r = res_id (next_reservation_id h)
       ∧ next_reservation_id h' = next_reservation_id h + 1
       ∧ Dict.get (res_id (next_reservation_id h)) (reservations h') = Some r)
  ∧ (∀ h, reachable h →
       Dict.keys (reservations h) = res_id <$> seqZ 1 (next_reservation_id h - 1)
       ∧ NoDup (Dict.keys (reservations h))
       ∧ (∀ k r, Dict.get k (reservations h) = Some r → reservation_id r = k)
       ∧ Dict.get (res_id (next_reservation_id h)) (reservations h) = None)
  ∧ (∀ data h, load_from_file data = Ok h →
       number_item "next_reservation_id" data = Ok (next_reservation_id h)).
Proof.
  split_and!; try done.
  - intros n m. apply (inj res_id).
  - intros h g n ci co r h'. rewrite make_reservation_eq.
    destruct (Dict.get g (guests h)) as [guest_|]; [|done].
    destruct (Dict.get n (rooms h)) as [room_|]; [|done].
    destruct (is_occupied room_); [done|].
    destruct (no_overlapping_reservation _ _ _ _); [|done].
    intros [= <- <-]. simpl. split_and!; try done.
    by rewrite DictFacts.get_set, decide_True.
  - intros h Hreach. destruct (reachable_ids_ok h Hreach) as [Hpos Hkeys].
    pose proof (reachable_wf h Hreach) as Hwf. split_and!; try done.
    + apply (wf_reservations_nodup h Hwf).
    + apply (wf_reservations_key h Hwf).
    + apply DictFacts.get_None. rewrite Hkeys.
      intros Hin%(list_elem_of_fmap_inj_2 res_id)%elem_of_seqZ. lia.
  - apply load_from_file_counter.
Qed.

Lemma C8_reservation_ids_witness :
  Dict.keys (reservations Scenario.with_A_B) = res_id <$> seqZ 1 (3 - 1).
Proof.
  refine (proj1 (proj1 (proj2 (proj2 (proj2 (proj2 C8_reservation_ids))))
    Scenario.with_A_B _)).
  scenario_reachable.
Defined.

(** C9, as stated, fails on the sign of the charges: a room at -100 a
    night reserved from 2024-01-03 to 2024-01-01 is charged -100 × -2 = 200,
    and a room at an infinite price reserved from a day to the same day is
    charged inf × 0 = nan, which is neither zero nor negative. *)
Lemma C9_charges_of_a_reversed_stay_can_be_positive :
  (∃ r h',
     make_reservation "G001" "13" (Scenario.jan 3) (Scenario.jan 1) Scenario.odd_prices
     = (Ok r, h')
     ∧ total_charges r = 200%float
     ∧ ¬ not_positive (total_charges r))
  ∧ (∃ r h',
       make_reservation "G001" "8" (Scenario.jan 1) (Scenario.jan 1) Scenario.odd_prices
       = (Ok r, h')
       ∧ total_charges r = nan
       ∧ ¬ not_positive (total_charges r)).
Proof.
  split; eexists _, _; (split; [vm_compute; reflexivity|]);
    (split; [reflexivity|]); vm_compute; discriminate.
Qed.

(** C9, amended. [make_reservation] does not check that checkOut is after
    checkIn: for a known guest and a known room that is not occupied and has
    no reservation conflicting under the date test, a request with
    checkOut ≤ checkIn succeeds, and the charges of the reservation start at
    price_per_night × (checkOut − checkIn); they are zero or negative when
    the price of the room is a finite number that is not negative. *)
Theorem C9_no_validation_of_date_order h g n ci co guest_ room_ :
  Dict.get g (guests h) = Some guest_ →
  Dict.get n (rooms h) = Some room_ →
  is_occupied room_ = false →
  (∀ r, r ∈ Dict.values (reservations h) → room r = n →
     ¬ (ci < check_out_date r ∧ co > check_in_date r)) →
  co ≤ ci →
  ∃ r h',
    make_reservation g n ci co h = (Ok r, h')
    ∧ Dict.get (reservation_id r) (reservations h') = Some r
    ∧ check_in_date r = ci ∧ check_out_date r = co
    ∧ total_charges r = (price_per_night room_ * float_of_int (co - ci))%float
    ∧ (Calendar.valid ci → Calendar.valid co →
       not_negative (price_per_night room_) →
       is_finite (price_per_night room_) = true →
       not_positive (total_charges r)).
Proof.
  intros Hg Hn Hocc Hfree Hle. rewrite make_reservation_eq, Hg, Hn, Hocc.
  destruct (no_overlapping_reservation _ _ _ _) eqn:Hno.
  - eexists _, _. split; [done|]. simpl.
    rewrite DictFacts.get_set, decide_True by done.
    split_and!; try done. intros Hci Hco Hprice Hfinite.
    apply FloatFacts.mul_not_positive; [done..|].
    unfold Calendar.valid, Calendar.MAXORDINAL in *. lia.
  - apply no_overlapping_reservation_false in Hno as (r & Hr & Hroom & Hlt & Hgt).
    destruct (Hfree r Hr Hroom). done.
Qed.

Lemma C9_no_validation_of_date_order_witness :
  ∃ r h',
    make_reservation "G001" "101" (Scenario.jan 3) (Scenario.jan 1) Scenario.hotel
    = (Ok r, h')
    ∧ Dict.get (reservation_id r) (reservations h') = Some r
    ∧ check_in_date r = Scenario.jan 3 ∧ check_out_date r = Scenario.jan 1
    ∧ total_charges r
      = (100 * float_of_int (Scenario.jan 1 - Scenario.jan 3))%float
    ∧ (Calendar.valid (Scenario.jan 3) → Calendar.valid (Scenario.jan 1) →
       not_negative 100 → is_finite 100 = true →
       not_positive (total_charges r)).
Proof.
  refine (C9_no_validation_of_date_order Scenario.hotel "G001" "101"
    (Scenario.jan 3) (Scenario.jan 1) Scenario.guest_1 Scenario.room_101 _ _ _ _ _).
  - reflexivity.
  - reflexivity.
  - reflexivity.
  - intros r Hr. vm_compute in Hr. by apply elem_of_nil in Hr.
  - vm_compute. discriminate.
Defined.

Example reversed_stay_charged_negative :
  (100 * float_of_int (Scenario.jan 1 - Scenario.jan 3) = -200)%float.
Proof. reflexivity. Qed.

(** C10. [check_in] does not look at the room's [is_occupied]: of two
    reservations of one room, neither checked in, both can be checked in one
    after the other, the second while the room is occupied; checking out
    either of them then clears the room's [is_occupied] although the other is
    still checked in. *)
Theorem C10_check_in_ignores_is_occupied h i j r1 r2 x :
  i ≠ j →
  Dict.get i (reservations h) = Some r1 →
  Dict.get j (reservations h) = Some r2 →
  room r1 = room r2 →
  Dict.get (room r1) (rooms h) = Some x →
  is_checked_in r1 = false → is_checked_out r1 = false →
  is_checked_in r2 = false → is_checked_out r2 = false →
  (∀ f k, (check_in k (set_rooms f h)).1 = (check_in k h).1)
  ∧ ∃ h1 h2 x1,
      check_in i h = (Ok (), h1)
      ∧ Dict.get (room r1) (rooms h1) = Some x1 ∧ is_occupied x1 = true
      ∧ check_in j h1 = (Ok (), h2)
      ∧ (∃ h3 x3 r2',
           check_out i h2 = (Ok (), h3)
           ∧ Dict.get (room r1) (rooms h3) = Some x3 ∧ is_occupied x3 = false
           ∧ Dict.get j (reservations h3) = Some r2'
           ∧ is_checked_in r2' = true ∧ is_checked_out r2' = false)
      ∧ (∃ h3 x3 r1',
           check_out j h2 = (Ok (), h3)
           ∧ Dict.get (room r1) (rooms h3) = Some x3 ∧ is_occupied x3 = false
           ∧ Dict.get i (reservations h3) = Some r1'
           ∧ is_checked_in r1' = true ∧ is_checked_out r1' = false).
Proof.
  intros Hij Hi Hj Hroom Hx Hin1 Hout1 Hin2 Hout2. split.
  { intros f k. rewrite !check_in_eq. simpl.
    destruct (Dict.get k (reservations h)) as [r|]; [|done].
    by destruct (is_checked_in r). }
  set (h1 := checked_in i r1 h). set (h2 := checked_in j r2 h1).
  assert (Dict.get (room r1) (rooms h1) = Some (set_is_occupied true x)) as Hx1
    by by apply checked_in_room.
  assert (Dict.get j (reservations h1) = Some r2) as Hj1
    by (unfold h1; by rewrite checked_in_other).
  assert (Dict.get i (reservations h1) = Some (set_is_checked_in true r1)) as Hi1
    by by apply checked_in_reservation.
  assert (Dict.get (room r2) (rooms h2)
          = Some (set_is_occupied true (set_is_occupied true x))) as Hx2
    by (apply checked_in_room; by rewrite <-Hroom).
  assert (Dict.get i (reservations h2) = Some (set_is_checked_in true r1)) as Hi2
    by (unfold h2; by rewrite checked_in_other).
  assert (Dict.get j (reservations h2) = Some (set_is_checked_in true r2)) as Hj2
    by by apply checked_in_reservation.
  exists h1, h2, (set_is_occupied true x).
  split; [by apply check_in_ok|]. split; [done|]. split; [done|].
  split; [by apply check_in_ok|]. split.
  - eexists _, _, _. split.
    { apply (check_out_ok h2 i _ (set_is_occupied true (set_is_occupied true x)) Hi2);
        [done | done |].
      change (room (set_is_checked_in true r1)) with (room r1).
      rewrite Hroom. exact Hx2. }
    split.
    { apply (checked_out_room h2 i (set_is_checked_in true r1)).
      change (room (set_is_checked_in true r1)) with (room r1).
      rewrite Hroom. exact Hx2. }
    split; [done|].
    split; [by rewrite checked_out_other|]. done.
  - eexists _, _, _. split.
    { apply (check_out_ok h2 j _ (set_is_occupied true (set_is_occupied true x)) Hj2);
        [done | done |]. exact Hx2. }
    split.
    { rewrite Hroom. apply (checked_out_room h2 j (set_is_checked_in true r2)).
      exact Hx2. }
    split; [done|].
    split; [by rewrite checked_out_other|]. done.
Qed.

Lemma C10_check_in_ignores_is_occupied_witness :
  ∃ h1 h2 x1,
    check_in "RES-1" Scenario.with_A_B = (Ok (), h1)
    ∧ Dict.get "101" (rooms h1) = Some x1 ∧ is_occupied x1 = true
    ∧ check_in "RES-2" h1 = (Ok (), h2)
    ∧ (∃ h3 x3 r2',
         check_out "RES-1" h2 = (Ok (), h3)
         ∧ Dict.get "101" (rooms h3) = Some x3 ∧ is_occupied x3 = false
         ∧ Dict.get "RES-2" (reservations h3) = Some r2'
         ∧ is_checked_in r2' = true ∧ is_checked_out r2' = false)
    ∧ (∃ h3 x3 r1',
         check_out "RES-2" h2 = (Ok (), h3)
         ∧ Dict.get "101" (rooms h3) = Some x3 ∧ is_occupied x3 = false
         ∧ Dict.get "RES-1" (reservations h3) = Some r1'
         ∧ is_checked_in r1' = true ∧ is_checked_out r1' = false).
Proof.
  refine (proj2 (C10_check_in_ignores_is_occupied Scenario.with_A_B "RES-1" "RES-2"
    (Reservation_init "RES-1" Scenario.guest_1 Scenario.room_101
       (Scenario.jan 1) (Scenario.jan 5))
    (Reservation_init "RES-2" Scenario.guest_1 Scenario.room_101
       (Scenario.jan 5) (Scenario.jan 6))
    Scenario.room_101 _ _ _ _ _ _ _ _ _)).
  - discriminate.
  - reflexivity.
  - reflexivity.
  - reflexivity.
  - reflexivity.
  - reflexivity.
  - reflexivity.
  - reflexivity.
  - reflexivity.
Defined.

(** * Further properties of the code *)

(** X1. [add_room] refuses a room whose number is already in the registry
    and leaves the hotel as it was; otherwise it files the room last in the
    registry, under its number, and changes nothing else. *)
Theorem X1_add_room h room_ :
  (Dict.mem (room_number room_) (rooms h) = true →
     add_room room_ h = (Raise (RoomExists (room_number room_)), h))
  ∧ (Dict.mem (room_number room_) (rooms h) = false →
     ∃ h', add_room room_ h = (Ok (), h')
       ∧ rooms h' = rooms h ++ [(room_number room_, room_)]
       ∧ Dict.get (room_number room_) (rooms h') = Some room_
       ∧ (∀ k, k ≠ room_number room_ → Dict.get k (rooms h') = Dict.get k (rooms h))
       ∧ name h' = name h ∧ guests h' = guests h
       ∧ reservations h' = reservations h
       ∧ next_reservation_id h' = next_reservation_id h).
Proof.
  rewrite add_room_eq. split; intros Hmem; rewrite Hmem; [done|].
  eexists. split; [done|]. simpl.
  assert (room_number room_ ∉ Dict.keys (rooms h)) as Hfresh.
  { rewrite <-DictFacts.mem_elem_of_keys. by rewrite Hmem. }
  split_and!; try done.
  - by apply DictFacts.set_fresh.
  - by rewrite DictFacts.get_set, decide_True.
  - intros k Hk. by rewrite DictFacts.get_set, decide_False.
Qed.

Lemma X1_add_room_witness :
  add_room Scenario.room_101 Scenario.hotel = (Raise (RoomExists "101"), Scenario.hotel).
Proof.
  refine (proj1 (X1_add_room Scenario.hotel Scenario.room_101) _).
  reflexivity.
Defined.

(** X2. [add_guest] refuses a guest whose id is already in the registry and
    leaves the hotel as it was; otherwise it files the guest last in the
    registry, under the id, and changes nothing else. *)
Theorem X2_add_guest h guest_ :
  (Dict.mem (guest_id guest_) (guests h) = true →
     add_guest guest_ h = (Raise (GuestExists (guest_id guest_)), h))
  ∧ (Dict.mem (guest_id guest_) (guests h) = false →
     ∃ h', add_guest guest_ h = (Ok (), h')
       ∧ guests h' = guests h ++ [(guest_id guest_, guest_)]
       ∧ Dict.get (guest_id guest_) (guests h') = Some guest_
       ∧ (∀ k, k ≠ guest_id guest_ → Dict.get k (guests h') = Dict.get k (guests h))
       ∧ name h' = name h ∧ rooms h' = rooms h
       ∧ reservations h' = reservations h
       ∧ next_reservation_id h' = next_reservation_id h).
Proof.
  rewrite add_guest_eq. split; intros Hmem; rewrite Hmem; [done|].
  eexists. split; [done|]. simpl.
  assert (guest_id guest_ ∉ Dict.keys (guests h)) as Hfresh.
  { rewrite <-DictFacts.mem_elem_of_keys. by rewrite Hmem. }
  split_and!; try done.
  - by apply DictFacts.set_fresh.
  - by rewrite DictFacts.get_set, decide_True.
  - intros k Hk. by rewrite DictFacts.get_set, decide_False.
Qed.

Lemma X2_add_guest_witness :
  add_guest Scenario.guest_1 Scenario.hotel = (Raise (GuestExists "G001"), Scenario.hotel).
Proof.
  refine (proj1 (X2_add_guest Scenario.hotel Scenario.guest_1) _).
  reflexivity.
Defined.

(** X3. In every state the operations lead to, each room is filed under its
    room number, each guest under the guest id and each reservation under its
    reservation id, and the guest and the room of every reservation are in the
    registries. *)
Theorem X3_registries_are_consistent h :
  reachable h →
  (∀ k x, Dict.get k (rooms h) = Some x → room_number x = k)
  ∧ (∀ k g, Dict.get k (guests h) = Some g → guest_id g = k)
  ∧ (∀ k r, Dict.get k (reservations h) = Some r →
       reservation_id r = k
       ∧ (∃ g, Dict.get (guest r) (guests h) = Some g ∧ guest_id g = guest r)
       ∧ (∃ x, Dict.get (room r) (rooms h) = Some x ∧ room_number x = room r)).
Proof.
  intros Hwf%reachable_wf. split_and!.
  - apply (wf_rooms_key h Hwf).
  - apply (wf_guests_key h Hwf).
  - intros k r Hk.
    destruct (wf_guest_ref h Hwf k r Hk) as [g Hg].
    destruct (wf_room_ref h Hwf k r Hk) as [x Hx].
    split_and!.
    + by apply (wf_reservations_key h Hwf).
    + exists g. split; [done|]. by apply (wf_guests_key h Hwf).
    + exists x. split; [done|]. by apply (wf_rooms_key h Hwf).
Qed.

Lemma X3_registries_are_consistent_witness :
  reservation_id
    (Reservation_init "RES-1" Scenario.guest_1 Scenario.room_101
       (Scenario.jan 1) (Scenario.jan 5)) = "RES-1"
  ∧ (∃ g, Dict.get "G001" (guests Scenario.with_A) = Some g ∧ guest_id g = "G001")
  ∧ (∃ x, Dict.get "101" (rooms Scenario.with_A) = Some x ∧ room_number x = "101").
Proof.
  refine (proj2 (proj2 (X3_registries_are_consistent Scenario.with_A _)) "RES-1"
    (Reservation_init "RES-1" Scenario.guest_1 Scenario.room_101
       (Scenario.jan 1) (Scenario.jan 5)) _).
  - scenario_reachable.
  - reflexivity.
Defined.

Lemma same_room_data_refl x : same_room_data x x.
Proof. done. Qed.

Lemma same_booking_refl r : same_booking r r.
Proof. by repeat split. Qed.

Lemma keeps_refl h : keeps h h.
Proof.
  unfold keeps. split_and!; try done.
  - intros k x Hk. exists x. by split.
  - intros k r Hk. exists r. split; [done | apply same_booking_refl].
Qed.

Lemma keeps_trans h1 h2 h3 : keeps h1 h2 → keeps h2 h3 → keeps h1 h3.
Proof.
  intros (Hn1 & Hc1 & Hr1 & Hg1 & Hv1 & Hrooms1 & Hguests1 & Hres1)
         (Hn2 & Hc2 & Hr2 & Hg2 & Hv2 & Hrooms2 & Hguests2 & Hres2).
  unfold keeps. split_and!.
  - congruence.
  - lia.
  - by etrans.
  - by etrans.
  - by etrans.
  - intros k x Hk. destruct (Hrooms1 k x Hk) as (x' & Hk' & ? & ? & ?).
    destruct (Hrooms2 k x' Hk') as (x'' & Hk'' & ? & ? & ?).
    exists x''. split; [done|]. unfold same_room_data. split_and!; congruence.
  - intros k g Hk. by apply Hguests2, Hguests1.
  - intros k r Hk.
    destruct (Hres1 k r Hk) as (r' & Hk' & ? & ? & ? & ? & ? & ? & ? & ?).
    destruct (Hres2 k r' Hk') as (r'' & Hk'' & ? & ? & ? & ? & ? & ? & ? & ?).
    exists r''. split; [done|]. unfold same_booking.
    split_and!; try congruence; try by auto. by etrans.
Qed.

Lemma get_alter_room f (k k' : string) (d : Dict.t string Room) x :
  (∀ y, same_room_data y (f y)) →
  Dict.get k' d = Some x →
  ∃ x', Dict.get k' (Dict.alter f k d) = Some x' ∧ same_room_data x x'.
Proof.
  intros Hf Hx. rewrite DictFacts.get_alter, Hx.
  case_decide; simpl; eexists; (split; [done|]); [apply Hf | done].
Qed.

Lemma get_alter_booking f (k k' : string) (d : Dict.t string Reservation) r :
  (∀ y, same_booking y (f y)) →
  Dict.get k' d = Some r →
  ∃ r', Dict.get k' (Dict.alter f k d) = Some r' ∧ same_booking r r'.
Proof.
  intros Hf Hr. rewrite DictFacts.get_alter, Hr.
  case_decide; simpl; eexists; (split; [done|]);
    [apply Hf | apply same_booking_refl].
Qed.

Lemma keeps_step o h h' : reachable h → run o h = (Ok (), h') → keeps h h'.
Proof.
  intros Hreach Hrun. pose proof (reachable_ids_ok h Hreach) as [Hpos Hkeys].
  apply run_ok_inv in Hrun.
  destruct o as [room_|guest_|g n ci co|i|i|i s p].
  - destruct Hrun as [Hmem ->].
    assert (room_number room_ ∉ Dict.keys (rooms h)) as Hfresh.
    { rewrite <-DictFacts.mem_elem_of_keys. by rewrite Hmem. }
    unfold keeps. simpl. split_and!; try done.
    + rewrite DictFacts.keys_set_fresh by done. by apply prefix_app_r.
    + intros k x Hk. exists x. split; [|done].
      rewrite DictFacts.get_set. case_decide as Heq; [|done]. subst k.
      destruct Hfresh. apply DictFacts.mem_elem_of_keys. unfold Dict.mem.
      by rewrite Hk.
    + intros k r Hk. exists r. split; [done | apply same_booking_refl].
  - destruct Hrun as [Hmem ->].
    assert (guest_id guest_ ∉ Dict.keys (guests h)) as Hfresh.
    { rewrite <-DictFacts.mem_elem_of_keys. by rewrite Hmem. }
    unfold keeps. simpl. split_and!; try done.
    + rewrite DictFacts.keys_set_fresh by done. by apply prefix_app_r.
    + intros k x Hk. exists x. by split.
    + intros k x Hk.
      rewrite DictFacts.get_set. case_decide as Heq; [|done]. subst k.
      destruct Hfresh. apply DictFacts.mem_elem_of_keys. unfold Dict.mem.
      by rewrite Hk.
    + intros k r Hk. exists r. split; [done | apply same_booking_refl].
  - destruct Hrun as (guest_ & room_ & _ & _ & _ & _ & ->).
    assert (res_id (next_reservation_id h) ∉ Dict.keys (reservations h)) as Hfresh.
    { rewrite Hkeys. intros Hin%(list_elem_of_fmap_inj_2 res_id)%elem_of_seqZ. lia. }
    unfold keeps. simpl. split_and!; try done.
    + lia.
    + rewrite DictFacts.keys_set_fresh by done. by apply prefix_app_r.
    + intros k x Hk. exists x. by split.
    + intros k r Hk. exists r. split; [|apply same_booking_refl].
      rewrite DictFacts.get_set. case_decide as Heq; [|done]. subst k.
      apply DictFacts.get_None in Hfresh. congruence.
  - destruct Hrun as (r0 & _ & _ & ->).
    unfold keeps. simpl. rewrite !DictFacts.keys_alter. split_and!; try done.
    + intros k x Hk. by apply get_alter_room.
    + intros k r Hk. apply get_alter_booking; [|done].
      intros y. by repeat split.
  - destruct Hrun as (r0 & room_ & _ & _ & _ & _ & ->).
    unfold keeps. simpl. rewrite !DictFacts.keys_alter. split_and!; try done.
    + intros k x Hk. by apply get_alter_room.
    + intros k r Hk.
      destruct (get_alter_booking (set_is_checked_out true) i k (reservations h) r)
        as (r' & Hr' & Hb); [intros y; by repeat split | done |].
      destruct (get_alter_booking
        (set_total_charges (calculate_total_charges (set_is_occupied false room_)
           (set_is_checked_out true r0))) i k
        (Dict.alter (set_is_checked_out true) i (reservations h)) r')
        as (r'' & Hr'' & Hb'); [intros y; by repeat split | done |].
      exists r''. split; [done|].
      destruct Hb as (? & ? & ? & ? & ? & ? & ? & ?),
               Hb' as (? & ? & ? & ? & ? & ? & ? & ?).
      unfold same_booking. split_and!; try congruence; try by auto. by etrans.
  - destruct Hrun as (_ & ->).
    unfold keeps. simpl. rewrite !DictFacts.keys_alter. split_and!; try done.
    + intros k x Hk. exists x. by split.
    + intros k r Hk. apply get_alter_booking; [|done].
      intros y. unfold same_booking. simpl. split_and!; try done.
      by apply prefix_app_r.
Qed.

Lemma keeps_exec os h : reachable h → keeps h (exec os h).
Proof.
  revert h. induction os as [|o os IH]; intros h Hreach; simpl.
  - apply keeps_refl.
  - eapply keeps_trans; [|apply IH, run_reachable, Hreach].
    destruct (run o h) as [[[]|e] h'] eqn:Hrun; simpl.
    + by eapply keeps_step.
    + rewrite (run_raise_unchanged _ _ _ _ (reachable_wf _ Hreach) Hrun).
      apply keeps_refl.
Qed.

(** X4. The operations delete and rewrite nothing.  After any sequence of
    operations, successful or not, on a hotel the operations led to, the
    registries begin with the keys they had; every room is there with its
    number, type and price; every guest is there unchanged; every reservation
    is there with its id, guest, room and dates, still checked in or out if it
    was, its earlier services first; the name is the same and the counter is
    not smaller. *)
Theorem X4_nothing_is_deleted_or_rewritten os h :
  reachable h → keeps h (exec os h).
Proof. apply keeps_exec. Qed.

Lemma X4_nothing_is_deleted_or_rewritten_witness :
  keeps Scenario.with_A Scenario.with_A_B.
Proof.
  refine (X4_nothing_is_deleted_or_rewritten
    [MakeReservation "G001" "101" (Scenario.jan 5) (Scenario.jan 6)]
    Scenario.with_A _).
  scenario_reachable.
Defined.

(** X5. [check_in] and [check_out] touch one reservation and one room:
    after a successful call every other reservation and every other room is
    as it was, and so are the guests, the name, the counter and the order of
    the registries; of the reservation only the flag (and for [check_out] the
    charges) and of its room only [is_occupied] are written. *)
Theorem X5_check_in_and_check_out_touch_nothing_else h i h' :
  check_in i h = (Ok (), h') ∨ check_out i h = (Ok (), h') →
  ∃ r, Dict.get i (reservations h) = Some r
    ∧ (∀ j, j ≠ i → Dict.get j (reservations h') = Dict.get j (reservations h))
    ∧ (∀ k, k ≠ room r → Dict.get k (rooms h') = Dict.get k (rooms h))
    ∧ (∃ r', Dict.get i (reservations h') = Some r'
         ∧ same_booking r r' ∧ services_used r' = services_used r)
    ∧ (∀ x, Dict.get (room r) (rooms h) = Some x →
         ∃ x', Dict.get (room r) (rooms h') = Some x' ∧ same_room_data x x')
    ∧ guests h' = guests h
    ∧ name h' = name h
    ∧ next_reservation_id h' = next_reservation_id h
    ∧ Dict.keys (rooms h') = Dict.keys (rooms h)
    ∧ Dict.keys (reservations h') = Dict.keys (reservations h).
Proof.
  intros [Hin|Hout].
  - apply (run_ok_inv (CheckIn i)) in Hin as (r & Hi & _ & ->).
    exists r. simpl. rewrite !DictFacts.keys_alter. split_and!; try done.
    + intros j Hj. by rewrite DictFacts.get_alter, decide_False.
    + intros k Hk. by rewrite DictFacts.get_alter, decide_False.
    + rewrite DictFacts.get_alter, decide_True, Hi by done.
      eexists. split; [done|]. by repeat split.
    + intros x Hx. by apply get_alter_room.
  - apply (run_ok_inv (CheckOut i)) in Hout as (r & x & Hi & _ & _ & Hx & ->).
    exists r. simpl. rewrite !DictFacts.keys_alter. split_and!; try done.
    + intros j Hj. by rewrite !DictFacts.get_alter, !decide_False.
    + intros k Hk. by rewrite DictFacts.get_alter, decide_False.
    + rewrite !DictFacts.get_alter, !decide_True, Hi by done.
      eexists. split; [done|]. by repeat split.
    + intros y Hy. by apply get_alter_room.
Qed.

Lemma X5_check_in_and_check_out_touch_nothing_else_witness :
  ∃ r, Dict.get "RES-1" (reservations Scenario.with_A_B) = Some r
    ∧ (∀ j, j ≠ "RES-1" →
         Dict.get j (reservations (check_in "RES-1" Scenario.with_A_B).2)
         = Dict.get j (reservations Scenario.with_A_B))
    ∧ (∀ k, k ≠ room r →
         Dict.get k (rooms (check_in "RES-1" Scenario.with_A_B).2)
         = Dict.get k (rooms Scenario.with_A_B))
    ∧ (∃ r', Dict.get "RES-1" (reservations (check_in "RES-1" Scenario.with_A_B).2)
             = Some r'
         ∧ same_booking r r' ∧ services_used r' = services_used r)
    ∧ (∀ x, Dict.get (room r) (rooms Scenario.with_A_B) = Some x →
         ∃ x', Dict.get (room r) (rooms (check_in "RES-1" Scenario.with_A_B).2)
               = Some x' ∧ same_room_data x x')
    ∧ guests (check_in "RES-1" Scenario.with_A_B).2 = guests Scenario.with_A_B
    ∧ name (check_in "RES-1" Scenario.with_A_B).2 = name Scenario.with_A_B
    ∧ next_reservation_id (check_in "RES-1" Scenario.with_A_B).2
      = next_reservation_id Scenario.with_A_B
    ∧ Dict.keys (rooms (check_in "RES-1" Scenario.with_A_B).2)
      = Dict.keys (rooms Scenario.with_A_B)
    ∧ Dict.keys (reservations (check_in "RES-1" Scenario.with_A_B).2)
      = Dict.keys (reservations Scenario.with_A_B).
Proof.
  refine (X5_check_in_and_check_out_touch_nothing_else Scenario.with_A_B "RES-1"
    (check_in "RES-1" Scenario.with_A_B).2 _).
  left. reflexivity.
Defined.

(** X6. [get_available_rooms] and [make_reservation] agree: for a known
    guest, a room of the registry is among the rooms available for the dates
    exactly when a reservation of it for these dates succeeds. *)
Theorem X6_available_iff_reservable h g n ci co guest_ room_ :
  wf h →
  Dict.get g (guests h) = Some guest_ →
  Dict.get n (rooms h) = Some room_ →
  (∃ l, (get_available_rooms ci co h).1 = Ok l ∧ room_ ∈ l)
  ↔ succeeds (make_reservation g n ci co) h.
Proof.
  intros Hwf Hg Hn. pose proof (wf_rooms_key h Hwf n room_ Hn) as Hnum.
  unfold succeeds.
  rewrite get_available_rooms_eq, make_reservation_eq, Hg, Hn. simpl. split.
  - intros (l & [= <-] & (Hocc & Hfree)%list_elem_of_filter).
    destruct Hocc as [Hocc Hno]. rewrite Hocc, <-Hnum, Hno. by eexists.
  - intros [r Hr]. destruct (is_occupied room_) eqn:Hocc; [done|].
    destruct (no_overlapping_reservation n ci co _) eqn:Hno; [|done].
    eexists. split; [done|]. apply list_elem_of_filter.
    split; [by rewrite Hnum | by eapply get_elem_of_values].
Qed.

Lemma X6_available_iff_reservable_witness :
  (∃ l, (get_available_rooms (Scenario.jan 5) (Scenario.jan 6) Scenario.with_A).1 = Ok l
        ∧ Scenario.room_101 ∈ l)
  ↔ succeeds (make_reservation "G001" "101" (Scenario.jan 5) (Scenario.jan 6))
      Scenario.with_A.
Proof.
  refine (X6_available_iff_reservable Scenario.with_A "G001" "101"
    (Scenario.jan 5) (Scenario.jan 6) Scenario.guest_1 Scenario.room_101 _ _ _).
  - apply reachable_wf. scenario_reachable.
  - reflexivity.
  - reflexivity.
Defined.

Lemma available_spec_loop h ci co x :
  available_spec h ci co x
  ↔ is_occupied x = false
    ∧ no_overlapping_reservation (room_number x) ci co
        (Dict.values (reservations h)) = true.
Proof.
  unfold available_spec.
  rewrite no_overlapping_reservation_true, Forall_forall.
  split; intros [Hocc Hall]; (split; [done|]).
  - intros r Hr Hn. apply not_true_iff_false. rewrite dates_overlap_true.
    intros [Hlt Hgt]. by apply (Hall r Hr).
  - intros r Hr (Hn & Hlt & Hgt).
    specialize (Hall r Hr Hn). apply not_true_iff_false in Hall.
    apply Hall, dates_overlap_true. done.
Qed.

Lemma get_available_rooms_filter h ci co :
  (get_available_rooms ci co h).1
  = Ok (filter (available_spec h ci co) (Dict.values (rooms h))).
Proof.
  rewrite get_available_rooms_eq. simpl. f_equal.
  apply list_filter_iff. intros x. by rewrite available_spec_loop.
Qed.

(** X7. A room available for a period is available for every period within
    it: the rooms [get_available_rooms] returns for dates from [ci'] to [co']
    are among those it returns for dates from [ci] to [co] when
    [ci' ≤ ci] and [co ≤ co'], in the same order. *)
Theorem X7_available_for_shorter_periods h ci co ci' co' l l' :
  ci' ≤ ci → co ≤ co' →
  (get_available_rooms ci' co' h).1 = Ok l' →
  (get_available_rooms ci co h).1 = Ok l →
  l' `sublist_of` l ∧ ∀ x, x ∈ l' → x ∈ l.
Proof.
  intros Hci Hco. rewrite !get_available_rooms_filter.
  intros [= <-] [= <-].
  assert (Himp : ∀ x, available_spec h ci' co' x → available_spec h ci co x).
  { intros x [Hocc Hall]. split; [done|].
    eapply Forall_impl; [exact Hall|]. simpl. intros r Hr (? & ? & ?).
    apply Hr. split_and!; [done | lia | lia]. }
  split.
  - induction (Dict.values (rooms h)) as [|x xs IH]; [done|].
    rewrite !filter_cons.
    destruct (decide (available_spec h ci' co' x)) as [Hx|Hx].
    + rewrite decide_True by auto. by apply sublist_skip.
    + case_decide; [by apply sublist_cons | done].
  - intros x (Hx & Hin)%list_elem_of_filter. apply list_elem_of_filter. auto.
Qed.

Lemma X7_available_for_shorter_periods_witness :
  [Scenario.room_101] `sublist_of` [Scenario.room_101]
  ∧ ∀ x, x ∈ [Scenario.room_101] → x ∈ [Scenario.room_101].
Proof.
  refine (X7_available_for_shorter_periods Scenario.with_A
    (Scenario.jan 6) (Scenario.jan 7) (Scenario.jan 5) (Scenario.jan 10)
    [Scenario.room_101] [Scenario.room_101] _ _ _ _).
  - vm_compute. discriminate.
  - vm_compute. discriminate.
  - reflexivity.
  - reflexivity.
Defined.

(** X8. With whole numbers for the prices [check_out] does not change
    what is charged: in a state the operations led to, for a room and
    services at whole-number prices, none negative, and charges below 2^53,
    the charges [check_out] recomputes are the charges the reservation
    already had, [add_service] having kept them up to date; the services are
    as they were. *)
Theorem X8_check_out_keeps_the_charges h i r x P zs h' :
  reachable h →
  Dict.get i (reservations h) = Some r →
  Dict.get (room r) (rooms h) = Some x →
  Calendar.valid (check_in_date r) → Calendar.valid (check_out_date r) →
  check_in_date r ≤ check_out_date r →
  whole (price_per_night x) P → P < 2 ^ 53 →
  Forall2 (λ s z, whole s.2 z) (services_used r) zs →
  P * (check_out_date r - check_in_date r) + foldr Z.add 0 zs < 2 ^ 53 →
  check_out i h = (Ok (), h') →
  ∃ r', Dict.get i (reservations h') = Some r'
    ∧ total_charges r' = total_charges r
    ∧ services_used r' = services_used r.
Proof.
  intros Hreach Hi Hx Hci Hco Hle HP HP' Hs Hlt Hout.
  destruct (whole_charges h i r x P zs) as [Ht Hc]; try done.
  { unfold Calendar.valid, Calendar.MAXORDINAL in *. lia. }
  apply (run_ok_inv (CheckOut i)) in Hout as (r0 & x0 & Hi0 & _ & _ & Hx0 & ->).
  simplify_eq. eexists. split; [by apply checked_out_reservation|].
  simpl. split; [|done]. rewrite Ht, <-Hc. done.
Qed.

Lemma X8_check_out_keeps_the_charges_witness :
  ∃ r', Dict.get "RES-1" (reservations Scenario.after_check_out) = Some r'
    ∧ total_charges r' = 215%float
    ∧ services_used r' = [("Breakfast", 15%float)].
Proof.
  refine (X8_check_out_keeps_the_charges
    (exec [CheckIn "RES-1"] Scenario.with_breakfast) "RES-1"
    (set_is_checked_in true
       (add_service "Breakfast" 15
          (Reservation_init "RES-1" Scenario.guest_1 Scenario.room_101
             (Scenario.jan 1) (Scenario.jan 3))))
    (set_is_occupied true Scenario.room_101) 100 [15]
    Scenario.after_check_out _ _ _ _ _ _ _ _ _ _ _).
  - scenario_reachable.
  - reflexivity.
  - reflexivity.
  - vm_compute. split; discriminate.
  - vm_compute. split; discriminate.
  - vm_compute. discriminate.
  - split; [lia|reflexivity].
  - lia.
  - constructor; [split; [lia|reflexivity]|constructor].
  - vm_compute. reflexivity.
  - reflexivity.
Defined.

(** X9. A service can be added to a reservation in any state of its life,
    checked out included: [add_service] asks for nothing but the reservation,
    appends the service, adds its price to the charges, and leaves the flags,
    the other reservations, the rooms, the guests and the counter as they
    were.  For an unknown id nothing changes. *)
Theorem X9_add_service_at_any_time h i s p :
  (Dict.get i (reservations h) = None →
     add_service_to_reservation i s p h = (Raise (ReservationNotFound i), h))
  ∧ (∀ r, Dict.get i (reservations h) = Some r →
       ∃ h' r',
         add_service_to_reservation i s p h = (Ok (), h')
         ∧ Dict.get i (reservations h') = Some r'
         ∧ services_used r' = services_used r ++ [(s, p)]
         ∧ total_charges r' = (total_charges r + p)%float
         ∧ is_checked_in r' = is_checked_in r
         ∧ is_checked_out r' = is_checked_out r
         ∧ same_booking r r'
         ∧ (∀ j, j ≠ i → Dict.get j (reservations h') = Dict.get j (reservations h))
         ∧ Dict.keys (reservations h') = Dict.keys (reservations h)
         ∧ rooms h' = rooms h ∧ guests h' = guests h
         ∧ name h' = name h
         ∧ next_reservation_id h' = next_reservation_id h).
Proof.
  rewrite add_service_to_reservation_eq. split.
  - by intros ->.
  - intros r Hi. rewrite Hi. eexists _, _. split; [done|]. simpl.
    rewrite DictFacts.get_alter, decide_True, Hi, DictFacts.keys_alter by done.
    split; [done|]. simpl. split_and!; try done.
    + unfold same_booking. simpl. split_and!; try done. by apply prefix_app_r.
    + intros j Hj. by rewrite DictFacts.get_alter, decide_False.
Qed.

Lemma X9_add_service_at_any_time_witness :
  ∃ h' r',
    add_service_to_reservation "RES-1" "Minibar" 20 Scenario.after_check_out
    = (Ok (), h')
    ∧ Dict.get "RES-1" (reservations h') = Some r'
    ∧ services_used r' = [("Breakfast", 15%float)] ++ [("Minibar", 20%float)]
    ∧ total_charges r' = (215 + 20)%float
    ∧ is_checked_in r' = true
    ∧ is_checked_out r' = true
    ∧ same_booking
        (mkReservation "RES-1" "G001" "101" (Scenario.jan 1) (Scenario.jan 3)
           true true [("Breakfast", 15%float)] 215) r'
    ∧ (∀ j, j ≠ "RES-1" →
         Dict.get j (reservations h') = Dict.get j (reservations Scenario.after_check_out))
    ∧ Dict.keys (reservations h') = Dict.keys (reservations Scenario.after_check_out)
    ∧ rooms h' = rooms Scenario.after_check_out
    ∧ guests h' = guests Scenario.after_check_out
    ∧ name h' = name Scenario.after_check_out
    ∧ next_reservation_id h' = next_reservation_id Scenario.after_check_out.
Proof.
  refine (proj2 (X9_add_service_at_any_time Scenario.after_check_out
    "RES-1" "Minibar" 20)
    (mkReservation "RES-1" "G001" "101" (Scenario.jan 1) (Scenario.jan 3)
       true true [("Breakfast", 15%float)] 215) _).
  reflexivity.
Defined.

(** X10. [make_reservation] does not check that the id it forms is free.
    In a hotel whose counter names an id in use, as [load_from_file] returns
    one from a file whose counter is behind its reservations, a successful
    [make_reservation] puts the new reservation in the place of the one that
    had the id: the registry has the same keys, and the other entries are as
    they were. *)
Theorem X10_make_reservation_replaces_an_id_in_use :
  (∀ h g n ci co r h' old,
     make_reservation g n ci co h = (Ok r, h') →
     Dict.get (res_id (next_reservation_id h)) (reservations h) = Some old →
     Dict.get (res_id (next_reservation_id h)) (reservations h') = Some r
     ∧ Dict.keys (reservations h') = Dict.keys (reservations h)
     ∧ (∀ k, k ≠ res_id (next_reservation_id h) →
          Dict.get k (reservations h') = Dict.get k (reservations h)))
  ∧ (∀ h n, wf h → dates_valid h →
       load_from_file (save_to_file (set_next_reservation_id n h))
       = Ok (set_next_reservation_id n h)).
Proof.
  split.
  - intros h g n ci co r h' old. rewrite make_reservation_eq.
    destruct (Dict.get g (guests h)) as [guest_|]; [|done].
    destruct (Dict.get n (rooms h)) as [room_|]; [|done].
    destruct (is_occupied room_); [done|].
    destruct (no_overlapping_reservation _ _ _ _); [|done].
    intros [= <- <-] Hold. simpl. split_and!.
    + by rewrite DictFacts.get_set, decide_True.
    + apply DictFacts.keys_set_mem, DictFacts.mem_elem_of_keys.
      unfold Dict.mem. by rewrite Hold.
    + intros k Hk. by rewrite DictFacts.get_set, decide_False.
  - intros h n [Hr Hg Hv Hrk Hgk Hvk Hrr Hgr] Hdates.
    apply load_from_file_save; [by split | done].
Qed.

Lemma X10_make_reservation_replaces_an_id_in_use_witness :
  Dict.get "RES-1"
    (reservations
       (make_reservation "G001" "101" (Scenario.jan 5) (Scenario.jan 6)
          (set_next_reservation_id 1 Scenario.with_A)).2)
  = Some (Reservation_init "RES-1" Scenario.guest_1 Scenario.room_101
            (Scenario.jan 5) (Scenario.jan 6))
  ∧ Dict.keys
      (reservations
         (make_reservation "G001" "101" (Scenario.jan 5) (Scenario.jan 6)
            (set_next_reservation_id 1 Scenario.with_A)).2)
    = Dict.keys (reservations (set_next_reservation_id 1 Scenario.with_A))
  ∧ (∀ k, k ≠ res_id (next_reservation_id (set_next_reservation_id 1 Scenario.with_A)) →
       Dict.get k
         (reservations
            (make_reservation "G001" "101" (Scenario.jan 5) (Scenario.jan 6)
               (set_next_reservation_id 1 Scenario.with_A)).2)
       = Dict.get k (reservations (set_next_reservation_id 1 Scenario.with_A))).
Proof.
  refine (proj1 X10_make_reservation_replaces_an_id_in_use
    (set_next_reservation_id 1 Scenario.with_A) "G001" "101"
    (Scenario.jan 5) (Scenario.jan 6)
    (Reservation_init "RES-1" Scenario.guest_1 Scenario.room_101
       (Scenario.jan 5) (Scenario.jan 6))
    (make_reservation "G001" "101" (Scenario.jan 5) (Scenario.jan 6)
       (set_next_reservation_id 1 Scenario.with_A)).2
    (Reservation_init "RES-1" Scenario.guest_1 Scenario.room_101
       (Scenario.jan 1) (Scenario.jan 5)) _ _).
  - reflexivity.
  - reflexivity.
Defined.

Lemma last_with_cons {A} (key : A → string) k x (l : list A) :
  last_with key k (x :: l)
  = match last_with key k l with
    | Some y => Some y
    | None => if decide (key x = k) then Some x else None
    end.
Proof.
  unfold last_with. rewrite filter_cons. case_decide; [|by destruct (last _)].
  by rewrite last_cons.
Qed.

Lemma get_foldl_set {A} (key : A → string) (acc : Dict.t string A) l k :
  Dict.get k (foldl (λ d v, Dict.set (key v) v d) acc l)
  = match last_with key k l with
    | Some v => Some v
    | None => Dict.get k acc
    end.
Proof.
  revert acc. induction l as [|x l IH]; intros acc; [done|].
  simpl. rewrite IH, last_with_cons, DictFacts.get_set.
  destruct (last_with key k l); [done|].
  repeat case_decide; congruence.
Qed.

Lemma load_reservation_frame res_data h r h' :
  load_reservation res_data h = (r, h') →
  rooms h' = rooms h ∧ guests h' = guests h ∧ name h' = name h
  ∧ next_reservation_id h' = next_reservation_id h.
Proof.
  intros Hload. unfold load_reservation in Hload.
  lift_inv Hload.
  apply lookup_or_raise_bind_inv in Hload as [(guest_ & Hg & Hload)| ->]; [|done].
  lift_inv Hload.
  apply lookup_or_raise_bind_inv in Hload as [(room_ & Hr & Hload)| ->]; [|done].
  do 7 lift_inv Hload. by injection Hload as <- <-.
Qed.

Lemma load_from_file_hotel_data nm n rs gs rsv h :
  load_from_file (hotel_data nm n rs gs rsv) = Ok h →
  rooms h = foldl (λ d x, Dict.set (room_number x) x d) [] rs
  ∧ guests h = foldl (λ d g, Dict.set (guest_id g) g d) [] gs
  ∧ name h = nm ∧ next_reservation_id h = n.
Proof.
  unfold load_from_file.
  change (string_item "name" (hotel_data nm n rs gs rsv)) with (Ok nm).
  unfold mbind at 1, result_bind.
  destruct (load_into_hotel _ _) as [[[]|e] h'] eqn:Hload; [|done].
  intros [= <-]. revert Hload.
  unfold load_into_hotel, hotel_data, number_item, list_item, lift.
  unfold_M. unfold result_bind. simpl.
  rewrite for_each_load_room, for_each_load_guest.
  set (h2 := set_guests _ _). intros Hload.
  apply (for_each_invariant (λ h, rooms h = rooms h2 ∧ guests h = guests h2
    ∧ name h = name h2 ∧ next_reservation_id h = next_reservation_id h2))
    in Hload; [done| |done].
  intros x h0 r0 h0' (E1 & E2 & E3 & E4) Hx.
  apply load_reservation_frame in Hx as (? & ? & ? & ?). split_and!; congruence.
Qed.

(** X11. [load_from_file] files the rooms and guests of the file without
    the test of [add_room] and [add_guest]: a second room with the number of
    an earlier one, or a second guest with the id of an earlier one, is not
    refused but takes the place of the first.  Whatever the lists, when no
    reservation stands in the way the file loads, and in every hotel loaded
    the room under a number is the last room of the file with this number, the
    guest under an id the last guest with this id. *)
Theorem X11_load_keeps_the_last_of_equal_ids nm n rs gs :
  (∃ h, load_from_file (hotel_data nm n rs gs []) = Ok h)
  ∧ (∀ rsv h, load_from_file (hotel_data nm n rs gs rsv) = Ok h →
       (∀ k, Dict.get k (rooms h) = last_with room_number k rs)
       ∧ (∀ k, Dict.get k (guests h) = last_with guest_id k gs)
       ∧ name h = nm ∧ next_reservation_id h = n)
  ∧ (∀ h, save_to_file h
          = hotel_data (name h) (next_reservation_id h) (Dict.values (rooms h))
              (Dict.values (guests h)) (Dict.values (reservations h))).
Proof.
  split_and!; [| |done].
  - unfold load_from_file.
    change (string_item "name" (hotel_data nm n rs gs [])) with (Ok nm).
    unfold mbind at 1, result_bind.
    unfold load_into_hotel, hotel_data, number_item, list_item, lift.
    unfold_M. unfold result_bind. simpl.
    rewrite for_each_load_room, for_each_load_guest. by eexists.
  - intros rsv h (Hrooms & Hguests & Hname & Hnext)%load_from_file_hotel_data.
    split_and!; [| |done|done].
    + intros k. rewrite Hrooms, get_foldl_set. by destruct (last_with _ _ _).
    + intros k. rewrite Hguests, get_foldl_set. by destruct (last_with _ _ _).
Qed.

Lemma X11_load_keeps_the_last_of_equal_ids_witness :
  (∀ k, Dict.get k [("101", mkRoom "101" "Suite" 250 false)]
        = last_with room_number k
            [mkRoom "101" "Single" 100 false; mkRoom "101" "Suite" 250 false])
  ∧ (∀ k, Dict.get k (@nil (string * Guest)) = last_with guest_id k [])
  ∧ "Twice" = "Twice" ∧ 1 = 1.
Proof.
  refine (proj1 (proj2 (X11_load_keeps_the_last_of_equal_ids "Twice" 1
    [mkRoom "101" "Single" 100 false; mkRoom "101" "Suite" 250 false] []))
    [] (mkHotel "Twice" [("101", mkRoom "101" "Suite" 250 false)] [] [] 1) _).
  reflexivity.
Defined.

Lemma occupied_step o h h' :
  reachable h →
  (∀ k x, Dict.get k (rooms h) = Some x → is_occupied x = true → has_guest_in h k) →
  adds_vacant_rooms [o] →
  run o h = (Ok (), h') →
  ∀ k x, Dict.get k (rooms h') = Some x → is_occupied x = true → has_guest_in h' k.
Proof.
  intros Hreach Hinv Hvacant Hrun.
  unfold adds_vacant_rooms in Hvacant. rewrite Forall_singleton in Hvacant.
  pose proof (reachable_ids_ok h Hreach) as [Hpos Hkeys].
  pose proof (reachable_lifecycle_ok h Hreach) as Hlife.
  apply run_ok_inv in Hrun.
  destruct o as [room_|guest_|g n ci co|i|i|i s p].
  - destruct Hrun as [_ ->]. intros k x. simpl.
    rewrite DictFacts.get_set. case_decide.
    + intros [= <-]. congruence.
    + intros Hk Hocc. by apply (Hinv k x).
  - destruct Hrun as [_ ->]. exact Hinv.
  - destruct Hrun as (guest_ & room_ & _ & _ & _ & _ & ->).
    intros k x Hk Hocc. simpl in Hk.
    destruct (Hinv k x Hk Hocc) as (j & r & Hj & Hjr).
    exists j, r. split; [|done]. simpl.
    rewrite DictFacts.get_set, decide_False; [done|]. intros ->.
    assert (Dict.get (res_id (next_reservation_id h)) (reservations h) = None);
      [|congruence].
    apply DictFacts.get_None. rewrite Hkeys.
    intros Hin%(list_elem_of_fmap_inj_2 res_id)%elem_of_seqZ. lia.
  - destruct Hrun as (r & Hi & Hin & ->). intros k x. simpl.
    rewrite DictFacts.get_alter. case_decide as Hk.
    + intros _ _. subst k. exists i, (set_is_checked_in true r). simpl.
      rewrite DictFacts.get_alter, decide_True, Hi by done.
      split_and!; try done.
      destruct (is_checked_out r) eqn:Hout; [|done].
      rewrite (Hlife i r Hi Hout) in Hin. done.
    + intros Hx Hocc. destruct (Hinv k x Hx Hocc) as (j & rj & Hj & Hroom & Hjr).
      exists j, rj. split; [|done]. simpl.
      rewrite DictFacts.get_alter, decide_False; [done|]. intros ->.
      congruence.
  - destruct Hrun as (r & room_ & Hi & _ & _ & _ & ->). intros k x. simpl.
    rewrite DictFacts.get_alter. case_decide as Hk.
    + intros (y & _ & ->)%option_fmap_Some_inv. done.
    + intros Hx Hocc. destruct (Hinv k x Hx Hocc) as (j & rj & Hj & Hroom & Hjr).
      exists j, rj. split; [|done]. simpl.
      rewrite !DictFacts.get_alter, !decide_False; [done| |]; intros ->; congruence.
  - destruct Hrun as (_ & ->). intros k x Hx Hocc. simpl in Hx.
    destruct (Hinv k x Hx Hocc) as (j & rj & Hj & Hroom & Hin & Hout). simpl.
    destruct (decide (j = i)) as [->|Hne].
    + exists i, (add_service s p rj). simpl.
      by rewrite DictFacts.get_alter, decide_True, Hj.
    + exists j, rj. simpl. by rewrite DictFacts.get_alter, decide_False.
Qed.

Lemma occupied_exec os h :
  reachable h →
  (∀ k x, Dict.get k (rooms h) = Some x → is_occupied x = true → has_guest_in h k) →
  adds_vacant_rooms os →
  ∀ k x, Dict.get k (rooms (exec os h)) = Some x → is_occupied x = true →
    has_guest_in (exec os h) k.
Proof.
  revert h. induction os as [|o os IH]; intros h Hreach Hinv Hvacant; [done|].
  apply Forall_cons in Hvacant as [Ho Hos]. simpl.
  apply IH; [by apply run_reachable| |done].
  destruct (run o h) as [[[]|e] h'] eqn:Hrun; simpl.
  - eapply occupied_step; [done | done | by apply Forall_singleton | done].
  - by rewrite (run_raise_unchanged _ _ _ _ (reachable_wf _ Hreach) Hrun).
Qed.

(** X12. An occupied room has a guest in it: in a hotel whose rooms were
    added not occupied, after any sequence of operations a room with
    [is_occupied] set has a reservation that is checked in and not checked
    out. *)
Theorem X12_an_occupied_room_has_a_guest nm os k x :
  adds_vacant_rooms os →
  Dict.get k (rooms (exec os (Hotel_init nm))) = Some x →
  is_occupied x = true →
  has_guest_in (exec os (Hotel_init nm)) k.
Proof.
  intros Hvacant. apply occupied_exec; [apply reachable_init | done | done].
Qed.

Lemma X12_an_occupied_room_has_a_guest_witness :
  has_guest_in
    (exec [AddRoom Scenario.room_101; AddGuest Scenario.guest_1;
           MakeReservation "G001" "101" (Scenario.jan 1) (Scenario.jan 5);
           CheckIn "RES-1"] (Hotel_init "Grand Hotel")) "101".
Proof.
  refine (X12_an_occupied_room_has_a_guest "Grand Hotel"
    [AddRoom Scenario.room_101; AddGuest Scenario.guest_1;
     MakeReservation "G001" "101" (Scenario.jan 1) (Scenario.jan 5);
     CheckIn "RES-1"] "101" (set_is_occupied true Scenario.room_101) _ _ _).
  - repeat constructor.
  - reflexivity.
  - reflexivity.
Defined.

(** X13. Checking a reservation in closes its room for every date: for a
    reservation not yet checked in, [check_in] succeeds, and afterwards
    [make_reservation] for this room fails with "is already occupied" for any
    known guest and any dates, and no call of [get_available_rooms] returns
    the room. *)
Theorem X13_check_in_closes_the_room h i r g ci co :
  wf h →
  Dict.get i (reservations h) = Some r →
  is_checked_in r = false →
  is_Some (Dict.get g (guests h)) →
  ∃ h1, check_in i h = (Ok (), h1)
    ∧ (make_reservation g (room r) ci co h1).1 = Raise (RoomOccupied (room r))
    ∧ ∃ l, (get_available_rooms ci co h1).1 = Ok l
           ∧ ∀ x, x ∈ l → room_number x ≠ room r.
Proof.
  intros Hwf Hi Hin [guest_ Hg].
  destruct (wf_room_ref h Hwf i r Hi) as [x Hx].
  pose proof (check_in_ok h i r Hi Hin) as Hrun.
  assert (wf (checked_in i r h)) as Hwf1 by by apply (wf_step (CheckIn i) h).
  pose proof (checked_in_room h i r x Hx) as Hx1.
  exists (checked_in i r h). split; [done|]. split.
  - rewrite make_reservation_eq, Hx1. simpl. by rewrite Hg.
  - rewrite get_available_rooms_filter. eexists. split; [done|].
    intros y ([Hocc _] & Hy)%list_elem_of_filter Hnum.
    apply DictFacts.elem_of_values in Hy as [k Hk].
    apply DictFacts.elem_of_get in Hk; [|apply (wf_rooms_nodup _ Hwf1)].
    pose proof (wf_rooms_key _ Hwf1 k y Hk) as Hky.
    rewrite <-Hky, Hnum, Hx1 in Hk. by injection Hk as <-.
Qed.

Lemma X13_check_in_closes_the_room_witness :
  ∃ h1, check_in "RES-1" Scenario.with_A = (Ok (), h1)
    ∧ (make_reservation "G001" "101" (Scenario.jan 20) (Scenario.jan 22) h1).1
      = Raise (RoomOccupied "101")
    ∧ ∃ l, (get_available_rooms (Scenario.jan 20) (Scenario.jan 22) h1).1 = Ok l
           ∧ ∀ x, x ∈ l → room_number x ≠ "101".
Proof.
  refine (X13_check_in_closes_the_room Scenario.with_A "RES-1"
    (Reservation_init "RES-1" Scenario.guest_1 Scenario.room_101
       (Scenario.jan 1) (Scenario.jan 5))
    "G001" (Scenario.jan 20) (Scenario.jan 22) _ _ _ _).
  - apply reachable_wf. scenario_reachable.
  - reflexivity.
  - reflexivity.
  - by eexists.
Defined.

(** X14. A reservation keeps its dates taken after check-out: reservations
    are never removed and the date test does not look at their flags, so
    after a successful [check_out] a request for the same room that overlaps
    the dates of the checked-out reservation fails with "is not available for
    the selected dates" for any known guest, and [get_available_rooms] for
    such dates does not return the room. *)
Theorem X14_a_checked_out_reservation_keeps_its_dates h i r h' g ci co :
  wf h →
  Dict.get i (reservations h) = Some r →
  check_out i h = (Ok (), h') →
  is_Some (Dict.get g (guests h)) →
  ci < check_out_date r → co > check_in_date r →
  (make_reservation g (room r) ci co h').1 = Raise (RoomNotAvailable (room r))
  ∧ ∃ l, (get_available_rooms ci co h').1 = Ok l
         ∧ ∀ x, x ∈ l → room_number x ≠ room r.
Proof.
  intros Hwf Hi Hout [guest_ Hg] Hlt Hgt.
  apply (run_ok_inv (CheckOut i)) in Hout as (r0 & x & Hi0 & _ & _ & Hx & ->).
  simplify_eq.
  pose proof (checked_out_reservation h i r (set_is_occupied false x) Hi) as Hi'.
  pose proof (checked_out_room h i r (set_is_occupied false x) x Hx) as Hx'.
  set (h' := checked_out i r (set_is_occupied false x) h) in *.
  set (r' := set_total_charges _ _) in *.
  assert (∀ n, n = room r →
    no_overlapping_reservation n ci co (Dict.values (reservations h')) = false)
    as Hblocked.
  { intros n ->. apply no_overlapping_reservation_false. exists r'.
    split; [by eapply get_elem_of_values | done]. }
  split.
  - rewrite make_reservation_eq, Hx'.
    change (guests h') with (guests h). rewrite Hg. simpl.
    by rewrite Hblocked.
  - rewrite get_available_rooms_filter. eexists. split; [done|].
    intros y ((_ & Hfree)%available_spec_loop & _)%list_elem_of_filter Hnum.
    rewrite Hblocked in Hfree; done.
Qed.

Lemma X14_a_checked_out_reservation_keeps_its_dates_witness :
  (make_reservation "G001" "101" (Scenario.jan 2) (Scenario.jan 4)
     Scenario.after_check_out).1 = Raise (RoomNotAvailable "101")
  ∧ ∃ l, (get_available_rooms (Scenario.jan 2) (Scenario.jan 4)
            Scenario.after_check_out).1 = Ok l
         ∧ ∀ x, x ∈ l → room_number x ≠ "101".
Proof.
  refine (X14_a_checked_out_reservation_keeps_its_dates
    (exec [CheckIn "RES-1"] Scenario.with_breakfast) "RES-1"
    (set_is_checked_in true
       (add_service "Breakfast" 15
          (Reservation_init "RES-1" Scenario.guest_1 Scenario.room_101
             (Scenario.jan 1) (Scenario.jan 3))))
    Scenario.after_check_out "G001" (Scenario.jan 2) (Scenario.jan 4) _ _ _ _ _ _).
  - apply reachable_wf. scenario_reachable.
  - reflexivity.
  - reflexivity.
  - by eexists.
  - vm_compute. reflexivity.
  - vm_compute. reflexivity.
Defined.

(** X15. Only [check_in] and [check_out] write to a room: a successful
    [add_room], [add_guest], [make_reservation] or [add_service] leaves every
    room of the registry exactly as it was, [is_occupied] included; a
    reservation made for a room does not mark it occupied. *)
Theorem X15_only_check_in_and_check_out_write_rooms o h h' :
  leaves_rooms o →
  run o h = (Ok (), h') →
  ∀ k x, Dict.get k (rooms h) = Some x → Dict.get k (rooms h') = Some x.
Proof.
  intros Ho Hrun. apply run_ok_inv in Hrun.
  destruct o as [room_|guest_|g n ci co|i|i|i s p]; try done.
  - destruct Hrun as [Hmem ->]. intros k x Hk. simpl.
    rewrite DictFacts.get_set. case_decide as Heq; [|done]. subst k.
    unfold Dict.mem in Hmem. by rewrite Hk in Hmem.
  - by destruct Hrun as [_ ->].
  - by destruct Hrun as (guest_ & room_ & _ & _ & _ & _ & ->).
  - by destruct Hrun as (_ & ->).
Qed.

Lemma X15_only_check_in_and_check_out_write_rooms_witness :
  Dict.get "101" (rooms Scenario.with_A) = Some Scenario.room_101.
Proof.
  refine (X15_only_check_in_and_check_out_write_rooms
    (MakeReservation "G001" "101" (Scenario.jan 1) (Scenario.jan 5))
    Scenario.hotel Scenario.with_A _ _ "101" Scenario.room_101 _).
  - exact I.
  - reflexivity.
  - reflexivity.
Defined.

(** X16. What [make_reservation] stores: on success, in a hotel whose
    registries are consistent, the reservation returned is the one filed
    under its id; it refers to the guest and the room asked for, has the dates
    asked for, is neither checked in nor checked out and has no services; the
    rooms, the guests and the name of the hotel are untouched, and so is every
    reservation filed under another id. *)
Theorem X16_make_reservation_stores_the_request h g n ci co r h' :
  wf h →
  make_reservation g n ci co h = (Ok r, h') →
  Dict.get (reservation_id r) (reservations h') = Some r
  ∧ guest r = g ∧ room r = n
  ∧ check_in_date r = ci ∧ check_out_date r = co
  ∧ is_checked_in r = false ∧ is_checked_out r = false
  ∧ services_used r = []
  ∧ rooms h' = rooms h ∧ guests h' = guests h ∧ name h' = name h
  ∧ (∀ k, k ≠ reservation_id r →
       Dict.get k (reservations h') = Dict.get k (reservations h)).
Proof.
  intros Hwf. rewrite make_reservation_eq.
  destruct (Dict.get g (guests h)) as [guest_|] eqn:Hg; [|done].
  destruct (Dict.get n (rooms h)) as [room_|] eqn:Hn; [|done].
  destruct (is_occupied room_); [done|].
  destruct (no_overlapping_reservation _ _ _ _); [|done].
  intros [= <- <-]. simpl. split_and!; try done.
  - by rewrite DictFacts.get_set, decide_True.
  - by apply (wf_guests_key h Hwf).
  - by apply (wf_rooms_key h Hwf).
  - intros k Hk. by rewrite DictFacts.get_set, decide_False.
Qed.

Lemma X16_make_reservation_stores_the_request_witness :
  Dict.get "RES-1" (reservations Scenario.with_A)
  = Some (Reservation_init "RES-1" Scenario.guest_1 Scenario.room_101
            (Scenario.jan 1) (Scenario.jan 5))
  ∧ "G001" = "G001" ∧ "101" = "101"
  ∧ Scenario.jan 1 = Scenario.jan 1 ∧ Scenario.jan 5 = Scenario.jan 5
  ∧ false = false ∧ false = false
  ∧ @nil (string * float) = []
  ∧ rooms Scenario.with_A = rooms Scenario.hotel
  ∧ guests Scenario.with_A = guests Scenario.hotel
  ∧ name Scenario.with_A = name Scenario.hotel
  ∧ (∀ k, k ≠ "RES-1" →
       Dict.get k (reservations Scenario.with_A)
       = Dict.get k (reservations Scenario.hotel)).
Proof.
  refine (X16_make_reservation_stores_the_request Scenario.hotel "G001" "101"
    (Scenario.jan 1) (Scenario.jan 5)
    (Reservation_init "RES-1" Scenario.guest_1 Scenario.room_101
       (Scenario.jan 1) (Scenario.jan 5))
    Scenario.with_A _ _).
  - apply reachable_wf. scenario_reachable.
  - reflexivity.
Defined.

(** X17. Charges are not negative when nothing negative went in: in a state
    the operations led to, a reservation whose check-out date is not before
    its check-in date, whose room has a finite price that is not negative and
    whose services all have prices that are not negative has charges that are
    not negative (and not nan). *)
Theorem X17_charges_are_not_negative h i r x :
  reachable h →
  Dict.get i (reservations h) = Some r →
  Dict.get (room r) (rooms h) = Some x →
  Calendar.valid (check_in_date r) → Calendar.valid (check_out_date r) →
  check_in_date r ≤ check_out_date r →
  not_negative (price_per_night x) →
  is_finite (price_per_night x) = true →
  Forall (λ s, not_negative s.2) (services_used r) →
  not_negative (total_charges r).
Proof.
  intros Hreach Hi Hx Hci Hco Hdates Hprice Hfinite Hservices.
  destruct (reachable_charges_accumulated h Hreach i r Hi) as (x' & Hx' & Hc).
  simplify_eq.
  assert (not_negative (room_charges x r)) as Hroom.
  { apply FloatFacts.mul_not_negative; [done..|].
    unfold Calendar.valid, Calendar.MAXORDINAL in *. lia. }
  destruct (is_checked_out r).
  - destruct Hc as (before & after & Hs & ->).
    rewrite Hs in Hservices. apply Forall_app in Hservices as [Hb Ha].
    apply FloatFacts.charged_not_negative; [|done].
    apply FloatFacts.add_not_negative; [done|].
    by apply FloatFacts.charged_not_negative.
  - rewrite Hc. by apply FloatFacts.charged_not_negative.
Qed.

Lemma X17_charges_are_not_negative_witness : not_negative 215.
Proof.
  refine (X17_charges_are_not_negative Scenario.after_check_out "RES-1"
    (set_total_charges 215
       (set_is_checked_out true
          (set_is_checked_in true
             (add_service "Breakfast" 15
                (Reservation_init "RES-1" Scenario.guest_1 Scenario.room_101
                   (Scenario.jan 1) (Scenario.jan 3))))))
    (set_is_occupied false (set_is_occupied true Scenario.room_101))
    _ _ _ _ _ _ _ _ _).
  - scenario_reachable.
  - reflexivity.
  - reflexivity.
  - vm_compute. split; discriminate.
  - vm_compute. split; discriminate.
  - vm_compute. discriminate.
  - reflexivity.
  - reflexivity.
  - repeat constructor.
Defined.

(** X18. Two hotels with the same file are the same hotel: on hotels with
    consistent registries and dates of [datetime], [save_to_file] loses
    nothing of the name, the counter, the rooms, the guests and the
    reservations, their order included. *)
Theorem X18_save_to_file_loses_nothing h1 h2 :
  wf h1 → dates_valid h1 → wf h2 → dates_valid h2 →
  save_to_file h1 = save_to_file h2 → h1 = h2.
Proof.
  intros Hwf1 Hd1 Hwf2 Hd2 Hsave.
  pose proof (load_from_file_save h1 Hwf1 Hd1) as H1.
  pose proof (load_from_file_save h2 Hwf2 Hd2) as H2.
  rewrite Hsave, H2 in H1. by injection H1.
Qed.

Lemma X18_save_to_file_loses_nothing_witness : Scenario.with_A = Scenario.with_A.
Proof.
  refine (X18_save_to_file_loses_nothing Scenario.with_A Scenario.with_A _ _ _ _ _).
  - apply reachable_wf. scenario_reachable.
  - intros r Hr. vm_compute in Hr.
    apply list_elem_of_singleton in Hr as ->. vm_compute.
    repeat split; discriminate.
  - apply reachable_wf. scenario_reachable.
  - intros r Hr. vm_compute in Hr.
    apply list_elem_of_singleton in Hr as ->. vm_compute.
    repeat split; discriminate.
  - reflexivity.
Defined.
